(** * ADR Server: a shallow embedding of [LabRAD/Servers/ADR/ADRServer.py]

    The development follows the server class [ADRServer]: the shared
    [state]/[lastState] dictionaries, the settings, the in-memory log, the
    poll cycle of [updateState], the two control loops [_magUp] and
    [_regulate] with their cancel handlers, and [getLog].

    Modelling conventions.
    - Python floats are exact rationals extended with a not-a-number value
      ([num]); rounding and infinities are not modelled.  Division by zero
      raises, as Python's [ZeroDivisionError] does.  The statements about
      computed values are phrased through the comparisons and the
      expressions of the code, so that they do not rest on the exactness of
      the arithmetic; three lemmas on binary64 show, on the
      formulas of the code evaluated in binary64, where rounding moves a
      value.
    - LabRAD unit tags ([units.V], [units.K], ...) are transparent in
      arithmetic and in comparisons between tagged values.  A tagged value
      never compares equal to a bare float, which matters for the two
      sentinel tests of [updateState].
    - [numpy.nan] is one float object and the regulation loop tests for it
      with [is]; a dictionary slot therefore holds an [obj], which is either
      that very object or some other float object.
    - Each control loop is an [inlineCallbacks] generator: the code between
      two [yield]s runs without interleaving.  One loop iteration is one
      function here, and its outcome says whether the generator went to
      sleep, left the loop, or died on an exception.
    - The poll loop [updateState] yields at every instrument call; one
      cycle of it is one function of what the instruments answer.  Its
      segments write only sensor slots, connected flags, the stamp and the
      counter, which no control handler writes.
    - Writes to the power supply and named messages are recorded in two
      traces of the [Server] record, oldest first.
    - Calls into the registry, the file system and the LabRAD manager are
      taken to succeed. *)

From Stdlib Require Import ZArith QArith Qabs Qminmax Bool List Ascii String.
From Stdlib Require Import Lia Lqa PrimFloat.
Import ListNotations.
Open Scope Q_scope.

(** ** Python numbers *)

Inductive num : Type :=
| NaN
| Fin (q : Q).

(** A float object stored in a dictionary slot: the module-level singleton
    [numpy.nan], or any other float object. *)
Inductive obj : Type :=
| numpy_nan
| boxed (x : num).

Definition val (o : obj) : num :=
  match o with
  | numpy_nan => NaN
  | boxed x => x
  end.

Coercion val : obj >-> num.

(** [o is numpy.nan] *)
Definition is_numpy_nan (o : obj) : bool :=
  match o with
  | numpy_nan => true
  | boxed _ => false
  end.

Definition Qltb (x y : Q) : bool := negb (Qle_bool y x).

Definition lift2 (f : Q -> Q -> Q) (x y : num) : num :=
  match x, y with
  | Fin a, Fin b => Fin (f a b)
  | _, _ => NaN
  end.

Definition cmp2 (f : Q -> Q -> bool) (x y : num) : bool :=
  match x, y with
  | Fin a, Fin b => f a b
  | _, _ => false
  end.

Definition fadd : num -> num -> num := lift2 Qplus.
Definition fsub : num -> num -> num := lift2 Qminus.
Definition fmul : num -> num -> num := lift2 Qmult.

(** [x / y]: [None] stands for [ZeroDivisionError]. *)
Definition fdiv (x y : num) : option num :=
  match y with
  | Fin b => if Qeq_bool b 0 then None
             else Some (match x with Fin a => Fin (a / b) | NaN => NaN end)
  | NaN => Some NaN
  end.

Definition fabs (x : num) : num :=
  match x with
  | Fin a => Fin (Qabs a)
  | NaN => NaN
  end.

(** Comparisons: every comparison with a NaN operand is [False]. *)
Definition flt : num -> num -> bool := cmp2 Qltb.
Definition fle : num -> num -> bool := cmp2 Qle_bool.
Definition fgt (x y : num) : bool := flt y x.
Definition fge (x y : num) : bool := fle y x.
Definition feq : num -> num -> bool := cmp2 Qeq_bool.

(** The builtins [max(a, b)] and [min(a, b)]: keep the first argument unless
    the second compares strictly beyond it. *)
Definition pymax (a b : num) : num := if fgt b a then b else a.
Definition pymin (a b : num) : num := if flt b a then b else a.

Definition is_nan (x : num) : bool :=
  match x with
  | NaN => true
  | Fin _ => false
  end.

Declare Scope num_scope.
Delimit Scope num_scope with num.
Bind Scope num_scope with num.
Infix "+" := fadd : num_scope.
Infix "-" := fsub : num_scope.
Infix "*" := fmul : num_scope.
Infix "<?" := flt : num_scope.
Infix "<=?" := fle : num_scope.
Infix ">?" := fgt : num_scope.
Infix ">=?" := fge : num_scope.
Infix "==?" := feq (at level 70) : num_scope.

(** ** Dates *)

(** A [pydatetime] is a number of microseconds since an epoch; the difference
    of two of them is a normalised [timedelta]. *)
Definition pydatetime := Z.

Record timedelta : Type := mkTimedelta {
  days : Z;
  seconds : Z;
  microseconds : Z
}.

Definition datetime_sub (a b : pydatetime) : timedelta :=
  let d := (a - b)%Z in
  {| days := (d / 86400000000)%Z;
     seconds := ((d mod 86400000000) / 1000000)%Z;
     microseconds := (d mod 1000000)%Z |}.

Definition deltaT (dT : timedelta) : Q :=
  inject_Z (days dT) * 86400 + inject_Z (seconds dT)
  + inject_Z (microseconds dT) * (1 # 1000000).

(** ** The state dictionary *)

Inductive channel : Type := FAA | GGG.

Record State : Type := mkState {
  T_FAA : obj;
  T_GGG : obj;
  T_3K : obj;
  T_60K : obj;
  datetime : pydatetime;
  cycle : Z;
  magnetV : obj;
  RuOxChan : channel;
  RuOxChanSetTime : pydatetime;
  PSCurrent : obj;
  PSVoltage : obj;
  PSConnected : bool;
  DiodeTempMonitorConnected : bool;
  RuoxTempMonitorConnected : bool;
  MagnetVMonitorConnected : bool;
  maggingUp : bool;
  regulating : bool;
  regulationTemp : num;
  PID_cumulativeError : num
}.

Definition set_T_FAA (v : obj) (s : State) : State :=
  mkState v (T_GGG s) (T_3K s) (T_60K s) (datetime s) (cycle s) (magnetV s)
    (RuOxChan s) (RuOxChanSetTime s) (PSCurrent s) (PSVoltage s)
    (PSConnected s) (DiodeTempMonitorConnected s) (RuoxTempMonitorConnected s)
    (MagnetVMonitorConnected s) (maggingUp s) (regulating s)
    (regulationTemp s) (PID_cumulativeError s).

Definition set_T_GGG (v : obj) (s : State) : State :=
  mkState (T_FAA s) v (T_3K s) (T_60K s) (datetime s) (cycle s) (magnetV s)
    (RuOxChan s) (RuOxChanSetTime s) (PSCurrent s) (PSVoltage s)
    (PSConnected s) (DiodeTempMonitorConnected s) (RuoxTempMonitorConnected s)
    (MagnetVMonitorConnected s) (maggingUp s) (regulating s)
    (regulationTemp s) (PID_cumulativeError s).

Definition set_T_3K (v : obj) (s : State) : State :=
  mkState (T_FAA s) (T_GGG s) v (T_60K s) (datetime s) (cycle s) (magnetV s)
    (RuOxChan s) (RuOxChanSetTime s) (PSCurrent s) (PSVoltage s)
    (PSConnected s) (DiodeTempMonitorConnected s) (RuoxTempMonitorConnected s)
    (MagnetVMonitorConnected s) (maggingUp s) (regulating s)
    (regulationTemp s) (PID_cumulativeError s).

Definition set_T_60K (v : obj) (s : State) : State :=
  mkState (T_FAA s) (T_GGG s) (T_3K s) v (datetime s) (cycle s) (magnetV s)
    (RuOxChan s) (RuOxChanSetTime s) (PSCurrent s) (PSVoltage s)
    (PSConnected s) (DiodeTempMonitorConnected s) (RuoxTempMonitorConnected s)
    (MagnetVMonitorConnected s) (maggingUp s) (regulating s)
    (regulationTemp s) (PID_cumulativeError s).

Definition set_datetime (v : pydatetime) (s : State) : State :=
  mkState (T_FAA s) (T_GGG s) (T_3K s) (T_60K s) v (cycle s) (magnetV s)
    (RuOxChan s) (RuOxChanSetTime s) (PSCurrent s) (PSVoltage s)
    (PSConnected s) (DiodeTempMonitorConnected s) (RuoxTempMonitorConnected s)
    (MagnetVMonitorConnected s) (maggingUp s) (regulating s)
    (regulationTemp s) (PID_cumulativeError s).

Definition set_cycle (v : Z) (s : State) : State :=
  mkState (T_FAA s) (T_GGG s) (T_3K s) (T_60K s) (datetime s) v (magnetV s)
    (RuOxChan s) (RuOxChanSetTime s) (PSCurrent s) (PSVoltage s)
    (PSConnected s) (DiodeTempMonitorConnected s) (RuoxTempMonitorConnected s)
    (MagnetVMonitorConnected s) (maggingUp s) (regulating s)
    (regulationTemp s) (PID_cumulativeError s).

Definition set_magnetV (v : obj) (s : State) : State :=
  mkState (T_FAA s) (T_GGG s) (T_3K s) (T_60K s) (datetime s) (cycle s) v
    (RuOxChan s) (RuOxChanSetTime s) (PSCurrent s) (PSVoltage s)
    (PSConnected s) (DiodeTempMonitorConnected s) (RuoxTempMonitorConnected s)
    (MagnetVMonitorConnected s) (maggingUp s) (regulating s)
    (regulationTemp s) (PID_cumulativeError s).

Definition set_PSCurrent (v : obj) (s : State) : State :=
  mkState (T_FAA s) (T_GGG s) (T_3K s) (T_60K s) (datetime s) (cycle s)
    (magnetV s) (RuOxChan s) (RuOxChanSetTime s) v (PSVoltage s)
    (PSConnected s) (DiodeTempMonitorConnected s) (RuoxTempMonitorConnected s)
    (MagnetVMonitorConnected s) (maggingUp s) (regulating s)
    (regulationTemp s) (PID_cumulativeError s).

Definition set_PSVoltage (v : obj) (s : State) : State :=
  mkState (T_FAA s) (T_GGG s) (T_3K s) (T_60K s) (datetime s) (cycle s)
    (magnetV s) (RuOxChan s) (RuOxChanSetTime s) (PSCurrent s) v
    (PSConnected s) (DiodeTempMonitorConnected s) (RuoxTempMonitorConnected s)
    (MagnetVMonitorConnected s) (maggingUp s) (regulating s)
    (regulationTemp s) (PID_cumulativeError s).

Definition set_PSConnected (v : bool) (s : State) : State :=
  mkState (T_FAA s) (T_GGG s) (T_3K s) (T_60K s) (datetime s) (cycle s)
    (magnetV s) (RuOxChan s) (RuOxChanSetTime s) (PSCurrent s) (PSVoltage s)
    v (DiodeTempMonitorConnected s) (RuoxTempMonitorConnected s)
    (MagnetVMonitorConnected s) (maggingUp s) (regulating s)
    (regulationTemp s) (PID_cumulativeError s).

Definition set_DiodeTempMonitorConnected (v : bool) (s : State) : State :=
  mkState (T_FAA s) (T_GGG s) (T_3K s) (T_60K s) (datetime s) (cycle s)
    (magnetV s) (RuOxChan s) (RuOxChanSetTime s) (PSCurrent s) (PSVoltage s)
    (PSConnected s) v (RuoxTempMonitorConnected s)
    (MagnetVMonitorConnected s) (maggingUp s) (regulating s)
    (regulationTemp s) (PID_cumulativeError s).

Definition set_RuoxTempMonitorConnected (v : bool) (s : State) : State :=
  mkState (T_FAA s) (T_GGG s) (T_3K s) (T_60K s) (datetime s) (cycle s)
    (magnetV s) (RuOxChan s) (RuOxChanSetTime s) (PSCurrent s) (PSVoltage s)
    (PSConnected s) (DiodeTempMonitorConnected s) v
    (MagnetVMonitorConnected s) (maggingUp s) (regulating s)
    (regulationTemp s) (PID_cumulativeError s).

Definition set_MagnetVMonitorConnected (v : bool) (s : State) : State :=
  mkState (T_FAA s) (T_GGG s) (T_3K s) (T_60K s) (datetime s) (cycle s)
    (magnetV s) (RuOxChan s) (RuOxChanSetTime s) (PSCurrent s) (PSVoltage s)
    (PSConnected s) (DiodeTempMonitorConnected s) (RuoxTempMonitorConnected s)
    v (maggingUp s) (regulating s)
    (regulationTemp s) (PID_cumulativeError s).

Definition set_maggingUp (v : bool) (s : State) : State :=
  mkState (T_FAA s) (T_GGG s) (T_3K s) (T_60K s) (datetime s) (cycle s)
    (magnetV s) (RuOxChan s) (RuOxChanSetTime s) (PSCurrent s) (PSVoltage s)
    (PSConnected s) (DiodeTempMonitorConnected s) (RuoxTempMonitorConnected s)
    (MagnetVMonitorConnected s) v (regulating s)
    (regulationTemp s) (PID_cumulativeError s).

Definition set_regulating (v : bool) (s : State) : State :=
  mkState (T_FAA s) (T_GGG s) (T_3K s) (T_60K s) (datetime s) (cycle s)
    (magnetV s) (RuOxChan s) (RuOxChanSetTime s) (PSCurrent s) (PSVoltage s)
    (PSConnected s) (DiodeTempMonitorConnected s) (RuoxTempMonitorConnected s)
    (MagnetVMonitorConnected s) (maggingUp s) v
    (regulationTemp s) (PID_cumulativeError s).

Definition set_regulationTemp (v : num) (s : State) : State :=
  mkState (T_FAA s) (T_GGG s) (T_3K s) (T_60K s) (datetime s) (cycle s)
    (magnetV s) (RuOxChan s) (RuOxChanSetTime s) (PSCurrent s) (PSVoltage s)
    (PSConnected s) (DiodeTempMonitorConnected s) (RuoxTempMonitorConnected s)
    (MagnetVMonitorConnected s) (maggingUp s) (regulating s)
    v (PID_cumulativeError s).

Definition set_PID_cumulativeError (v : num) (s : State) : State :=
  mkState (T_FAA s) (T_GGG s) (T_3K s) (T_60K s) (datetime s) (cycle s)
    (magnetV s) (RuOxChan s) (RuOxChanSetTime s) (PSCurrent s) (PSVoltage s)
    (PSConnected s) (DiodeTempMonitorConnected s) (RuoxTempMonitorConnected s)
    (MagnetVMonitorConnected s) (maggingUp s) (regulating s)
    (regulationTemp s) v.

(** ** Settings *)

(** What a PID gain slot of [ADRSettings] can hold: a number, or the list
    [['v']], which is the default value of the argument of the three gain
    setters and is stored when a setter is called without argument. *)
Inductive gain : Type :=
| Number (k : num)
| TagList.

Record Settings : Type := mkSettings {
  PID_KP : gain;
  PID_KI : gain;
  PID_KD : gain;
  magup_dV : num;
  magnet_voltage_limit : num;
  current_limit : num;
  voltage_limit : num;
  dVdT_limit : num;
  dIdt_magup_limit : num;
  dIdt_regulate_limit : num;
  step_length : num
}.

Definition set_PID_KP (k : gain) (c : Settings) : Settings :=
  mkSettings k (PID_KI c) (PID_KD c) (magup_dV c) (magnet_voltage_limit c)
    (current_limit c) (voltage_limit c) (dVdT_limit c) (dIdt_magup_limit c)
    (dIdt_regulate_limit c) (step_length c).

Definition set_PID_KI (k : gain) (c : Settings) : Settings :=
  mkSettings (PID_KP c) k (PID_KD c) (magup_dV c) (magnet_voltage_limit c)
    (current_limit c) (voltage_limit c) (dVdT_limit c) (dIdt_magup_limit c)
    (dIdt_regulate_limit c) (step_length c).

Definition set_PID_KD (k : gain) (c : Settings) : Settings :=
  mkSettings (PID_KP c) (PID_KI c) k (magup_dV c) (magnet_voltage_limit c)
    (current_limit c) (voltage_limit c) (dVdT_limit c) (dIdt_magup_limit c)
    (dIdt_regulate_limit c) (step_length c).

Definition set_magup_dV (k : num) (c : Settings) : Settings :=
  mkSettings (PID_KP c) (PID_KI c) (PID_KD c) k (magnet_voltage_limit c)
    (current_limit c) (voltage_limit c) (dVdT_limit c) (dIdt_magup_limit c)
    (dIdt_regulate_limit c) (step_length c).

Definition set_magnet_voltage_limit (k : num) (c : Settings) : Settings :=
  mkSettings (PID_KP c) (PID_KI c) (PID_KD c) (magup_dV c) k
    (current_limit c) (voltage_limit c) (dVdT_limit c) (dIdt_magup_limit c)
    (dIdt_regulate_limit c) (step_length c).

Definition set_current_limit (k : num) (c : Settings) : Settings :=
  mkSettings (PID_KP c) (PID_KI c) (PID_KD c) (magup_dV c)
    (magnet_voltage_limit c) k (voltage_limit c) (dVdT_limit c)
    (dIdt_magup_limit c) (dIdt_regulate_limit c) (step_length c).

Definition set_voltage_limit (k : num) (c : Settings) : Settings :=
  mkSettings (PID_KP c) (PID_KI c) (PID_KD c) (magup_dV c)
    (magnet_voltage_limit c) (current_limit c) k (dVdT_limit c)
    (dIdt_magup_limit c) (dIdt_regulate_limit c) (step_length c).

Definition set_dVdT_limit (k : num) (c : Settings) : Settings :=
  mkSettings (PID_KP c) (PID_KI c) (PID_KD c) (magup_dV c)
    (magnet_voltage_limit c) (current_limit c) (voltage_limit c) k
    (dIdt_magup_limit c) (dIdt_regulate_limit c) (step_length c).

Definition set_dIdt_magup_limit (k : num) (c : Settings) : Settings :=
  mkSettings (PID_KP c) (PID_KI c) (PID_KD c) (magup_dV c)
    (magnet_voltage_limit c) (current_limit c) (voltage_limit c)
    (dVdT_limit c) k (dIdt_regulate_limit c) (step_length c).

Definition set_dIdt_regulate_limit (k : num) (c : Settings) : Settings :=
  mkSettings (PID_KP c) (PID_KI c) (PID_KD c) (magup_dV c)
    (magnet_voltage_limit c) (current_limit c) (voltage_limit c)
    (dVdT_limit c) (dIdt_magup_limit c) k (step_length c).

Definition set_step_length (k : num) (c : Settings) : Settings :=
  mkSettings (PID_KP c) (PID_KI c) (PID_KD c) (magup_dV c)
    (magnet_voltage_limit c) (current_limit c) (voltage_limit c)
    (dVdT_limit c) (dIdt_magup_limit c) (dIdt_regulate_limit c) k.

(** [self.ADRSettings[key] = v] for the numeric settings; the other keys of
    the dictionary (instrument names, paths) are not part of [Settings]. *)
Definition set_setting (key : string) (v : num) (c : Settings) : Settings :=
  if (key =? "PID_KP")%string then set_PID_KP (Number v) c
  else if (key =? "PID_KI")%string then set_PID_KI (Number v) c
  else if (key =? "PID_KD")%string then set_PID_KD (Number v) c
  else if (key =? "magup_dV")%string then set_magup_dV v c
  else if (key =? "magnet_voltage_limit")%string
       then set_magnet_voltage_limit v c
  else if (key =? "current_limit")%string then set_current_limit v c
  else if (key =? "voltage_limit")%string then set_voltage_limit v c
  else if (key =? "dVdT_limit")%string then set_dVdT_limit v c
  else if (key =? "dIdt_magup_limit")%string then set_dIdt_magup_limit v c
  else if (key =? "dIdt_regulate_limit")%string
       then set_dIdt_regulate_limit v c
  else if (key =? "step_length")%string then set_step_length v c
  else c.

(** The defaults written in [__init__]. *)
Definition default_settings : Settings :=
  {| PID_KP := Number (Fin 2);
     PID_KI := Number (Fin 0);
     PID_KD := Number (Fin 70);
     magup_dV := Fin (3 # 1000);
     magnet_voltage_limit := Fin (1 # 10);
     current_limit := Fin 9;
     voltage_limit := Fin 2;
     dVdT_limit := Fin (8 # 1000);
     dIdt_magup_limit := Fin (9 / (30 * 60));
     dIdt_regulate_limit := Fin (9 / (40 * 60));
     step_length := Fin 1 |}.

(** ** The server object *)

(** Log messages.  Fixed texts are kept as they are; a message that
    interpolates values keeps the values instead of their rendering. *)
Inductive message : Type :=
| Text (s : string)
| CannotMagUp (ps magv : bool)
    (* 'Cannot mag up: ...  Connections: [...]' *)
| BeginMagUp (limit : num)
    (* 'Beginning to mag up to <current_limit> Amps.' *)
| FinishedMagUp (i : num)
    (* 'Finished magging up. <PSCurrent> Amps reached.' *)
| MagUpStoppedAt (i : num)
    (* 'Magging up stopped at a current of <PSCurrent> Amps.' *)
| PIDStoppedAt (i : num)
    (* 'PID Control stopped at a current of <PSCurrent> Amps.' *)
| SettingRegulationTemp (t : num)
    (* 'Setting regulation temperature to <temp>K.' *)
| CannotRegulate (ps diode ruox magv : bool)
    (* 'Cannot regulate: ...  Connections: [...]' *)
| StartingRegulation (t i : num)
    (* 'Starting regulation to <regulationTemp>K from <PSCurrent> Amps.' *)
| PIDGainSet (name : string) (k : gain).
    (* '<name> has been set to <k>' *)

Definition LogEntry : Type := message * bool.

Record Server : Type := mkServer {
  state : State;
  lastState : State;
  ADRSettings : Settings;
  logMessages : list LogEntry;
  (* trace of [self.ps.voltage(v)] calls *)
  ps_voltage_writes : list num;
  (* trace of [send_named_message(name, payload)] calls made by the
     handlers modelled here *)
  named_messages : list (string * string)
}.

Definition with_state (f : State -> State) (srv : Server) : Server :=
  mkServer (f (state srv)) (lastState srv) (ADRSettings srv)
    (logMessages srv) (ps_voltage_writes srv) (named_messages srv).

Definition with_settings (f : Settings -> Settings) (srv : Server) : Server :=
  mkServer (state srv) (lastState srv) (f (ADRSettings srv))
    (logMessages srv) (ps_voltage_writes srv) (named_messages srv).

(** [self.lastState = self.state.copy()]: a shallow copy; the slots hold
    immutable values, so the copy never changes afterwards. *)
Definition snapshot (srv : Server) : Server :=
  mkServer (state srv) (state srv) (ADRSettings srv)
    (logMessages srv) (ps_voltage_writes srv) (named_messages srv).

(** The synchronous part of [logMessage]: the entry is appended before the
    first [yield]. *)
Definition logMessage (m : message) (alert : bool) (srv : Server) : Server :=
  mkServer (state srv) (lastState srv) (ADRSettings srv)
    (logMessages srv ++ [(m, alert)]) (ps_voltage_writes srv)
    (named_messages srv).

Definition ps_voltage (v : num) (srv : Server) : Server :=
  mkServer (state srv) (lastState srv) (ADRSettings srv)
    (logMessages srv) (ps_voltage_writes srv ++ [v]) (named_messages srv).

Definition send_named_message (name payload : string) (srv : Server)
  : Server :=
  mkServer (state srv) (lastState srv) (ADRSettings srv)
    (logMessages srv) (ps_voltage_writes srv)
    (named_messages srv ++ [(name, payload)]).

(** [__init__], run at time [now]. *)
Definition init_state (now : pydatetime) : State :=
  {| T_FAA := numpy_nan;
     T_GGG := numpy_nan;
     T_3K := numpy_nan;
     T_60K := numpy_nan;
     datetime := now;
     cycle := 0;
     magnetV := numpy_nan;
     RuOxChan := FAA;
     RuOxChanSetTime := now;
     PSCurrent := numpy_nan;
     PSVoltage := numpy_nan;
     PSConnected := false;
     DiodeTempMonitorConnected := false;
     RuoxTempMonitorConnected := false;
     MagnetVMonitorConnected := false;
     maggingUp := false;
     regulating := false;
     regulationTemp := Fin (1 # 10);
     PID_cumulativeError := Fin 0 |}.

Definition init (now : pydatetime) : Server :=
  {| state := init_state now;
     lastState := init_state now;
     ADRSettings := default_settings;
     logMessages := [];
     ps_voltage_writes := [];
     named_messages := [] |}.

(** ** loadDefaults *)

(** The registry directory is a list of keys with their values; each one
    overwrites the setting of that name. *)
Fixpoint loadDefaults (settingsList : list (string * num)) (srv : Server)
  : Server :=
  match settingsList with
  | [] => srv
  | (setting, v) :: rest =>
      loadDefaults rest (with_settings (set_setting setting v) srv)
  end.

(** ** initializeInstruments *)

(** One [try]/[except] block of [initializeInstruments]; [ok] tells whether
    the three calls in the [try] went through. *)
Definition connect_instrument (ok : bool) (connected : State -> bool)
    (set_connected : bool -> State -> State) (okmsg failmsg : string)
    (srv : Server) : Server :=
  if ok then
    let srv :=
      if negb (connected (state srv))
      then logMessage (Text okmsg) false srv else srv in
    with_state (set_connected true) srv
  else
    with_state (set_connected false) (logMessage (Text failmsg) true srv).

Definition initializeInstruments (ps ruox diode magv : bool) (srv : Server)
  : Server :=
  let srv := connect_instrument ps PSConnected set_PSConnected
    "Power Supply Connected and initialized."
    "Could not connect to Power Supply. Check that it is turned on and the server is running."
    srv in
  let srv := connect_instrument ruox RuoxTempMonitorConnected
    set_RuoxTempMonitorConnected
    "Ruox Temperature Monitor Connected."
    "Could not connect to Ruox Temperature Monitor. Check that it is turned on and the server is running."
    srv in
  let srv := connect_instrument diode DiodeTempMonitorConnected
    set_DiodeTempMonitorConnected
    "Diode Temperature Monitor Connected."
    "Could not connect to Diode Temperature Monitor. Check that it is turned on and the server is running."
    srv in
  connect_instrument magv MagnetVMonitorConnected
    set_MagnetVMonitorConnected
    "Magnet Voltage Monitor Connected."
    "Could not connect to Diode Temperature Monitor. Check that it is turned on and the server is running."
    srv.

(** ** updateState *)

(** What the instruments and the clock answer during one poll cycle.  A read
    that raises is [None]. *)
Record PollInput : Type := mkPollInput {
  diode_temperatures : option (num * num);  (* (T_60K, T_3K) *)
  ruox_time_constant : option num;
  ruox_now : pydatetime;       (* the clock at the settling test *)
  ruox_temperature : option num;  (* asked for only once settled *)
  ruox_with_unit : bool;       (* is that answer a value tagged with a unit? *)
  stamp : pydatetime;          (* the clock when the cycle is stamped *)
  magnet_voltage : option num;
  ps_current : option num;
  ps_voltage_read : option num
}.

Definition ruox_failed (st : State) : State :=
  set_RuoxTempMonitorConnected false
    (set_T_FAA numpy_nan (set_T_GGG numpy_nan st)).

Definition read_diodes (inp : PollInput) (st : State) : State :=
  match diode_temperatures inp with
  | Some (t60, t3) => set_T_3K (boxed t3) (set_T_60K (boxed t60) st)
  | None =>
      set_DiodeTempMonitorConnected false
        (set_T_3K numpy_nan (set_T_60K numpy_nan st))
  end.

(** The settling test: have ten time constants passed since the channel
    was set? *)
Definition ruox_settled (inp : PollInput) (st : State) (timeConst : num)
  : bool :=
  (Fin (deltaT (datetime_sub (ruox_now inp) (RuOxChanSetTime st)))
   >=? Fin 10 * timeConst)%num.

(** The two sentinel tests [self.state['T_GGG'] == 20.0] and
    [self.state['T_FAA'] == 45.0] compare a slot with a bare float.  The
    slot holds the answer just stored or [numpy.nan]; a NaN equals nothing,
    and neither does an answer that carries a unit. *)
Definition eq_bare (with_unit : bool) (x c : num) : bool :=
  negb with_unit && (x ==? c)%num.

Definition read_ruox (inp : PollInput) (st : State) : State :=
  match ruox_time_constant inp with
  | None => ruox_failed st
  | Some timeConst =>
      if ruox_settled inp st timeConst
      then
        match ruox_temperature inp with
        | None => ruox_failed st
        | Some t =>
            let st := match RuOxChan st with
                      | FAA => set_T_FAA (boxed t) st
                      | GGG => set_T_GGG (boxed t) st
                      end in
            let st := match RuOxChan st with
                      | GGG => set_T_FAA numpy_nan st
                      | FAA => st
                      end in
            let st := match RuOxChan st with
                      | FAA => set_T_GGG numpy_nan st
                      | GGG => st
                      end in
            let st := if eq_bare (ruox_with_unit inp) (T_GGG st) (Fin 20)
                      then set_T_GGG numpy_nan st else st in
            let st := if eq_bare (ruox_with_unit inp) (T_FAA st) (Fin 45)
                      then set_T_FAA numpy_nan st else st in
            st
        end
      else st
  end.

Definition read_magnet (inp : PollInput) (st : State) : State :=
  match magnet_voltage inp with
  | Some v => set_magnetV (boxed v) st
  | None => set_MagnetVMonitorConnected false (set_magnetV numpy_nan st)
  end.

Definition read_ps (inp : PollInput) (st : State) : State :=
  match ps_current inp with
  | None =>
      set_PSConnected false
        (set_PSVoltage numpy_nan (set_PSCurrent numpy_nan st))
  | Some i =>
      let st := set_PSCurrent (boxed i) st in
      match ps_voltage_read inp with
      | None =>
          set_PSConnected false
            (set_PSVoltage numpy_nan (set_PSCurrent numpy_nan st))
      | Some v => set_PSVoltage (boxed v) st
      end
  end.

(** One pass through the body of [while self.alive] (the registry and file
    calls at its end are outside the model). *)
Definition updateState (inp : PollInput) (srv : Server) : Server :=
  let srv := snapshot srv in
  let srv := with_state (read_diodes inp) srv in
  let srv := with_state (read_ruox inp) srv in
  let srv := with_state (set_datetime (stamp inp)) srv in
  let srv := with_state (fun st => set_cycle (cycle st + 1)%Z st) srv in
  let srv := with_state (read_magnet inp) srv in
  let srv := with_state (read_ps inp) srv in
  send_named_message "State Changed" "state changed" srv.

(** ** Control loops *)

(** How a run of generator code ends: suspended at the [wakeupCall] inside
    the loop, returned, or left by an uncaught exception.  Each carries the
    server as that run left it. *)
Inductive outcome : Type :=
| Sleeps (srv : Server)
| Returns (srv : Server)
| Raises (srv : Server).

Definition after (o : outcome) : Server :=
  match o with
  | Sleeps srv | Returns srv | Raises srv => srv
  end.

(** [dt = deltaT(state['datetime'] - lastState['datetime'])], with the guard
    [if dt == 0: dt = 0.0000000001]. *)
Definition cycle_dt (srv : Server) : num :=
  let dt :=
    Fin (deltaT (datetime_sub (datetime (state srv))
                              (datetime (lastState srv)))) in
  if (dt ==? Fin 0)%num then Fin (1 # 10000000000) else dt.

Definition _cancelMagUp (srv : Server) : Server :=
  let srv := with_state (set_maggingUp false) srv in
  let srv := logMessage (MagUpStoppedAt (PSCurrent (state srv))) false srv in
  send_named_message "MagUp Stopped" "cancel" srv.

(** One pass through the body of [while self.state['maggingUp']]. *)
Definition magUp_cycle (srv : Server) : outcome :=
  let st := state srv in
  let cfg := ADRSettings srv in
  let dI := (PSCurrent st - PSCurrent (lastState srv))%num in
  let dt := cycle_dt srv in
  if (PSCurrent st <? current_limit cfg)%num then
    if (magnetV st <? magnet_voltage_limit cfg)%num then
      match fdiv dI dt with
      | None => Raises srv
      | Some dIdt =>
          if (fabs dIdt <? dIdt_magup_limit cfg)%num then
            let newVoltage := (PSVoltage st + magup_dV cfg)%num in
            if (newVoltage <? voltage_limit cfg)%num
            then Sleeps (ps_voltage newVoltage srv)
            else Sleeps (ps_voltage (voltage_limit cfg) srv)
          else Sleeps srv
      end
    else Sleeps srv
  else
    let srv := logMessage (FinishedMagUp (PSCurrent st)) false srv in
    let srv := with_state (set_maggingUp false) srv in
    Returns (send_named_message "MagUp Stopped" "done" srv).

(** The loop test followed by one pass: what happens when the generator is
    resumed (or first reaches the loop). *)
Definition magUp_loop (srv : Server) : outcome :=
  if maggingUp (state srv) then magUp_cycle srv else Returns srv.

(** The three statements between the guards of [_magUp] and its loop. *)
Definition magUp_enter (srv : Server) : Server :=
  let srv := send_named_message "MagUp Started" "start" srv in
  let srv :=
    logMessage (BeginMagUp (current_limit (ADRSettings srv))) false srv in
  with_state (set_maggingUp true) srv.

Definition _magUp (srv : Server) : outcome :=
  let st := state srv in
  if maggingUp st then
    Returns (logMessage (Text "Already magging up.") false srv)
  else if regulating st then
    Returns (logMessage
      (Text "Currently in PID control loop regulation. Please wait until finished.")
      false srv)
  else if negb (PSConnected st) || negb (MagnetVMonitorConnected st) then
    Returns (logMessage
      (CannotMagUp (PSConnected st) (MagnetVMonitorConnected st)) true srv)
  else
    magUp_loop (magUp_enter srv).

Definition _cancelRegulate (srv : Server) : Server :=
  let srv := with_state (set_regulating false) srv in
  let srv := logMessage (PIDStoppedAt (PSCurrent (state srv))) false srv in
  send_named_message "Regulation Stopped" "cancel" srv.

(** The clamps applied to the proposed [dV], one definition per block of the
    source, named after its comment. *)

(* hard current limit *)
Definition hard_current_limit (cfg : Settings) (st : State) (dV : num)
  : num :=
  if (PSCurrent st >? current_limit cfg)%num
  then (if (dV >? Fin 0)%num then Fin 0 else dV)
  else dV.

(* hard voltage limit *)
Definition hard_voltage_limit (cfg : Settings) (st : State) (dV : num)
  : num :=
  if (PSVoltage st + dV >? voltage_limit cfg)%num
  then (voltage_limit cfg - PSVoltage st)%num
  else dV.

(* steady state limit *)
Definition steady_state_limit (cfg : Settings) (st : State) (dV : num)
  : num :=
  let dV :=
    if (dV <? Fin 0)%num then
      let dV := pymax dV (magnetV st - magnet_voltage_limit cfg)%num in
      if (dV >? Fin 0)%num then Fin 0 else dV
    else dV in
  if (dV >? Fin 0)%num then
    let dV := pymin dV (magnet_voltage_limit cfg - magnetV st)%num in
    if (dV <? Fin 0)%num then Fin 0 else dV
  else dV.

(* limit by hard voltage increase limit; [None] is a [ZeroDivisionError] *)
Definition voltage_increase_limit (cfg : Settings) (dT dV : num)
  : option num :=
  match fdiv dV dT with
  | None => None
  | Some dVdT =>
      if (fabs dVdT >? dVdT_limit cfg)%num then
        match fdiv dV (fabs dV) with
        | None => None
        | Some sign => Some (dVdT_limit cfg * dT * sign)%num
        end
      else Some dV
  end.

(* limit by hard current increase limit *)
Definition current_increase_limit (cfg : Settings) (dT dI dV : num)
  : option num :=
  match fdiv dI dT with
  | None => None
  | Some dIdT =>
      if (fabs dIdT >? dIdt_regulate_limit cfg)%num
      then Some (Fin 0)
      else Some dV
  end.

Definition limit_dV (cfg : Settings) (st : State) (dT dI dV : num)
  : option num :=
  let dV := hard_current_limit cfg st dV in
  let dV := hard_voltage_limit cfg st dV in
  let dV := steady_state_limit cfg st dV in
  match voltage_increase_limit cfg dT dV with
  | None => None
  | Some dV => current_increase_limit cfg dT dI dV
  end.

(** [k * x] for a gain [k]: a list cannot be multiplied by a float, and
    [None] is the [TypeError]. *)
Definition gain_mul (k : gain) (x : num) : option num :=
  match k with
  | Number k => Some (k * x)%num
  | TagList => None
  end.

(** The raw PID proposal, its three products taken from left to right;
    [None] is an exception ([TypeError] or [ZeroDivisionError]). *)
Definition propose_dV (cfg : Settings) (st last : State) (T_target dT : num)
  : option num :=
  match gain_mul (PID_KP cfg) (T_target - T_FAA st)%num with
  | None => None
  | Some p =>
      match gain_mul (PID_KI cfg) (PID_cumulativeError st) with
      | None => None
      | Some i =>
          match gain_mul (PID_KD cfg) (T_FAA last - T_FAA st)%num with
          | None => None
          | Some d =>
              match fdiv d dT with
              | None => None
              | Some d => Some (p + i + d)%num
              end
          end
      end
  end.

(** One pass through the body of [while self.state['regulating']]. *)
Definition regulate_cycle (srv : Server) : outcome :=
  let dI := (PSCurrent (state srv) - PSCurrent (lastState srv))%num in
  let srv :=
    if is_numpy_nan (T_FAA (state srv)) then
      _cancelRegulate
        (logMessage
           (Text "FAA temp is not valid.  Regulation cannot continue.")
           false srv)
    else srv in
  (* propose new voltage *)
  let T_target := regulationTemp (state srv) in
  let dT := cycle_dt srv in
  let srv :=
    with_state
      (fun st =>
         set_PID_cumulativeError
           (PID_cumulativeError st + (T_target - T_FAA st))%num st)
      srv in
  let st := state srv in
  let cfg := ADRSettings srv in
  match propose_dV cfg st (lastState srv) T_target dT with
  | None => Raises srv
  | Some dV =>
      match limit_dV cfg st dT dI dV with
      | None => Raises srv
      | Some dV =>
          (* will voltage go negative? *)
          if (PSVoltage st + dV <=? Fin 0)%num then
            let srv := ps_voltage (Fin 0) srv in
            let dV := Fin 0 in
            let srv := ps_voltage (PSVoltage st + dV)%num srv in
            let srv :=
              logMessage
                (Text "Regulation has completed. Mag up and try again.")
                false srv in
            let srv := with_state (set_regulating false) srv in
            Returns (send_named_message "Regulation Stopped" "done" srv)
          else
            Sleeps (ps_voltage (PSVoltage st + dV)%num srv)
      end
  end.

Definition regulate_loop (srv : Server) : outcome :=
  if regulating (state srv) then regulate_cycle srv else Returns srv.

(** The three statements between the guards of [_regulate] and its loop. *)
Definition regulate_enter (srv : Server) : Server :=
  let st := state srv in
  let srv := send_named_message "Regulation Started" "start" srv in
  let srv :=
    logMessage (StartingRegulation (regulationTemp st) (PSCurrent st))
      false srv in
  with_state (set_regulating true) srv.

(** [_regulate(temp)].  The retarget message is formatted with [%d], which
    raises on a NaN. *)
Definition _regulate (temp : num) (srv : Server) : outcome :=
  let st := state srv in
  if maggingUp st then
    Returns (logMessage
      (Text "Currently magging up. Please wait until finished.") false srv)
  else if regulating st then
    let srv := with_state (set_regulationTemp temp) srv in
    if is_nan temp then Raises srv
    else Returns (logMessage (SettingRegulationTemp temp) false srv)
  else if negb (PSConnected st) || negb (DiodeTempMonitorConnected st)
          || negb (RuoxTempMonitorConnected st)
          || negb (MagnetVMonitorConnected st) then
    Returns (logMessage
      (CannotRegulate (PSConnected st) (DiodeTempMonitorConnected st)
         (RuoxTempMonitorConnected st) (MagnetVMonitorConnected st))
      true srv)
  else
    regulate_loop (regulate_enter srv).

(** ** Settings of the command surface *)

(** [lst[i:]] for an integer [i]. *)
Definition slice_from {A : Type} (i : Z) (l : list A) : list A :=
  let len := Z.of_nat (List.length l) in
  let start := if (i <? 0)%Z then Z.max 0 (i + len) else Z.min i len in
  skipn (Z.to_nat start) l.

(** The count [n] of [getLog] on its way through the body: the float that
    the declared type [n=['v']] hands to the method, or an [int] (the
    default [0], and [len(self.logMessages)]). *)
Inductive count : Type :=
| IntCount (n : Z)
| FloatCount (x : num).

(** [n == 0] *)
Definition count_is_zero (n : count) : bool :=
  match n with
  | IntCount n => (n =? 0)%Z
  | FloatCount x => (x ==? Fin 0)%num
  end.

(** [min(n, len)]: the builtin keeps [n], and its type, unless [len < n]. *)
Definition count_min (n : count) (len : Z) : count :=
  match n with
  | IntCount n => IntCount (if (len <? n)%Z then len else n)
  | FloatCount x =>
      if (Fin (inject_Z len) <? x)%num then IntCount len else FloatCount x
  end.

(** [getLog(c, n)].  The argument is [None] when the caller leaves the count
    out.  A list cannot be sliced at a float: the result [None] is the
    [TypeError] of [self.logMessages[-n:]]. *)
Definition getLog (srv : Server) (n : option num)
  : option (list LogEntry) :=
  let len := Z.of_nat (List.length (logMessages srv)) in
  let n := match n with
           | Some x => FloatCount x
           | None => IntCount 0
           end in
  let n := if count_is_zero n then IntCount len else n in
  match count_min n len with
  | IntCount n => Some (slice_from (- n) (logMessages srv))
  | FloatCount _ => None
  end.

Definition addToLog (message : option string) (srv : Server) : Server :=
  match message with
  | Some m => logMessage (Text m) false srv
  | None => srv
  end.

(** The argument [k] of the three gain setters: the number the caller
    passed, or, when the caller passed nothing, the default [['v']]. *)
Definition gain_argument (k : option num) : gain :=
  match k with
  | Some k => Number k
  | None => TagList
  end.

Definition setPIDKP (k : option num) (srv : Server) : Server :=
  let k := gain_argument k in
  logMessage (PIDGainSet "PID_KP" k) false (with_settings (set_PID_KP k) srv).

Definition setPIDKI (k : option num) (srv : Server) : Server :=
  let k := gain_argument k in
  logMessage (PIDGainSet "PID_KI" k) false (with_settings (set_PID_KI k) srv).

Definition setPIDKD (k : option num) (srv : Server) : Server :=
  let k := gain_argument k in
  logMessage (PIDGainSet "PID_KD" k) false (with_settings (set_PID_KD k) srv).

(** ** The running server *)

(** The server together with the number of suspended generators of each
    control loop.  (A loop that was cancelled and started again before its
    old generator woke up leaves two generators behind.) *)
Record System : Type := mkSystem {
  server : Server;
  magUp_loops : nat;
  regulate_loops : nat
}.

(** What can happen next: a request on the command surface, a device
    notification, a poll cycle, the wake-up of a sleeping control loop, or
    the loading of the settings from the registry. *)
Inductive event : Type :=
| InitializeInstruments (ps ruox diode magv : bool)
| Poll (inp : PollInput)
| MagUp
| Regulate (temp : num)
| CancelMagUp
| CancelRegulation
| MagUpWakes
| RegulateWakes
| AddToLog (m : option string)
| SetPIDKP (k : option num)
| SetPIDKI (k : option num)
| SetPIDKD (k : option num)
| LoadDefaults (settingsList : list (string * num)).

Definition started (o : outcome) (n : nat) : nat :=
  match o with
  | Sleeps _ => S n
  | _ => n
  end.

Definition resumed (o : outcome) (n : nat) : nat :=
  match o with
  | Sleeps _ => n
  | _ => pred n
  end.

Definition on_server (f : Server -> Server) (sys : System) : System :=
  mkSystem (f (server sys)) (magUp_loops sys) (regulate_loops sys).

Definition step (e : event) (sys : System) : System :=
  match e with
  | InitializeInstruments ps ruox diode magv =>
      on_server (initializeInstruments ps ruox diode magv) sys
  | Poll inp => on_server (updateState inp) sys
  | MagUp =>
      let o := _magUp (server sys) in
      mkSystem (after o) (started o (magUp_loops sys)) (regulate_loops sys)
  | Regulate temp =>
      let o := _regulate temp (server sys) in
      mkSystem (after o) (magUp_loops sys) (started o (regulate_loops sys))
  | CancelMagUp => on_server _cancelMagUp sys
  | CancelRegulation => on_server _cancelRegulate sys
  | MagUpWakes =>
      match magUp_loops sys with
      | O => sys
      | S _ =>
          let o := magUp_loop (server sys) in
          mkSystem (after o) (resumed o (magUp_loops sys))
            (regulate_loops sys)
      end
  | RegulateWakes =>
      match regulate_loops sys with
      | O => sys
      | S _ =>
          let o := regulate_loop (server sys) in
          mkSystem (after o) (magUp_loops sys)
            (resumed o (regulate_loops sys))
      end
  | AddToLog m => on_server (addToLog m) sys
  | SetPIDKP k => on_server (setPIDKP k) sys
  | SetPIDKI k => on_server (setPIDKI k) sys
  | SetPIDKD k => on_server (setPIDKD k) sys
  | LoadDefaults settingsList => on_server (loadDefaults settingsList) sys
  end.

Definition boot (now : pydatetime) : System :=
  {| server := init now; magUp_loops := 0; regulate_loops := 0 |}.

Fixpoint run (es : list event) (sys : System) : System :=
  match es with
  | [] => sys
  | e :: es => run es (step e sys)
  end.

(** A system state is reachable when some sequence of events leads to it
    from a freshly constructed server. *)
Definition reachable (sys : System) : Prop :=
  exists now es, sys = run es (boot now).

(** ** Notions used in the statements *)

(** The two mode flags are not both set. *)
Definition exclusive (st : State) : Prop :=
  maggingUp st && regulating st = false.

(** The slots that only the control handlers write. *)
Definition modes (srv : Server) :=
  (maggingUp (state srv), regulating (state srv),
   PID_cumulativeError (state srv)).

(** The slots an instrument read leaves alone. *)
Definition beside_diodes (st : State) :=
  (T_FAA st, T_GGG st, datetime st, cycle st, magnetV st, RuOxChan st,
   RuOxChanSetTime st, PSCurrent st, PSVoltage st, PSConnected st,
   RuoxTempMonitorConnected st, MagnetVMonitorConnected st, maggingUp st,
   regulating st, regulationTemp st, PID_cumulativeError st).

Definition beside_ruox (st : State) :=
  (T_3K st, T_60K st, datetime st, cycle st, magnetV st, RuOxChan st,
   RuOxChanSetTime st, PSCurrent st, PSVoltage st, PSConnected st,
   DiodeTempMonitorConnected st, MagnetVMonitorConnected st, maggingUp st,
   regulating st, regulationTemp st, PID_cumulativeError st).

Definition beside_magnet (st : State) :=
  (T_FAA st, T_GGG st, T_3K st, T_60K st, datetime st, cycle st,
   RuOxChan st, RuOxChanSetTime st, PSCurrent st, PSVoltage st,
   PSConnected st, DiodeTempMonitorConnected st,
   RuoxTempMonitorConnected st, maggingUp st, regulating st,
   regulationTemp st, PID_cumulativeError st).

Definition beside_ps (st : State) :=
  (T_FAA st, T_GGG st, T_3K st, T_60K st, datetime st, cycle st,
   magnetV st, RuOxChan st, RuOxChanSetTime st,
   DiodeTempMonitorConnected st, RuoxTempMonitorConnected st,
   MagnetVMonitorConnected st, maggingUp st, regulating st,
   regulationTemp st, PID_cumulativeError st).

(** [dV] does not take the supply above the voltage limit. *)
Definition within (cfg : Settings) (st : State) (dV : num) : Prop :=
  (PSVoltage st + dV >? voltage_limit cfg)%num = false.

Definition is_regulate (e : event) : bool :=
  match e with
  | Regulate _ => true
  | _ => false
  end.

(** The voltages written to the supply between [srv] and the outcome [o]. *)
Definition written (srv : Server) (o : outcome) : list num :=
  skipn (List.length (ps_voltage_writes srv)) (ps_voltage_writes (after o)).

(** The first half of the body of the regulation loop: the test of [T_FAA]
    against [numpy.nan] and the accumulation of the error. *)
Definition observed (srv : Server) : Server :=
  let srv :=
    if is_numpy_nan (T_FAA (state srv)) then
      _cancelRegulate
        (logMessage
           (Text "FAA temp is not valid.  Regulation cannot continue.")
           false srv)
    else srv in
  with_state
    (fun st =>
       set_PID_cumulativeError
         (PID_cumulativeError st + (regulationTemp st - T_FAA st))%num st)
    srv.

(** The raw PID proposal of a regulation cycle that starts at [srv]. *)
Definition proposal (srv : Server) : option num :=
  let o := observed srv in
  propose_dV (ADRSettings o) (state o) (lastState o)
    (regulationTemp (state o)) (cycle_dt o).

(** The proposal after all clamps, computed on the observed server. *)
Definition clamped_dV (srv : Server) : option num :=
  let st := state srv in
  let cfg := ADRSettings srv in
  let dT := cycle_dt srv in
  match propose_dV cfg st (lastState srv) (regulationTemp st) dT with
  | None => None
  | Some dV =>
      limit_dV cfg st dT (PSCurrent st - PSCurrent (lastState srv))%num dV
  end.

(** The end of a regulation run, from the write of zero volts on. *)
Definition completed (srv : Server) : Server :=
  let srv := ps_voltage (Fin 0) srv in
  let srv := ps_voltage (PSVoltage (state srv) + Fin 0)%num srv in
  let srv :=
    logMessage (Text "Regulation has completed. Mag up and try again.")
      false srv in
  let srv := with_state (set_regulating false) srv in
  send_named_message "Regulation Stopped" "done" srv.

(** ** Read settings of the command surface *)

(** What a slot of the state dictionary can hold. *)
Inductive value : Type :=
| VFloat (o : obj)
| VNumber (x : num)
| VInt (z : Z)
| VBool (b : bool)
| VChannel (c : channel)
| VDatetime (t : pydatetime).

(** [getStateVar(c, var)]: [self.state[var]]; [None] is the [KeyError] of a
    name that is not a key. *)
Definition getStateVar (var : string) (srv : Server) : option value :=
  let st := state srv in
  if (var =? "T_FAA")%string then Some (VFloat (T_FAA st))
  else if (var =? "T_GGG")%string then Some (VFloat (T_GGG st))
  else if (var =? "T_3K")%string then Some (VFloat (T_3K st))
  else if (var =? "T_60K")%string then Some (VFloat (T_60K st))
  else if (var =? "datetime")%string then Some (VDatetime (datetime st))
  else if (var =? "cycle")%string then Some (VInt (cycle st))
  else if (var =? "magnetV")%string then Some (VFloat (magnetV st))
  else if (var =? "RuOxChan")%string then Some (VChannel (RuOxChan st))
  else if (var =? "RuOxChanSetTime")%string
       then Some (VDatetime (RuOxChanSetTime st))
  else if (var =? "PSCurrent")%string then Some (VFloat (PSCurrent st))
  else if (var =? "PSVoltage")%string then Some (VFloat (PSVoltage st))
  else if (var =? "PSConnected")%string then Some (VBool (PSConnected st))
  else if (var =? "DiodeTempMonitorConnected")%string
       then Some (VBool (DiodeTempMonitorConnected st))
  else if (var =? "RuoxTempMonitorConnected")%string
       then Some (VBool (RuoxTempMonitorConnected st))
  else if (var =? "MagnetVMonitorConnected")%string
       then Some (VBool (MagnetVMonitorConnected st))
  else if (var =? "maggingUp")%string then Some (VBool (maggingUp st))
  else if (var =? "regulating")%string then Some (VBool (regulating st))
  else if (var =? "regulationTemp")%string
       then Some (VNumber (regulationTemp st))
  else if (var =? "PID_cumulativeError")%string
       then Some (VNumber (PID_cumulativeError st))
  else None.

(** [temperatures(c)]: [60K, 3K, GGG, FAA]. *)
Definition temperatures (srv : Server) : list obj :=
  let st := state srv in
  [T_60K st; T_3K st; T_GGG st; T_FAA st].

(** ** More notions used in the statements *)

(** The slots that hold what the instruments and the clock said. *)
Definition measured (st : State) :=
  (T_FAA st, T_GGG st, T_3K st, T_60K st, datetime st, cycle st,
   magnetV st, RuOxChan st, RuOxChanSetTime st, PSCurrent st, PSVoltage st).

(** The four connected flags. *)
Definition connections (st : State) :=
  (PSConnected st, DiodeTempMonitorConnected st,
   RuoxTempMonitorConnected st, MagnetVMonitorConnected st).

(** Several poll cycles in a row. *)
Fixpoint polls (inps : list PollInput) (srv : Server) : Server :=
  match inps with
  | [] => srv
  | inp :: rest => polls rest (updateState inp srv)
  end.

Definition is_poll (e : event) : bool :=
  match e with
  | Poll _ => true
  | _ => false
  end.

Definition touches_instruments (e : event) : bool :=
  match e with
  | Poll _ | InitializeInstruments _ _ _ _ => true
  | _ => false
  end.

(** Do the three gain slots hold numbers? *)
Definition numeric_gains (cfg : Settings) : bool :=
  match PID_KP cfg, PID_KI cfg, PID_KD cfg with
  | Number _, Number _, Number _ => true
  | _, _, _ => false
  end.

(** The step after the three clamps that come before the slew-rate
    clamp. *)
Definition static_dV (srv : Server) : option num :=
  let st := state srv in
  let cfg := ADRSettings srv in
  match propose_dV cfg st (lastState srv) (regulationTemp st) (cycle_dt srv)
  with
  | None => None
  | Some p =>
      Some (steady_state_limit cfg st
              (hard_voltage_limit cfg st (hard_current_limit cfg st p)))
  end.

(** Everything a control handler only reads. *)
Definition instruments (srv : Server) :=
  (measured (state srv), connections (state srv)).

(** The invariant of the Ruox channel: it stays on FAA and the GGG slot
    holds [numpy.nan]. *)
Definition gauge_ok (st : State) : Prop :=
  RuOxChan st = FAA /\ T_GGG st = numpy_nan.

(** Did the power supply read of a poll cycle go through? *)
Definition ps_answers (inp : PollInput) : bool :=
  match ps_current inp, ps_voltage_read inp with
  | Some _, Some _ => true
  | _, _ => false
  end.

(** [l'] is [l] with entries added at the end. *)
Definition extends {A : Type} (l l' : list A) : Prop :=
  exists more, l' = l ++ more.

(** The two mode flags of a server. *)
Definition flags (srv : Server) : bool * bool :=
  (maggingUp (state srv), regulating (state srv)).

(** What a listener learns about the mode flags from one named message. *)
Definition report (f : bool * bool) (msg : string * string) : bool * bool :=
  let name := fst msg in
  if (name =? "MagUp Started")%string then (true, snd f)
  else if (name =? "MagUp Stopped")%string then (false, snd f)
  else if (name =? "Regulation Started")%string then (fst f, true)
  else if (name =? "Regulation Stopped")%string then (fst f, false)
  else f.

(** The named messages sent between two states of the server. *)
Definition sent_since (srv srv' : Server) : list (string * string) :=
  skipn (List.length (named_messages srv)) (named_messages srv').

(** [srv'] has sent, on top of what [srv] had sent, messages that report
    the change of the mode flags from [srv] to [srv']. *)
Definition reports (srv srv' : Server) : Prop :=
  exists more,
    named_messages srv' = named_messages srv ++ more /\
    fold_left report more (flags srv) = flags srv'.

(** * The controller window ([ADRClient.py]) *)

(** The methods of [ADRController] that the two buttons can be bound to;
    each sends the request of its name to the server. *)
Inductive command : Type :=
| magUp
| cancelMagUp
| regulate
| cancelRegulate.

Inductive tk_state : Type := NORMAL | DISABLED.

Record Button : Type := mkButton {
  text : string;
  bound : command;          (* the [command] option of the widget *)
  button_state : tk_state   (* the [state] option of the widget *)
}.

(** The part of the window that the mode messages act on. *)
Record ADRController : Type := mkADRController {
  magUpButton : Button;
  regulateButton : Button
}.

Definition configure_text (t : string) (c : command) (b : Button) : Button :=
  mkButton t c (button_state b).

Definition configure_state (s : tk_state) (b : Button) : Button :=
  mkButton (text b) (bound b) s.

Definition magUpStarted (gui : ADRController) : ADRController :=
  {| magUpButton :=
       configure_text "Stop Magging Up" cancelMagUp (magUpButton gui);
     regulateButton := configure_state DISABLED (regulateButton gui) |}.

Definition magUpStopped (gui : ADRController) : ADRController :=
  {| magUpButton := configure_text "Mag Up" magUp (magUpButton gui);
     regulateButton := configure_state NORMAL (regulateButton gui) |}.

Definition regulationStarted (gui : ADRController) : ADRController :=
  {| magUpButton := configure_state DISABLED (magUpButton gui);
     regulateButton :=
       configure_text "Stop Regulating" cancelRegulate (regulateButton gui) |}.

Definition regulationStopped (gui : ADRController) : ADRController :=
  {| magUpButton := configure_state NORMAL (magUpButton gui);
     regulateButton :=
       configure_text "Regulate" regulate (regulateButton gui) |}.

(** Python's truth value of what [get_state_var] returned. *)
Definition truthy (v : value) : bool :=
  match v with
  | VBool b => b
  | VInt z => negb (z =? 0)%Z
  | VNumber (Fin q) | VFloat (boxed (Fin q)) => negb (Qeq_bool q 0)
  | VNumber NaN | VFloat (boxed NaN) | VFloat numpy_nan => true
  | VChannel _ | VDatetime _ => true
  end.

(** The buttons as [initializeWindow] leaves them: created in their idle
    form, then adjusted to the two flags read from the server.  The flags
    are read by two requests, one after the other: [srv] is the server as
    the first request finds it, [srv'] as the second one does.  [None] is
    the failure of one of the two [get_state_var] calls. *)
Definition initializeWindow (srv srv' : Server) : option ADRController :=
  let gui :=
    {| magUpButton := mkButton "Mag Up" magUp NORMAL;
       regulateButton := mkButton "Regulate" regulate NORMAL |} in
  match getStateVar "maggingUp" srv, getStateVar "regulating" srv' with
  | Some mUp, Some reg =>
      let gui :=
        if truthy mUp then
          {| magUpButton :=
               configure_text "Stop Magging Up" cancelMagUp (magUpButton gui);
             regulateButton := configure_state DISABLED (regulateButton gui) |}
        else gui in
      let gui :=
        if truthy reg then
          {| magUpButton := configure_state DISABLED (magUpButton gui);
             regulateButton :=
               configure_text "Stop Regulating" cancelRegulate
                 (regulateButton gui) |}
        else gui in
      Some gui
  | _, _ => None
  end.

(** The listeners registered by [startListening], as far as the buttons
    go: 'State Changed' and 'Log Changed' redraw other widgets, and no
    other name is subscribed to. *)
Definition on_named_message (gui : ADRController) (msg : string * string)
  : ADRController :=
  let name := fst msg in
  if (name =? "MagUp Started")%string then magUpStarted gui
  else if (name =? "MagUp Stopped")%string then magUpStopped gui
  else if (name =? "Regulation Started")%string then regulationStarted gui
  else if (name =? "Regulation Stopped")%string then regulationStopped gui
  else gui.

(** The four names that act on the buttons, in the order in which
    [startListening] subscribes to them. *)
Definition listeners : list string :=
  ["MagUp Stopped"; "Regulation Stopped"; "MagUp Started";
   "Regulation Started"]%string.

(** A named message reaches the window only if its name is subscribed to
    when it is sent. *)
Definition deliver (subscribed : list string) (gui : ADRController)
    (msg : string * string) : ADRController :=
  if existsb (String.eqb (fst msg)) subscribed
  then on_named_message gui msg else gui.

(** The window after the messages sent between [srv] and [srv'], with the
    given names subscribed to. *)
Definition hears (subscribed : list string) (srv srv' : Server)
    (gui : ADRController) : ADRController :=
  fold_left (deliver subscribed) (sent_since srv srv') gui.

(** What the server does while a window connects.  [connect] yields at
    each request it makes, and the server goes on in between: between the
    two [get_state_var] requests, from the second of them until the
    subscription to 'MagUp Stopped' is in place (the rest of
    [initializeWindow], [get_log], the first two subscriptions), and
    between each of the remaining subscriptions and the next. *)
Record Meanwhile : Type := mkMeanwhile {
  between_reads : list event;
  before_listening : list event;
  after_MagUp_Stopped : list event;
  after_Regulation_Stopped : list event;
  after_MagUp_Started : list event
}.

(** Everything that happens while the window connects. *)
Definition meanwhile (m : Meanwhile) : list event :=
  between_reads m ++ before_listening m ++ after_MagUp_Stopped m
  ++ after_Regulation_Stopped m ++ after_MagUp_Started m.

(** [connect], as far as the two buttons go: the window and the system at
    the moment the last subscription is in place. *)
Definition connect (sys : System) (m : Meanwhile)
  : option (ADRController * System) :=
  let sys1 := run (between_reads m) sys in
  match initializeWindow (server sys) (server sys1) with
  | None => None
  | Some gui =>
      let sys2 := run (before_listening m) sys1 in
      let sys3 := run (after_MagUp_Stopped m) sys2 in
      let gui := hears (firstn 1 listeners) (server sys2) (server sys3) gui in
      let sys4 := run (after_Regulation_Stopped m) sys3 in
      let gui := hears (firstn 2 listeners) (server sys3) (server sys4) gui in
      let sys5 := run (after_MagUp_Started m) sys4 in
      let gui := hears (firstn 3 listeners) (server sys4) (server sys5) gui in
      Some (gui, sys5)
  end.

(** Is this one of the four mode messages? *)
Definition mode_message (msg : string * string) : bool :=
  existsb (String.eqb (fst msg)) listeners.

(** No mode message is sent while the events [es] run from [sys]. *)
Definition quiet (sys : System) (es : list event) : Prop :=
  filter mode_message (sent_since (server sys) (server (run es sys))) = [].

(** The request a click on a button sends, if the button is enabled. *)
Definition click (b : Button) (temp : num) : option event :=
  match button_state b with
  | DISABLED => None
  | NORMAL =>
      Some (match bound b with
            | magUp => MagUp
            | cancelMagUp => CancelMagUp
            | regulate => Regulate temp
            | cancelRegulate => CancelRegulation
            end)
  end.

(** The buttons show the two mode flags [f]. *)
Definition mirrors (gui : ADRController) (f : bool * bool) : Prop :=
  magUpButton gui
  = (if fst f
     then mkButton "Stop Magging Up" cancelMagUp
     else mkButton "Mag Up" magUp)
      (if snd f then DISABLED else NORMAL) /\
  regulateButton gui
  = (if snd f
     then mkButton "Stop Regulating" cancelRegulate
     else mkButton "Regulate" regulate)
      (if fst f then DISABLED else NORMAL).

(** * startServers *)

(** ** The string methods it uses *)

Fixpoint in_chars (c : ascii) (chars : string) : bool :=
  match chars with
  | EmptyString => false
  | String d rest => Ascii.eqb c d || in_chars c rest
  end.

Definition is_empty (s : string) : bool :=
  match s with
  | EmptyString => true
  | String _ _ => false
  end.

(** [s.lstrip(chars)] and [s.rstrip(chars)]: drop the leading (trailing)
    characters that occur in [chars]. *)
Fixpoint lstrip (chars s : string) : string :=
  match s with
  | EmptyString => EmptyString
  | String c rest => if in_chars c chars then lstrip chars rest else s
  end.

Fixpoint rstrip (chars s : string) : string :=
  match s with
  | EmptyString => EmptyString
  | String c rest =>
      let rest' := rstrip chars rest in
      if is_empty rest' && in_chars c chars then EmptyString
      else String c rest'
  end.

(** [s.strip(chars)] *)
Definition pystrip (chars s : string) : string :=
  rstrip chars (lstrip chars s).

(** [s.find(sub) >= 0] *)
Definition found (sub s : string) : bool :=
  match index 0 sub s with
  | Some _ => true
  | None => false
  end.

Definition starts_in (chars s : string) : bool :=
  match s with
  | EmptyString => false
  | String c _ => in_chars c chars
  end.

Fixpoint ends_in (chars s : string) : bool :=
  match s with
  | EmptyString => false
  | String c rest =>
      match rest with
      | EmptyString => in_chars c chars
      | String _ _ => ends_in chars rest
      end
  end.

(** ** The method *)

(** The local variable [nodeName], which is bound only once the first loop
    has gone round. *)
Inductive binding : Type :=
| Unbound
| Bound (nodeName : string).

(** The loop over the running servers.  [computername] is the entry of
    [os.environ]; [None] as a result is the [KeyError] of a missing entry,
    which nothing catches. *)
Fixpoint find_node (running_servers : list string)
    (computername : option string) (nodeName : binding) : option binding :=
  match running_servers with
  | [] => Some nodeName
  | name :: rest =>
      if found "node " name
      then find_node rest computername (Bound (pystrip "node " name))
      else
        match computername with
        | Some c => find_node rest computername (Bound c)
        | None => None
        end
  end.

(** One round of the loop over the servers to start.  [start node server]
    is what [self.client.servers[node].start(server)] does: [None] when it
    goes through, the text of the exception otherwise.  Using [nodeName]
    while it is unbound raises inside the [try] as well. *)
Definition start_server (running_servers : list string) (nodeName : binding)
    (start : string -> string -> option string) (server : string)
    (srv : Server) : Server :=
  if existsb (String.eqb server) running_servers then
    logMessage (Text (server ++ " is already running.")) false srv
  else
    match nodeName with
    | Unbound =>
        logMessage
          (Text ("ERROR starting " ++ server
                 ++ "local variable 'nodeName' referenced before assignment"))
          true srv
    | Bound n =>
        match start ("node " ++ n)%string server with
        | None => logMessage (Text (server ++ " started.")) false srv
        | Some e =>
            logMessage (Text ("ERROR starting " ++ server ++ e)) true srv
        end
    end.

Fixpoint start_servers (running_servers : list string) (nodeName : binding)
    (start : string -> string -> option string) (servList : list string)
    (srv : Server) : Server :=
  match servList with
  | [] => srv
  | server :: rest =>
      start_servers running_servers nodeName start rest
        (start_server running_servers nodeName start server srv)
  end.

Definition startServers (running_servers : list string)
    (computername : option string)
    (start : string -> string -> option string) (servList : list string)
    (srv : Server) : outcome :=
  match find_node running_servers computername Unbound with
  | None => Raises srv
  | Some nodeName =>
      Returns (start_servers running_servers nodeName start servList srv)
  end.

(** Does the start of [server] end in an alert? *)
Definition start_fails (running_servers : list string) (nodeName : binding)
    (start : string -> string -> option string) (server : string) : bool :=
  negb (existsb (String.eqb server) running_servers)
  && match nodeName with
     | Unbound => true
     | Bound n =>
         match start ("node " ++ n)%string server with
         | None => false
         | Some _ => true
         end
     end.

(** * Three formulas in binary64 *)

(** The interpreter evaluates the arithmetic of the server in IEEE 754
    binary64.  These are three formulas of the source in that arithmetic,
    on Rocq's primitive floats; they serve to show, on concrete inputs,
    where the rounded value leaves the exact one. *)

(** [deltaT], with the three [int] fields of the [timedelta] given as
    floats (they are small enough to be exact) and [pow(10,-6)] as the
    double it is. *)
Definition deltaT64 (days seconds microseconds : float) : float :=
  (days * 86400 + seconds + microseconds * 0x1.0c6f7a0b5ed8dp-20)%float.

(* hard voltage limit *)
Definition hard_voltage_limit64 (voltage_limit PSVoltage dV : float)
  : float :=
  if (voltage_limit <? PSVoltage + dV)%float
  then (voltage_limit - PSVoltage)%float
  else dV.

(* limit by hard voltage increase limit; [None] is a [ZeroDivisionError] *)
Definition voltage_increase_limit64 (dVdT_limit dT dV : float)
  : option float :=
  if (dT =? 0)%float then None
  else if (dVdT_limit <? abs (dV / dT))%float then
    if (abs dV =? 0)%float then None
    else Some (dVdT_limit * dT * (dV / abs dV))%float
  else Some dV.

(** ** Scenarios *)

(** Concrete inputs used to exercise the definitions. *)

Definition epoch : pydatetime := 0%Z.

(** A poll cycle at [t] seconds in which every instrument answers. *)
Definition reading (t : Z) (faa emf i v : Q) : PollInput :=
  {| diode_temperatures := Some (Fin 60, Fin 3);
     ruox_time_constant := Some (Fin 1);
     ruox_now := (t * 1000000)%Z;
     ruox_temperature := Some (Fin faa);
     ruox_with_unit := true;
     stamp := (t * 1000000)%Z;
     magnet_voltage := Some (Fin emf);
     ps_current := Some (Fin i);
     ps_voltage_read := Some (Fin v) |}.

(** The same, with the power supply not answering. *)
Definition ps_lost (t : Z) (faa emf : Q) : PollInput :=
  {| diode_temperatures := Some (Fin 60, Fin 3);
     ruox_time_constant := Some (Fin 1);
     ruox_now := (t * 1000000)%Z;
     ruox_temperature := Some (Fin faa);
     ruox_with_unit := true;
     stamp := (t * 1000000)%Z;
     magnet_voltage := Some (Fin emf);
     ps_current := None;
     ps_voltage_read := None |}.

(** The same, with the Ruox monitor not answering. *)
Definition ruox_lost (t : Z) (emf i v : Q) : PollInput :=
  {| diode_temperatures := Some (Fin 60, Fin 3);
     ruox_time_constant := None;
     ruox_now := (t * 1000000)%Z;
     ruox_temperature := None;
     ruox_with_unit := true;
     stamp := (t * 1000000)%Z;
     magnet_voltage := Some (Fin emf);
     ps_current := Some (Fin i);
     ps_voltage_read := Some (Fin v) |}.

Definition all_connected : event := InitializeInstruments true true true true.

(** The instruments are connected and two poll cycles, one second apart,
    have read 0.2 K on the FAA stage, -0.05 V across the magnet, and 1 A and
    [v] volts at the supply. *)
Definition polled (v : Q) : System :=
  run [all_connected;
       Poll (reading 20 (2 # 10) (- (5 # 100)) 1 v);
       Poll (reading 21 (2 # 10) (- (5 # 100)) 1 v)]
    (boot epoch).

(** The scenario of the mag-up section: the supply at 0 A and 0 V, 0.05 V
    across the magnet. *)
Definition at_rest : System :=
  run [all_connected;
       Poll (reading 20 (2 # 10) (5 # 100) 0 0);
       Poll (reading 21 (2 # 10) (5 # 100) 0 0)]
    (boot epoch).

Definition three_entries : Server :=
  logMessage (Text "c") true
    (logMessage (Text "b") false (logMessage (Text "a") false (init epoch))).

(** * Properties *)

(** ** Facts about numbers *)

Lemma Qltb_lt (x y : Q) : Qltb x y = true <-> x < y.
Proof.
  unfold Qltb. rewrite negb_true_iff.
  split; intro H.
  - apply Qnot_le_lt. intro L. apply Qle_bool_iff in L. congruence.
  - destruct (Qle_bool y x) eqn:E; trivial.
    apply Qle_bool_iff in E. exfalso. apply (Qlt_not_le _ _ H E).
Qed.

Lemma Qltb_ge (x y : Q) : Qltb x y = false <-> y <= x.
Proof.
  unfold Qltb. rewrite negb_false_iff. apply Qle_bool_iff.
Qed.

Lemma Qle_bool_gt (x y : Q) : Qle_bool x y = false <-> y < x.
Proof.
  rewrite <- (Qltb_lt y x). unfold Qltb.
  destruct (Qle_bool x y); simpl; split; congruence.
Qed.

Lemma Qeq_bool_false (x y : Q) : Qeq_bool x y = false <-> ~ x == y.
Proof.
  split.
  - intros H E. apply Qeq_bool_iff in E. congruence.
  - intro H. destruct (Qeq_bool x y) eqn:E; trivial.
    apply Qeq_bool_iff in E. contradiction.
Qed.

Lemma flt_NaN_r (x : num) : (x <? NaN)%num = false.
Proof. destruct x; reflexivity. Qed.

Lemma fgt_NaN_l (x : num) : (NaN >? x)%num = false.
Proof. destruct x; reflexivity. Qed.

Lemma fle_NaN_r (x : num) : (x <=? NaN)%num = false.
Proof. destruct x; reflexivity. Qed.

Lemma fadd_NaN_r (x : num) : (x + NaN)%num = NaN.
Proof. destruct x; reflexivity. Qed.

Lemma fsub_NaN_r (x : num) : (x - NaN)%num = NaN.
Proof. destruct x; reflexivity. Qed.

Lemma fmul_NaN_r (x : num) : (x * NaN)%num = NaN.
Proof. destruct x; reflexivity. Qed.

(** Turns the boolean comparisons of a goal and its hypotheses into
    (in)equalities on rationals. *)
Ltac bool_to_Q :=
  repeat match goal with
  | H : Qltb _ _ = true |- _ => apply Qltb_lt in H
  | H : Qltb _ _ = false |- _ => apply Qltb_ge in H
  | H : Qle_bool _ _ = true |- _ => apply Qle_bool_iff in H
  | H : Qle_bool _ _ = false |- _ => apply Qle_bool_gt in H
  | H : Qeq_bool _ _ = true |- _ => apply Qeq_bool_iff in H
  | H : Qeq_bool _ _ = false |- _ => apply Qeq_bool_false in H
  | |- Qltb _ _ = true => apply Qltb_lt
  | |- Qltb _ _ = false => apply Qltb_ge
  | |- Qle_bool _ _ = true => apply Qle_bool_iff
  | |- Qle_bool _ _ = false => apply Qle_bool_gt
  end.

(** The guarded cycle length is a number and is never zero. *)
Lemma cycle_dt_nonzero (srv : Server) :
  exists t, cycle_dt srv = Fin t /\ Qeq_bool t 0 = false.
Proof.
  unfold cycle_dt. simpl.
  destruct (Qeq_bool _ 0) eqn:E.
  - exists (1 # 10000000000). split; reflexivity.
  - eexists. split; [reflexivity | exact E].
Qed.

Lemma fdiv_Fin (x : num) (t : Q) :
  Qeq_bool t 0 = false ->
  fdiv x (Fin t) = Some (match x with Fin a => Fin (a / t) | NaN => NaN end).
Proof. intro H. unfold fdiv. rewrite H. reflexivity. Qed.

(** ** getLog *)

Lemma slice_from_neg {A : Type} (m : nat) (l : list A) :
  (m <= List.length l)%nat ->
  (m = 0%nat -> l = []) ->
  slice_from (- Z.of_nat m) l = skipn (List.length l - m) l.
Proof.
  intros H H0. unfold slice_from.
  destruct (- Z.of_nat m <? 0)%Z eqn:E.
  - f_equal. lia.
  - apply Z.ltb_ge in E. assert (m = 0%nat) by lia.
    rewrite (H0 H1). simpl. rewrite !skipn_nil. reflexivity.
Qed.

(** [lst[-len(lst):]] is the whole list. *)
Lemma slice_from_all {A : Type} (l : list A) :
  slice_from (- Z.of_nat (List.length l)) l = l.
Proof.
  rewrite slice_from_neg.
  - rewrite Nat.sub_diag. reflexivity.
  - lia.
  - destruct l; [reflexivity | discriminate].
Qed.

(** Without a count the default [0] is an [int] and the whole log is
    returned. *)
Lemma getLog_default (srv : Server) :
  getLog srv None = Some (logMessages srv).
Proof.
  unfold getLog. cbn [count_is_zero Z.eqb count_min].
  rewrite Z.ltb_irrefl, slice_from_all. reflexivity.
Qed.

(** With a count, which is a float: the whole log when the count is zero or
    exceeds the length of the log, and a [TypeError] otherwise. *)
Lemma getLog_float (srv : Server) (x : Q) :
  getLog srv (Some (Fin x))
  = if Qeq_bool x 0
       || Qltb (inject_Z (Z.of_nat (List.length (logMessages srv)))) x
    then Some (logMessages srv) else None.
Proof.
  unfold getLog. cbn [count_is_zero feq cmp2].
  destruct (Qeq_bool x 0); cbn [orb count_min].
  - rewrite Z.ltb_irrefl, slice_from_all. reflexivity.
  - cbn [flt cmp2].
    destruct (Qltb _ x); [rewrite slice_from_all |]; reflexivity.
Qed.

(** C9.  The count reaches [getLog] as a float.  Left out, zero, or larger
    than the length of the log, it yields the whole log.  Any other count,
    and so every count [n] with [0 < n <= len], stays a float through
    [min(n, len)], and the slice [self.logMessages[-n:]] raises: after ten
    entries, [getLog 5] returns nothing. *)
Theorem getLog_float_count_raises (srv : Server) :
  let log := logMessages srv in
  let len := inject_Z (Z.of_nat (List.length log)) in
  getLog srv None = Some log /\
  getLog srv (Some (Fin 0)) = Some log /\
  (forall x, len < x -> getLog srv (Some (Fin x)) = Some log) /\
  (forall x, ~ x == 0 -> x <= len -> getLog srv (Some (Fin x)) = None) /\
  getLog srv (Some NaN) = None /\
  (forall e0 e1 e2 e3 e4 e5 e6 e7 e8 e9 : LogEntry,
     log = [e0; e1; e2; e3; e4; e5; e6; e7; e8; e9] ->
     getLog srv (Some (Fin 5)) = None).
Proof.
  intros log len. split; [apply getLog_default |].
  split; [rewrite getLog_float; reflexivity |].
  split; [| split; [| split; [reflexivity |]]].
  - intros x H. rewrite getLog_float. fold log len.
    apply Qltb_lt in H. rewrite H, orb_true_r. reflexivity.
  - intros x N H. rewrite getLog_float. fold log len.
    apply Qeq_bool_false in N. apply Qltb_ge in H. rewrite N, H.
    reflexivity.
  - intros e0 e1 e2 e3 e4 e5 e6 e7 e8 e9 E.
    rewrite getLog_float. fold log. rewrite E. reflexivity.
Qed.

Lemma getLog_float_count_raises_witness :
  ~ 2 == 0 /\
  2 <= inject_Z (Z.of_nat (List.length (logMessages three_entries))) /\
  getLog three_entries (Some (Fin 2)) = None.
Proof.
  assert (N : ~ 2 == 0) by discriminate.
  assert (L : 2 <= inject_Z
                     (Z.of_nat (List.length (logMessages three_entries))))
    by discriminate.
  split; [exact N |]. split; [exact L |].
  destruct (getLog_float_count_raises three_entries) as (_ & _ & _ & H & _).
  exact (H 2 N L).
Defined.

(** ** The poll cycle *)

Ltac break_match :=
  match goal with
  | |- context [match ?x with _ => _ end] => destruct x eqn:?
  end.

Lemma read_diodes_frame (inp : PollInput) (st : State) :
  beside_diodes (read_diodes inp st) = beside_diodes st.
Proof. unfold read_diodes. repeat break_match; reflexivity. Qed.

Lemma read_ruox_frame (inp : PollInput) (st : State) :
  beside_ruox (read_ruox inp st) = beside_ruox st.
Proof.
  unfold read_ruox, ruox_failed, ruox_settled.
  repeat (break_match; cbn); reflexivity.
Qed.

Lemma read_magnet_frame (inp : PollInput) (st : State) :
  beside_magnet (read_magnet inp st) = beside_magnet st.
Proof. unfold read_magnet. repeat break_match; reflexivity. Qed.

Lemma read_ps_frame (inp : PollInput) (st : State) :
  beside_ps (read_ps inp st) = beside_ps st.
Proof. unfold read_ps. repeat break_match; reflexivity. Qed.

(** Brings the frame equations of the four reads of one cycle into the
    context, slot by slot. *)
Ltac poll_frames inp st :=
  let s1 := fresh "s1" in
  let s2 := fresh "s2" in
  let s3 := fresh "s3" in
  let s4 := fresh "s4" in
  let F := fresh "F" in
  set (s1 := read_diodes inp st) in *;
  set (s2 := read_ruox inp s1) in *;
  set (s3 := set_cycle (cycle (set_datetime (stamp inp) s2) + 1)%Z
               (set_datetime (stamp inp) s2)) in *;
  set (s4 := read_magnet inp s3) in *;
  pose proof (read_diodes_frame inp st) as F; fold s1 in F;
  unfold beside_diodes in F; injection F; clear F; intros;
  pose proof (read_ruox_frame inp s1) as F; fold s2 in F;
  unfold beside_ruox in F; injection F; clear F; intros;
  pose proof (read_magnet_frame inp s3) as F; fold s4 in F;
  unfold beside_magnet in F; injection F; clear F; intros;
  pose proof (read_ps_frame inp s4) as F;
  unfold beside_ps in F; injection F; clear F; intros.

Lemma updateState_state (inp : PollInput) (srv : Server) :
  state (updateState inp srv)
  = read_ps inp (read_magnet inp
      (set_cycle (cycle (set_datetime (stamp inp)
                   (read_ruox inp (read_diodes inp (state srv)))) + 1)%Z
         (set_datetime (stamp inp)
            (read_ruox inp (read_diodes inp (state srv)))))).
Proof. reflexivity. Qed.

Lemma read_diodes_raises (inp : PollInput) (st : State) :
  diode_temperatures inp = None ->
  T_60K (read_diodes inp st) = numpy_nan /\
  T_3K (read_diodes inp st) = numpy_nan /\
  DiodeTempMonitorConnected (read_diodes inp st) = false.
Proof. intro H. unfold read_diodes. rewrite H. repeat split. Qed.

Lemma read_diodes_answers (inp : PollInput) (st : State) (t60 t3 : num) :
  diode_temperatures inp = Some (t60, t3) ->
  T_60K (read_diodes inp st) = boxed t60 /\
  T_3K (read_diodes inp st) = boxed t3.
Proof. intro H. unfold read_diodes. rewrite H. split; reflexivity. Qed.

Lemma read_ruox_raises (inp : PollInput) (st : State) (timeConst : num) :
  ruox_time_constant inp = None \/
  (ruox_time_constant inp = Some timeConst /\
   ruox_settled inp st timeConst = true /\
   ruox_temperature inp = None) ->
  T_GGG (read_ruox inp st) = numpy_nan /\
  T_FAA (read_ruox inp st) = numpy_nan /\
  RuoxTempMonitorConnected (read_ruox inp st) = false.
Proof.
  unfold read_ruox, ruox_settled.
  intros [H | (H1 & H2 & H3)].
  - rewrite H. repeat split.
  - rewrite H1, H2, H3. repeat split.
Qed.

Lemma read_ruox_answers_FAA (inp : PollInput) (st : State)
    (timeConst t : num) :
  ruox_time_constant inp = Some timeConst ->
  ruox_settled inp st timeConst = true ->
  ruox_temperature inp = Some t ->
  RuOxChan st = FAA ->
  (t ==? Fin 45)%num = false ->
  T_FAA (read_ruox inp st) = boxed t.
Proof.
  unfold read_ruox, ruox_settled, eq_bare.
  intros H1 H2 H3 H4 H5. rewrite H1, H2, H3.
  repeat (rewrite H4; cbn).
  destruct (ruox_with_unit inp); cbn; [reflexivity |].
  destruct t as [| q]; cbn in *; [reflexivity |].
  rewrite H5. reflexivity.
Qed.

Lemma read_magnet_raises (inp : PollInput) (st : State) :
  magnet_voltage inp = None ->
  magnetV (read_magnet inp st) = numpy_nan /\
  MagnetVMonitorConnected (read_magnet inp st) = false.
Proof. intro H. unfold read_magnet. rewrite H. split; reflexivity. Qed.

Lemma read_magnet_answers (inp : PollInput) (st : State) (v : num) :
  magnet_voltage inp = Some v ->
  magnetV (read_magnet inp st) = boxed v.
Proof. intro H. unfold read_magnet. rewrite H. reflexivity. Qed.

Lemma read_ps_raises (inp : PollInput) (st : State) :
  ps_current inp = None \/ ps_voltage_read inp = None ->
  PSCurrent (read_ps inp st) = numpy_nan /\
  PSVoltage (read_ps inp st) = numpy_nan /\
  PSConnected (read_ps inp st) = false.
Proof.
  unfold read_ps. intros [H | H]; rewrite H.
  - repeat split.
  - destruct (ps_current inp); repeat split.
Qed.

Lemma read_ps_answers (inp : PollInput) (st : State) (i v : num) :
  ps_current inp = Some i -> ps_voltage_read inp = Some v ->
  PSCurrent (read_ps inp st) = boxed i /\
  PSVoltage (read_ps inp st) = boxed v.
Proof.
  intros H1 H2. unfold read_ps. rewrite H1, H2. split; reflexivity.
Qed.

(** C8.  In every poll cycle the snapshot is taken, the cycle is stamped and
    the counter goes up by one, whatever the instruments do; an instrument
    whose read raises gets NaN in its slots and [False] in its connected
    flag; and an instrument whose read succeeds is stored, whichever other
    reads raised. *)
Theorem updateState_degrades_and_continues (inp : PollInput) (srv : Server) :
  let st := state srv in
  let st' := state (updateState inp srv) in
  lastState (updateState inp srv) = st /\
  datetime st' = stamp inp /\
  cycle st' = (cycle st + 1)%Z /\
  (diode_temperatures inp = None ->
     T_60K st' = numpy_nan /\ T_3K st' = numpy_nan /\
     DiodeTempMonitorConnected st' = false) /\
  (forall timeConst,
     ruox_time_constant inp = None \/
     (ruox_time_constant inp = Some timeConst /\
      ruox_settled inp st timeConst = true /\
      ruox_temperature inp = None) ->
     T_GGG st' = numpy_nan /\ T_FAA st' = numpy_nan /\
     RuoxTempMonitorConnected st' = false) /\
  (magnet_voltage inp = None ->
     magnetV st' = numpy_nan /\ MagnetVMonitorConnected st' = false) /\
  (ps_current inp = None \/ ps_voltage_read inp = None ->
     PSCurrent st' = numpy_nan /\ PSVoltage st' = numpy_nan /\
     PSConnected st' = false) /\
  (forall t60 t3, diode_temperatures inp = Some (t60, t3) ->
     T_60K st' = boxed t60 /\ T_3K st' = boxed t3) /\
  (forall timeConst t,
     ruox_time_constant inp = Some timeConst ->
     ruox_settled inp st timeConst = true ->
     ruox_temperature inp = Some t ->
     RuOxChan st = FAA -> (t ==? Fin 45)%num = false ->
     T_FAA st' = boxed t) /\
  (forall v, magnet_voltage inp = Some v -> magnetV st' = boxed v) /\
  (forall i v, ps_current inp = Some i -> ps_voltage_read inp = Some v ->
     PSCurrent st' = boxed i /\ PSVoltage st' = boxed v).
Proof.
  intros st st'. subst st'. rewrite updateState_state. fold st.
  split; [reflexivity |].
  poll_frames inp st.
  split; [congruence |]. split; [congruence |].
  split.
  { intro Hr. destruct (read_diodes_raises inp st Hr) as (A & B & C).
    fold s1 in A, B, C. repeat split; congruence. }
  split.
  { intros timeConst Hr.
    assert (Hr' : ruox_time_constant inp = None \/
      (ruox_time_constant inp = Some timeConst /\
       ruox_settled inp s1 timeConst = true /\
       ruox_temperature inp = None)).
    { unfold ruox_settled in *. destruct Hr as [Hr | Hr]; [left | right];
        [exact Hr | intuition congruence]. }
    destruct (read_ruox_raises inp s1 timeConst Hr') as (A & B & C).
    fold s2 in A, B, C. repeat split; congruence. }
  split.
  { intro Hr. destruct (read_magnet_raises inp s3 Hr) as (A & B).
    fold s4 in A, B. split; congruence. }
  split.
  { intro Hr. exact (read_ps_raises inp s4 Hr). }
  split.
  { intros t60 t3 Hr.
    destruct (read_diodes_answers inp st t60 t3 Hr) as (A & B).
    fold s1 in A, B. split; congruence. }
  split.
  { intros timeConst t K1 K2 K3 K4 K5.
    assert (A : T_FAA s2 = boxed t).
    { apply (read_ruox_answers_FAA inp s1 timeConst t); trivial.
      - unfold ruox_settled in *. congruence.
      - congruence. }
    congruence. }
  split.
  { intros v Hr. pose proof (read_magnet_answers inp s3 v Hr) as A.
    fold s4 in A. congruence. }
  intros i v K1 K2. exact (read_ps_answers inp s4 i v K1 K2).
Qed.

Lemma updateState_degrades_and_continues_witness :
  let srv := updateState (ps_lost 20 (2 # 10) (5 # 100)) (init epoch) in
  ps_current (ps_lost 20 (2 # 10) (5 # 100)) = None /\
  PSCurrent (state srv) = numpy_nan /\
  PSVoltage (state srv) = numpy_nan /\
  PSConnected (state srv) = false /\
  magnetV (state srv) = boxed (Fin (5 # 100)) /\
  T_FAA (state srv) = boxed (Fin (2 # 10)) /\
  cycle (state srv) = 1%Z.
Proof.
  pose proof (updateState_degrades_and_continues
                (ps_lost 20 (2 # 10) (5 # 100)) (init epoch)) as H.
  cbv zeta in H.
  destruct H as (_ & _ & C & _ & _ & _ & P & _ & R & M & _).
  destruct (P (or_introl eq_refl)) as (P1 & P2 & P3).
  split; [reflexivity |].
  split; [exact P1 |]. split; [exact P2 |]. split; [exact P3 |].
  split; [apply M; reflexivity |].
  split; [apply (R (Fin 1)); reflexivity | exact C].
Defined.

(** ** Cancel handlers *)

Lemma set_maggingUp_same (st : State) :
  set_maggingUp (maggingUp st) st = st.
Proof. destruct st; reflexivity. Qed.

Lemma set_regulating_same (st : State) :
  set_regulating (regulating st) st = st.
Proof. destruct st; reflexivity. Qed.

(** C7, as the code has it.  Cancelling a controller that is already idle
    leaves the state dictionary as it was and logs the stop message, and it
    does send the stop message with payload 'cancel'. *)
Theorem cancel_when_idle (srv : Server) :
  (maggingUp (state srv) = false ->
     state (_cancelMagUp srv) = state srv /\
     logMessages (_cancelMagUp srv)
       = logMessages srv ++ [(MagUpStoppedAt (PSCurrent (state srv)), false)] /\
     named_messages (_cancelMagUp srv)
       = named_messages srv ++ [("MagUp Stopped", "cancel")%string]) /\
  (regulating (state srv) = false ->
     state (_cancelRegulate srv) = state srv /\
     logMessages (_cancelRegulate srv)
       = logMessages srv ++ [(PIDStoppedAt (PSCurrent (state srv)), false)] /\
     named_messages (_cancelRegulate srv)
       = named_messages srv ++ [("Regulation Stopped", "cancel")%string]).
Proof.
  split; intro H.
  - split; [| split; reflexivity].
    cbn. rewrite <- H. apply set_maggingUp_same.
  - split; [| split; reflexivity].
    cbn. rewrite <- H. apply set_regulating_same.
Qed.

Lemma cancel_when_idle_witness :
  maggingUp (state (init epoch)) = false /\
  named_messages (_cancelMagUp (init epoch))
    = [("MagUp Stopped", "cancel")%string].
Proof.
  split; [reflexivity |].
  destruct (cancel_when_idle (init epoch)) as [H _].
  destruct (H eq_refl) as (_ & _ & E). exact E.
Defined.

(** C7, as the claim states it, fails: on a freshly constructed server,
    where both controllers are idle, each cancel handler sends its stop
    message with payload 'cancel'. *)
Lemma cancel_when_idle_sends_cancel :
  maggingUp (state (init epoch)) = false /\
  regulating (state (init epoch)) = false /\
  In ("MagUp Stopped", "cancel")%string
     (named_messages (_cancelMagUp (init epoch))) /\
  In ("Regulation Stopped", "cancel")%string
     (named_messages (_cancelRegulate (init epoch))).
Proof. repeat split; left; reflexivity. Qed.

(** ** Mutual exclusion of the two modes *)

Lemma loadDefaults_state (settingsList : list (string * num))
    (srv : Server) :
  state (loadDefaults settingsList srv) = state srv.
Proof.
  revert srv.
  induction settingsList as [| [setting v] rest IH]; intro srv;
    [reflexivity |].
  cbn [loadDefaults]. rewrite IH. reflexivity.
Qed.

Lemma updateState_modes (inp : PollInput) (srv : Server) :
  modes (updateState inp srv) = modes srv.
Proof.
  unfold modes. rewrite updateState_state. poll_frames inp (state srv).
  congruence.
Qed.

Lemma connect_instrument_modes (ok : bool) (connected : State -> bool)
    (set_connected : bool -> State -> State) (okmsg failmsg : string)
    (srv : Server) :
  (forall b srv0, modes (with_state (set_connected b) srv0) = modes srv0) ->
  modes (connect_instrument ok connected set_connected okmsg failmsg srv)
  = modes srv.
Proof.
  intro F. unfold connect_instrument.
  destruct ok; [destruct (negb (connected (state srv))) |]; rewrite F;
    reflexivity.
Qed.

Lemma initializeInstruments_modes (ps ruox diode magv : bool) (srv : Server) :
  modes (initializeInstruments ps ruox diode magv srv) = modes srv.
Proof.
  unfold initializeInstruments. cbv zeta.
  rewrite !connect_instrument_modes; reflexivity.
Qed.

Lemma modes_exclusive (a b : Server) :
  modes a = modes b -> exclusive (state b) -> exclusive (state a).
Proof.
  unfold modes, exclusive. intros E H. injection E as E1 E2 _.
  rewrite E1, E2. exact H.
Qed.

Lemma magUp_cycle_regulating (srv : Server) :
  regulating (state (after (magUp_cycle srv))) = regulating (state srv).
Proof. unfold magUp_cycle. repeat break_match; reflexivity. Qed.

Lemma regulate_cycle_maggingUp (srv : Server) :
  maggingUp (state (after (regulate_cycle srv))) = maggingUp (state srv).
Proof. unfold regulate_cycle. repeat break_match; reflexivity. Qed.

Lemma magUp_loop_exclusive (srv : Server) :
  exclusive (state srv) -> exclusive (state (after (magUp_loop srv))).
Proof.
  unfold exclusive, magUp_loop. intro H.
  destruct (maggingUp (state srv)) eqn:M; [| cbn; rewrite M; reflexivity].
  rewrite magUp_cycle_regulating. cbn in H. rewrite H.
  apply andb_false_r.
Qed.

Lemma regulate_loop_exclusive (srv : Server) :
  exclusive (state srv) -> exclusive (state (after (regulate_loop srv))).
Proof.
  unfold exclusive, regulate_loop. intro H.
  destruct (regulating (state srv)) eqn:R; [| cbn; rewrite R; apply andb_false_r].
  rewrite regulate_cycle_maggingUp. rewrite andb_true_r in H. rewrite H.
  reflexivity.
Qed.

Lemma magUp_exclusive (srv : Server) :
  exclusive (state srv) -> exclusive (state (after (_magUp srv))).
Proof.
  intro H. unfold _magUp.
  destruct (maggingUp (state srv)) eqn:M; [exact H |].
  destruct (regulating (state srv)) eqn:R; [exact H |].
  destruct (negb _ || negb _); [exact H |].
  apply magUp_loop_exclusive. unfold exclusive. cbn. rewrite R. reflexivity.
Qed.

Lemma regulate_exclusive (temp : num) (srv : Server) :
  exclusive (state srv) -> exclusive (state (after (_regulate temp srv))).
Proof.
  intro H. unfold _regulate.
  destruct (maggingUp (state srv)) eqn:M; [exact H |].
  destruct (regulating (state srv)) eqn:R.
  { destruct (is_nan temp); unfold exclusive; cbn; rewrite M; reflexivity. }
  destruct (negb _ || negb _ || negb _ || negb _); [exact H |].
  apply regulate_loop_exclusive. unfold exclusive. cbn. rewrite M. reflexivity.
Qed.

Lemma step_exclusive (e : event) (sys : System) :
  exclusive (state (server sys)) -> exclusive (state (server (step e sys))).
Proof.
  intro H. destruct e; cbn [step on_server server].
  - exact (modes_exclusive _ _ (initializeInstruments_modes _ _ _ _ _) H).
  - exact (modes_exclusive _ _ (updateState_modes _ _) H).
  - apply magUp_exclusive, H.
  - apply regulate_exclusive, H.
  - unfold exclusive. reflexivity.
  - unfold exclusive. cbn. apply andb_false_r.
  - destruct (magUp_loops sys); [exact H |].
    apply magUp_loop_exclusive, H.
  - destruct (regulate_loops sys); [exact H |].
    apply regulate_loop_exclusive, H.
  - destruct m; exact H.
  - exact H.
  - exact H.
  - exact H.
  - rewrite loadDefaults_state. exact H.
Qed.

Lemma run_exclusive (es : list event) (sys : System) :
  exclusive (state (server sys)) -> exclusive (state (server (run es sys))).
Proof.
  revert sys. induction es as [| e es IH]; intros sys H; [exact H |].
  cbn. apply IH, step_exclusive, H.
Qed.

(** C1.  In every state the server can reach, [maggingUp] and [regulating]
    are not both true.  A mag-up request made while [regulating] is true
    only logs a message and returns, and so does a regulation request made
    while [maggingUp] is true; every event keeps the two flags exclusive. *)
Theorem modes_never_both (sys : System) :
  (reachable sys ->
     maggingUp (state (server sys)) && regulating (state (server sys))
       = false) /\
  (regulating (state (server sys)) = true ->
     exists m, _magUp (server sys)
               = Returns (logMessage m false (server sys))) /\
  (maggingUp (state (server sys)) = true ->
     forall temp, exists m, _regulate temp (server sys)
                            = Returns (logMessage m false (server sys))) /\
  (forall e, exclusive (state (server sys)) ->
             exclusive (state (server (step e sys)))).
Proof.
  split; [| split; [| split]].
  - intros (now & es & E). subst sys.
    apply (run_exclusive es (boot now)). reflexivity.
  - intro R. unfold _magUp. rewrite R.
    destruct (maggingUp (state (server sys))); eexists; reflexivity.
  - intros M temp. unfold _regulate. rewrite M. eexists; reflexivity.
  - intro e. apply step_exclusive.
Qed.

Lemma modes_never_both_witness :
  let sys := run [Regulate (Fin (1 # 10))] (polled 1) in
  reachable sys /\
  regulating (state (server sys)) = true /\
  maggingUp (state (server sys)) && regulating (state (server sys)) = false /\
  exists m, _magUp (server sys) = Returns (logMessage m false (server sys)).
Proof.
  destruct (modes_never_both (run [Regulate (Fin (1 # 10))] (polled 1)))
    as (A & B & _).
  assert (R : reachable (run [Regulate (Fin (1 # 10))] (polled 1))).
  { exists epoch.
    exists [all_connected;
            Poll (reading 20 (2 # 10) (- (5 # 100)) 1 1);
            Poll (reading 21 (2 # 10) (- (5 # 100)) 1 1);
            Regulate (Fin (1 # 10))].
    vm_compute. reflexivity. }
  assert (G : regulating
                (state (server (run [Regulate (Fin (1 # 10))] (polled 1))))
              = true)
    by (vm_compute; reflexivity).
  split; [exact R |]. split; [exact G |].
  split; [exact (A R) | exact (B G)].
Defined.

(** ** The mag-up loop *)

Lemma updateState_maggingUp (inp : PollInput) (srv : Server) :
  maggingUp (state (updateState inp srv)) = maggingUp (state srv).
Proof.
  exact (f_equal (fun m => fst (fst m)) (updateState_modes inp srv)).
Qed.

Lemma updateState_ps_raises (inp : PollInput) (srv : Server) :
  ps_current inp = None \/ ps_voltage_read inp = None ->
  PSCurrent (state (updateState inp srv)) = numpy_nan.
Proof.
  intro F. rewrite updateState_state. apply read_ps_raises, F.
Qed.

(** What the completion branch of the mag-up loop leaves behind. *)
Lemma magUp_loop_NaN (srv : Server) :
  maggingUp (state srv) = true ->
  val (PSCurrent (state srv)) = NaN ->
  exists srv',
    magUp_loop srv = Returns srv' /\
    logMessages srv' = logMessages srv ++ [(FinishedMagUp NaN, false)] /\
    maggingUp (state srv') = false /\
    named_messages srv'
    = named_messages srv ++ [("MagUp Stopped", "done")%string] /\
    ps_voltage_writes srv' = ps_voltage_writes srv.
Proof.
  intros M N. unfold magUp_loop, magUp_cycle. rewrite M, N.
  eexists. split; [reflexivity |]. repeat split.
Qed.

(** C10.  A mag-up loop that finds a NaN in [PSCurrent] takes the completion
    branch, whatever the current limit is: it leaves the loop, the log has
    grown by 'Finished magging up. nan Amps reached.', [maggingUp] is
    cleared, 'MagUp Stopped' with payload 'done' has been sent, and nothing
    has been written to the supply.  A poll cycle in which the power supply
    read raises leaves exactly such a NaN behind. *)
Theorem magUp_finishes_on_NaN_current (srv : Server) :
  maggingUp (state srv) = true ->
  (val (PSCurrent (state srv)) = NaN ->
   exists srv',
     magUp_loop srv = Returns srv' /\
     logMessages srv' = logMessages srv ++ [(FinishedMagUp NaN, false)] /\
     maggingUp (state srv') = false /\
     named_messages srv'
     = named_messages srv ++ [("MagUp Stopped", "done")%string] /\
     ps_voltage_writes srv' = ps_voltage_writes srv) /\
  (forall inp,
     ps_current inp = None \/ ps_voltage_read inp = None ->
     let polled := updateState inp srv in
     PSCurrent (state polled) = numpy_nan /\
     exists srv',
       magUp_loop polled = Returns srv' /\
       logMessages srv' = logMessages polled ++ [(FinishedMagUp NaN, false)] /\
       maggingUp (state srv') = false /\
       named_messages srv'
       = named_messages polled ++ [("MagUp Stopped", "done")%string] /\
       ps_voltage_writes srv' = ps_voltage_writes polled).
Proof.
  intro M. split; [apply magUp_loop_NaN, M |].
  intros inp F polled.
  assert (N : PSCurrent (state polled) = numpy_nan)
    by (apply updateState_ps_raises, F).
  split; [exact N |].
  apply magUp_loop_NaN.
  - subst polled. rewrite updateState_maggingUp. exact M.
  - rewrite N. reflexivity.
Qed.

Lemma magUp_finishes_on_NaN_current_witness :
  let srv :=
    server (run [MagUp; Poll (ps_lost 22 (2 # 10) (5 # 100))] at_rest) in
  maggingUp (state srv) = true /\
  val (PSCurrent (state srv)) = NaN /\
  exists srv',
    magUp_loop srv = Returns srv' /\
    logMessages srv' = logMessages srv ++ [(FinishedMagUp NaN, false)] /\
    maggingUp (state srv') = false /\
    named_messages srv'
    = named_messages srv ++ [("MagUp Stopped", "done")%string] /\
    ps_voltage_writes srv' = ps_voltage_writes srv.
Proof.
  assert (M : maggingUp
                (state (server (run [MagUp;
                                     Poll (ps_lost 22 (2 # 10) (5 # 100))]
                                  at_rest)))
              = true)
    by (vm_compute; reflexivity).
  assert (N : val (PSCurrent
                     (state (server (run [MagUp;
                                          Poll (ps_lost 22 (2 # 10) (5 # 100))]
                                       at_rest))))
              = NaN)
    by (vm_compute; reflexivity).
  split; [exact M |]. split; [exact N |].
  exact (proj1 (magUp_finishes_on_NaN_current _ M) N).
Defined.




(** ** The regulation loop *)

(** The loop body, cut at the accumulation and at the completion test. *)
Lemma regulate_cycle_eq (srv : Server) :
  regulate_cycle srv
  = let o := observed srv in
    match clamped_dV o with
    | None => Raises o
    | Some dV =>
        if (PSVoltage (state o) + dV <=? Fin 0)%num
        then Returns (completed o)
        else Sleeps (ps_voltage (PSVoltage (state o) + dV)%num o)
    end.
Proof.
  unfold regulate_cycle, observed, clamped_dV.
  destruct (is_numpy_nan (T_FAA (state srv))); cbv zeta;
    match goal with
    | |- match ?p with _ => _ end
         = match match ?q with _ => _ end with _ => _ end =>
        change q with p; destruct p; reflexivity
    end.
Qed.

Lemma observed_accumulates (srv : Server) :
  PID_cumulativeError (state (observed srv))
  = (PID_cumulativeError (state srv)
     + (regulationTemp (state srv) - T_FAA (state srv)))%num.
Proof.
  unfold observed. destruct (is_numpy_nan (T_FAA (state srv))); reflexivity.
Qed.

Lemma regulate_cycle_accumulates (srv : Server) :
  PID_cumulativeError (state (after (regulate_cycle srv)))
  = (PID_cumulativeError (state srv)
     + (regulationTemp (state srv) - T_FAA (state srv)))%num.
Proof.
  rewrite regulate_cycle_eq. cbv zeta.
  rewrite <- observed_accumulates.
  destruct (clamped_dV (observed srv)); [| reflexivity].
  destruct (_ <=? _)%num; reflexivity.
Qed.

Lemma magUp_cycle_accumulator (srv : Server) :
  PID_cumulativeError (state (after (magUp_cycle srv)))
  = PID_cumulativeError (state srv).
Proof. unfold magUp_cycle. repeat break_match; reflexivity. Qed.

Lemma magUp_accumulator (srv : Server) :
  PID_cumulativeError (state (after (_magUp srv)))
  = PID_cumulativeError (state srv).
Proof.
  unfold _magUp, magUp_loop.
  repeat break_match; try reflexivity.
  rewrite magUp_cycle_accumulator. reflexivity.
Qed.

(** Without a regulation request no regulation loop exists and the
    accumulator stays where [__init__] put it. *)
Lemma step_keeps_fresh (e : event) (sys : System) :
  is_regulate e = false ->
  regulate_loops sys = 0%nat /\
  PID_cumulativeError (state (server sys)) = Fin 0 ->
  regulate_loops (step e sys) = 0%nat /\
  PID_cumulativeError (state (server (step e sys))) = Fin 0.
Proof.
  intros N (L & A).
  destruct e; try discriminate N; cbn [step on_server server regulate_loops].
  - split; [exact L |].
    rewrite <- A.
    exact (f_equal snd (initializeInstruments_modes _ _ _ _ _)).
  - split; [exact L |].
    rewrite <- A. exact (f_equal snd (updateState_modes _ _)).
  - split; [exact L |]. rewrite magUp_accumulator. exact A.
  - split; [exact L | exact A].
  - split; [exact L | exact A].
  - destruct (magUp_loops sys); [split; assumption |].
    cbn [server regulate_loops]. split; [exact L |].
    unfold magUp_loop. destruct (maggingUp _); [| exact A].
    rewrite magUp_cycle_accumulator. exact A.
  - rewrite L. split; assumption.
  - split; [exact L |]. destruct m; exact A.
  - split; [exact L | exact A].
  - split; [exact L | exact A].
  - split; [exact L | exact A].
  - split; [exact L |]. rewrite loadDefaults_state. exact A.
Qed.

Lemma run_keeps_fresh (es : list event) (sys : System) :
  forallb (fun e => negb (is_regulate e)) es = true ->
  regulate_loops sys = 0%nat /\
  PID_cumulativeError (state (server sys)) = Fin 0 ->
  PID_cumulativeError (state (server (run es sys))) = Fin 0.
Proof.
  revert sys. induction es as [| e es IH]; intros sys N H.
  - apply H.
  - cbn in N. apply andb_true_iff in N. destruct N as (N1 & N2).
    cbn. apply IH; [exact N2 |].
    apply step_keeps_fresh; [| exact H].
    apply negb_true_iff, N1.
Qed.

(** C5, as the code has it.  A regulation start accepted from idle goes
    to the loop through [regulate_enter], which does not touch the
    accumulator: the loop is entered with the value the earlier runs left,
    and the first cycle adds its error to that value.  The accumulator
    is zero when the server is constructed and stays zero as long as no
    regulation request has been made. *)
Theorem regulate_start_keeps_accumulator (srv : Server) :
  (forall temp,
     maggingUp (state srv) = false -> regulating (state srv) = false ->
     PSConnected (state srv) = true ->
     DiodeTempMonitorConnected (state srv) = true ->
     RuoxTempMonitorConnected (state srv) = true ->
     MagnetVMonitorConnected (state srv) = true ->
     _regulate temp srv = regulate_loop (regulate_enter srv)) /\
  PID_cumulativeError (state (regulate_enter srv))
    = PID_cumulativeError (state srv) /\
  PID_cumulativeError (state (after (regulate_loop (regulate_enter srv))))
    = (PID_cumulativeError (state srv)
       + (regulationTemp (state srv) - T_FAA (state srv)))%num /\
  (forall now es,
     forallb (fun e => negb (is_regulate e)) es = true ->
     PID_cumulativeError (state (server (run es (boot now)))) = Fin 0).
Proof.
  split; [| split; [reflexivity | split]].
  - intros temp M R C1 C2 C3 C4. unfold _regulate.
    rewrite M, R, C1, C2, C3, C4. reflexivity.
  - unfold regulate_loop.
    change (regulating (state (regulate_enter srv))) with true.
    cbv iota. rewrite regulate_cycle_accumulates. reflexivity.
  - intros now es N. apply run_keeps_fresh; [exact N |].
    split; reflexivity.
Qed.

Lemma regulate_start_keeps_accumulator_witness :
  forallb (fun e => negb (is_regulate e))
    [all_connected; Poll (reading 20 (2 # 10) (5 # 100) 1 1); MagUp] = true /\
  PID_cumulativeError
    (state (server (run [all_connected;
                         Poll (reading 20 (2 # 10) (5 # 100) 1 1); MagUp]
                      (boot epoch)))) = Fin 0.
Proof.
  split; [reflexivity |].
  destruct (regulate_start_keeps_accumulator (init epoch)) as (_ & _ & _ & H).
  apply H. reflexivity.
Defined.

(** C5, as the claim states it, fails: after one regulation run that was
    cancelled, the server is idle, a new regulation request is accepted, and
    the loop is entered with the old sum, which is not zero. *)
Lemma second_run_starts_with_old_sum :
  let srv :=
    server (run [Regulate (Fin (1 # 10)); CancelRegulation] (polled 1)) in
  maggingUp (state srv) = false /\
  regulating (state srv) = false /\
  _regulate (Fin (1 # 10)) srv = regulate_loop (regulate_enter srv) /\
  (PID_cumulativeError (state (regulate_enter srv)) ==? Fin (-1 # 10))%num
    = true /\
  (PID_cumulativeError (state (regulate_enter srv)) ==? Fin 0)%num = false.
Proof. vm_compute. repeat split. Qed.

(** A gain that is not a number makes the proposal raise. *)
Lemma propose_dV_TagList (cfg : Settings) (st last : State)
    (T_target dT : num) :
  numeric_gains cfg = false ->
  propose_dV cfg st last T_target dT = None.
Proof.
  unfold numeric_gains, propose_dV, gain_mul.
  destruct (PID_KP cfg), (PID_KI cfg), (PID_KD cfg);
    try discriminate; reflexivity.
Qed.

(** With numbers for gains the proposal is the sum of the three terms. *)
Lemma propose_dV_numeric (cfg : Settings) (st last : State)
    (T_target : num) (t : Q) :
  Qeq_bool t 0 = false ->
  numeric_gains cfg = true ->
  exists kp ki kd,
    PID_KP cfg = Number kp /\ PID_KI cfg = Number ki /\
    PID_KD cfg = Number kd /\
    propose_dV cfg st last T_target (Fin t)
    = Some (kp * (T_target - T_FAA st)
            + ki * PID_cumulativeError st
            + match (kd * (T_FAA last - T_FAA st))%num with
              | Fin a => Fin (a / t)
              | NaN => NaN
              end)%num.
Proof.
  intros Ht G. unfold numeric_gains in G. unfold propose_dV, gain_mul.
  destruct (PID_KP cfg) as [kp |], (PID_KI cfg) as [ki |],
    (PID_KD cfg) as [kd |]; try discriminate G.
  exists kp, ki, kd. rewrite (fdiv_Fin _ t Ht). repeat split.
Qed.

(** With a NaN on the FAA stage the proposal is a NaN, the clamps let it
    through or replace it by zero, and no division fails. *)
Lemma propose_dV_NaN (cfg : Settings) (st last : State) (T_target : num)
    (t : Q) :
  Qeq_bool t 0 = false ->
  numeric_gains cfg = true ->
  val (T_FAA st) = NaN ->
  propose_dV cfg st last T_target (Fin t) = Some NaN.
Proof.
  intros Ht G N.
  destruct (propose_dV_numeric cfg st last T_target t Ht G)
    as (kp & ki & kd & _ & _ & _ & E).
  rewrite E, N, !fsub_NaN_r, !fmul_NaN_r. reflexivity.
Qed.

Lemma limit_dV_NaN (cfg : Settings) (st : State) (t : Q) (dI : num) :
  Qeq_bool t 0 = false ->
  limit_dV cfg st (Fin t) dI NaN = Some NaN \/
  limit_dV cfg st (Fin t) dI NaN = Some (Fin 0).
Proof.
  intro Ht. unfold limit_dV.
  assert (A : hard_current_limit cfg st NaN = NaN).
  { unfold hard_current_limit. destruct (_ >? _)%num; reflexivity. }
  rewrite A.
  assert (B : hard_voltage_limit cfg st NaN = NaN).
  { unfold hard_voltage_limit. rewrite fadd_NaN_r, fgt_NaN_l. reflexivity. }
  rewrite B.
  change (steady_state_limit cfg st NaN) with NaN.
  unfold voltage_increase_limit. rewrite (fdiv_Fin _ t Ht).
  cbv iota. change (fabs NaN) with NaN. rewrite fgt_NaN_l.
  unfold current_increase_limit. rewrite (fdiv_Fin _ t Ht).
  destruct (_ >? _)%num; [right | left]; reflexivity.
Qed.

Lemma clamped_dV_NaN (srv : Server) :
  numeric_gains (ADRSettings srv) = true ->
  val (T_FAA (state srv)) = NaN ->
  clamped_dV srv = Some NaN \/ clamped_dV srv = Some (Fin 0).
Proof.
  intros G N. unfold clamped_dV.
  destruct (cycle_dt_nonzero srv) as (t & Et & Ht).
  rewrite Et, (propose_dV_NaN _ _ _ _ t Ht G N).
  apply limit_dV_NaN, Ht.
Qed.

Lemma clamped_dV_TagList (srv : Server) :
  numeric_gains (ADRSettings srv) = false -> clamped_dV srv = None.
Proof.
  intro G. unfold clamped_dV. rewrite (propose_dV_TagList _ _ _ _ _ G).
  reflexivity.
Qed.

Lemma completed_log (srv : Server) :
  logMessages (completed srv)
  = logMessages srv
    ++ [(Text "Regulation has completed. Mag up and try again.", false)].
Proof. reflexivity. Qed.

Lemma completed_sent (srv : Server) :
  named_messages (completed srv)
  = named_messages srv ++ [("Regulation Stopped", "done")%string].
Proof. reflexivity. Qed.

(** C6, as the code has it.  When the regulation loop finds the
    [numpy.nan] object in [T_FAA], the cycle logs 'FAA temp is not
    valid...' with the alert flag false, runs the cancel handler (which
    clears [regulating], logs the stop message and sends 'Regulation
    Stopped' with payload 'cancel'), and finishes without raising; no entry
    it logs carries the alert flag.  (Only a gain that is not a number
    makes the cycle raise, and it does so after these effects.) *)
Theorem regulate_cancels_on_numpy_nan (srv : Server) :
  T_FAA (state srv) = numpy_nan ->
  exists srv',
    (regulate_cycle srv = Sleeps srv' \/ regulate_cycle srv = Returns srv' \/
     (numeric_gains (ADRSettings srv) = false /\
      regulate_cycle srv = Raises srv')) /\
    regulating (state srv') = false /\
    (exists more,
       logMessages srv'
       = logMessages srv
         ++ [(Text "FAA temp is not valid.  Regulation cannot continue.",
              false);
             (PIDStoppedAt (PSCurrent (state srv)), false)]
         ++ more /\
       forallb (fun e => negb (snd e)) more = true) /\
    (exists more,
       named_messages srv'
       = named_messages srv
         ++ ("Regulation Stopped", "cancel")%string :: more).
Proof.
  intro N. rewrite regulate_cycle_eq. cbv zeta.
  assert (O : observed srv
    = with_state
        (fun st =>
           set_PID_cumulativeError
             (PID_cumulativeError st + (regulationTemp st - T_FAA st))%num st)
        (_cancelRegulate
           (logMessage
              (Text "FAA temp is not valid.  Regulation cannot continue.")
              false srv))).
  { unfold observed. rewrite N. reflexivity. }
  assert (NO : val (T_FAA (state (observed srv))) = NaN).
  { rewrite O. cbn. rewrite N. reflexivity. }
  assert (LO : logMessages (observed srv)
    = logMessages srv
      ++ [(Text "FAA temp is not valid.  Regulation cannot continue.", false);
          (PIDStoppedAt (PSCurrent (state srv)), false)]).
  { rewrite O. cbn. rewrite <- app_assoc. reflexivity. }
  assert (MO : named_messages (observed srv)
    = named_messages srv ++ [("Regulation Stopped", "cancel")%string]).
  { rewrite O. reflexivity. }
  assert (RO : regulating (state (observed srv)) = false).
  { rewrite O. reflexivity. }
  assert (SO : ADRSettings (observed srv) = ADRSettings srv).
  { rewrite O. reflexivity. }
  destruct (numeric_gains (ADRSettings srv)) eqn:G.
  2:{ rewrite clamped_dV_TagList by (rewrite SO; exact G).
      exists (observed srv).
      split; [right; right; split; reflexivity |]. split; [exact RO |].
      split.
      - exists []. split; [| reflexivity]. rewrite LO. reflexivity.
      - exists []. exact MO. }
  assert (E : exists dV, clamped_dV (observed srv) = Some dV).
  { rewrite <- SO in G.
    destruct (clamped_dV_NaN _ G NO) as [E | E]; rewrite E; eexists;
      reflexivity. }
  destruct E as (dV & E). rewrite E.
  destruct (_ <=? _)%num.
  - exists (completed (observed srv)).
    split; [right; left; reflexivity |]. split; [reflexivity |]. split.
    + exists [(Text "Regulation has completed. Mag up and try again.", false)].
      split; [| reflexivity].
      rewrite completed_log, LO, <- app_assoc. reflexivity.
    + exists [("Regulation Stopped", "done")%string].
      rewrite completed_sent, MO, <- app_assoc. reflexivity.
  - eexists. split; [left; reflexivity |]. split; [exact RO |]. split.
    + exists []. split; [| reflexivity].
      change (logMessages (ps_voltage ?v ?o)) with (logMessages o).
      rewrite LO. reflexivity.
    + exists []. exact MO.
Qed.

Lemma regulate_cancels_on_numpy_nan_witness :
  let srv :=
    server (run [Regulate (Fin (1 # 10));
                 Poll (ruox_lost 22 (- (5 # 100)) 1 (992 # 1000))]
              (polled 1)) in
  T_FAA (state srv) = numpy_nan /\
  exists srv',
    (regulate_cycle srv = Sleeps srv' \/ regulate_cycle srv = Returns srv') /\
    regulating (state srv') = false.
Proof.
  split; [reflexivity |].
  destruct (regulate_cancels_on_numpy_nan
              (server (run [Regulate (Fin (1 # 10));
                            Poll (ruox_lost 22 (- (5 # 100)) 1 (992 # 1000))]
                         (polled 1))) eq_refl)
    as (srv' & H & R & _).
  exists srv'. split; [| exact R].
  destruct H as [H | [H | (G & _)]];
    [left; exact H | right; exact H | vm_compute in G; discriminate G].
Defined.

(** C6, as the claim states it, fails: a regulation is running, the Ruox
    monitor stops answering, and the loop wakes up.  It cancels, but the
    two entries it logs carry the alert flag false, and so does every other
    entry of the log. *)
Lemma faa_lost_logs_no_alert :
  let before :=
    run [Regulate (Fin (1 # 10));
         Poll (ruox_lost 22 (- (5 # 100)) 1 (992 # 1000))]
      (polled 1) in
  let after_ := step RegulateWakes before in
  regulating (state (server before)) = true /\
  T_FAA (state (server before)) = numpy_nan /\
  regulate_loops before = 1%nat /\
  regulating (state (server after_)) = false /\
  logMessages (server after_)
  = logMessages (server before)
    ++ [(Text "FAA temp is not valid.  Regulation cannot continue.", false);
        (PIDStoppedAt (Fin 1), false)] /\
  existsb snd (logMessages (server after_)) = false.
Proof. vm_compute. repeat split. Qed.

(** C3: the completion branch at work.  The supply stands at 1/256 V and
    the clamped step would take it below zero.  The loop writes 0 V, then
    writes the polled voltage again, and stops with reason 'done': the
    voltage the supply is left with is 1/256 V, not 0 V. *)
Theorem regulation_done_rewrites_polled_voltage :
  let sys := run [Regulate (Fin (1 # 10))] (polled (1 # 256)) in
  match clamped_dV (observed (regulate_enter (server (polled (1 # 256)))))
  with
  | Some dV => (dV ==? Fin (- (8 # 1000)))%num
  | None => false
  end = true /\
  written (server (polled (1 # 256)))
    (_regulate (Fin (1 # 10)) (server (polled (1 # 256))))
  = [Fin 0; (Fin (1 # 256) + Fin 0)%num] /\
  regulating (state (server sys)) = false /\
  regulate_loops sys = 0%nat /\
  last (named_messages (server sys)) (""%string, ""%string)
  = ("Regulation Stopped", "done")%string /\
  (last (ps_voltage_writes (server sys)) NaN ==? Fin 0)%num = false.
Proof. vm_compute. repeat split. Qed.

(** ** The clamps *)

Ltac num_cbn :=
  unfold pymax, pymin in *;
  cbn [fadd fsub fmul flt fle fgt fge feq lift2 cmp2 fabs val] in *.

(** Splits on the condition of an innermost conditional. *)
Ltac break_if :=
  match goal with
  | |- context [if ?c then _ else _] =>
      lazymatch c with
      | context [if _ then _ else _] => fail
      | _ => destruct c eqn:?
      end
  | H : context [if ?c then _ else _] |- _ =>
      lazymatch c with
      | context [if _ then _ else _] => fail
      | _ => destruct c eqn:?
      end
  end.

(** Case analysis on NaN or number, then linear arithmetic. *)
Ltac num_crush :=
  num_cbn; repeat (break_if; num_cbn);
  try reflexivity; try congruence; bool_to_Q; try lra.

Section Clamps.

Variable cfg : Settings.
Variable st : State.

Lemma hard_voltage_limit_within (dV : num) :
  within cfg st (hard_voltage_limit cfg st dV).
Proof.
  unfold within, hard_voltage_limit.
  destruct (val (PSVoltage st)) as [| v], (voltage_limit cfg) as [| lim],
    dV as [| d]; num_crush.
Qed.

Hypothesis supply_below : (PSVoltage st >? voltage_limit cfg)%num = false.

Lemma zero_within : within cfg st (Fin 0).
Proof.
  unfold within. revert supply_below.
  destruct (val (PSVoltage st)) as [| v], (voltage_limit cfg) as [| lim];
    intro; num_crush.
Qed.

Lemma steady_state_limit_within (dV : num) :
  within cfg st dV -> within cfg st (steady_state_limit cfg st dV).
Proof.
  unfold within, steady_state_limit. revert supply_below.
  destruct (val (PSVoltage st)) as [| v], (voltage_limit cfg) as [| lim],
    dV as [| d], (val (magnetV st)) as [| emf],
    (magnet_voltage_limit cfg) as [| ml]; intros; num_crush.
Qed.

End Clamps.

(** The sign [dV/abs(dV)] of a number that is not zero. *)
Lemma sign_cases (q : Q) :
  ~ Qabs q == 0 ->
  (0 < q /\ q / Qabs q == 1) \/ (q < 0 /\ q / Qabs q == - (1)).
Proof.
  intro H. destruct (Q_dec q 0) as [[L | G] | E].
  - right. split; [exact L |].
    rewrite (Qabs_neg q) by lra. field. lra.
  - left. split; [exact G |].
    rewrite (Qabs_pos q) by lra. field. lra.
  - exfalso. apply H. rewrite E. reflexivity.
Qed.

(** What the slew-rate clamp returns: its argument when the rate is not
    above the limit, and otherwise the limit times the cycle length, with
    the sign of its argument. *)
Lemma voltage_increase_limit_cases (cfg : Settings) (t : Q) (dV dV' : num) :
  Qeq_bool t 0 = false ->
  voltage_increase_limit cfg (Fin t) dV = Some dV' ->
  (dV' = dV /\
   exists r, fdiv dV (Fin t) = Some r /\
             (fabs r >? dVdT_limit cfg)%num = false) \/
  (exists q l,
     dV = Fin q /\ dVdT_limit cfg = Fin l /\ l < Qabs (q / t) /\
     ~ Qabs q == 0 /\ dV' = Fin (l * t * (q / Qabs q))).
Proof.
  intros Ht. unfold voltage_increase_limit. rewrite (fdiv_Fin _ t Ht).
  destruct (fabs _ >? dVdT_limit cfg)%num eqn:C.
  - destruct dV as [| q]; [rewrite fgt_NaN_l in C; discriminate C |].
    destruct (dVdT_limit cfg) as [| l]; [discriminate C |].
    cbn [fabs fdiv].
    destruct (Qeq_bool (Qabs q) 0) eqn:Z; [discriminate |].
    intro E. injection E as <-. right. exists q, l.
    num_cbn. bool_to_Q. repeat split; trivial.
  - intro E. injection E as <-. left. split; [reflexivity |].
    eexists. split; [reflexivity | exact C].
Qed.

Lemma voltage_increase_limit_slew (cfg : Settings) (t : Q) (dV dV' : num) :
  Qeq_bool t 0 = false ->
  (dVdT_limit cfg <? Fin 0)%num = false ->
  voltage_increase_limit cfg (Fin t) dV = Some dV' ->
  exists r, fdiv dV' (Fin t) = Some r /\
            (fabs r >? dVdT_limit cfg)%num = false.
Proof.
  intros Ht L E.
  destruct (voltage_increase_limit_cases cfg t dV dV' Ht E)
    as [(-> & H) | (q & l & -> & El & C & Z & ->)]; [exact H |].
  rewrite (fdiv_Fin _ t Ht). eexists. split; [reflexivity |].
  rewrite El in *. num_cbn. bool_to_Q.
  assert (S : l * t * (q / Qabs q) / t == l * (q / Qabs q))
    by (field; split; assumption).
  rewrite S.
  destruct (sign_cases q Z) as [(_ & Hs) | (_ & Hs)]; rewrite Hs.
  - rewrite Qmult_1_r, Qabs_pos by exact L. lra.
  - setoid_replace (l * - (1)) with (- l) by ring.
    rewrite Qabs_opp, Qabs_pos by exact L. lra.
Qed.

Lemma voltage_increase_limit_within (cfg : Settings) (st : State) (t : Q)
    (dV dV' : num) :
  0 < t ->
  (dVdT_limit cfg <? Fin 0)%num = false ->
  (PSVoltage st >? voltage_limit cfg)%num = false ->
  within cfg st dV ->
  voltage_increase_limit cfg (Fin t) dV = Some dV' ->
  within cfg st dV'.
Proof.
  intros Tpos L HV W E.
  assert (Ht : Qeq_bool t 0 = false) by (apply Qeq_bool_false; lra).
  destruct (voltage_increase_limit_cases cfg t dV dV' Ht E)
    as [(-> & _) | (q & l & -> & El & C & Z & ->)]; [exact W |].
  unfold within in *. rewrite El in L.
  destruct (val (PSVoltage st)) as [| v]; [apply fgt_NaN_l |].
  destruct (voltage_limit cfg) as [| lim]; [reflexivity |].
  num_cbn. bool_to_Q.
  assert (P : 0 <= l * t) by (apply Qmult_le_0_compat; lra).
  destruct (sign_cases q Z) as [(S & Hs) | (S & Hs)]; rewrite Hs.
  - assert (D : 0 < q / t) by (apply Qlt_shift_div_l; lra).
    rewrite (Qabs_pos (q / t)) in C by lra.
    assert (M : l * t < q / t * t)
      by (apply Qmult_lt_compat_r; assumption).
    assert (F : q / t * t == q) by (field; lra).
    rewrite F in M. lra.
  - lra.
Qed.

Lemma current_increase_limit_cases (cfg : Settings) (dT dI dV dV' : num) :
  current_increase_limit cfg dT dI dV = Some dV' ->
  dV' = dV \/ dV' = Fin 0.
Proof.
  unfold current_increase_limit.
  destruct (fdiv dI dT); [| discriminate].
  destruct (_ >? _)%num; intro E; injection E as <-; [right | left];
    reflexivity.
Qed.

Lemma zero_slew (cfg : Settings) (t : Q) :
  Qeq_bool t 0 = false ->
  (dVdT_limit cfg <? Fin 0)%num = false ->
  exists r, fdiv (Fin 0) (Fin t) = Some r /\
            (fabs r >? dVdT_limit cfg)%num = false.
Proof.
  intros Ht L. rewrite (fdiv_Fin _ t Ht). eexists. split; [reflexivity |].
  destruct (dVdT_limit cfg) as [| l]; [reflexivity |].
  num_cbn. bool_to_Q.
  setoid_replace (0 / t) with 0 by (field; assumption).
  exact L.
Qed.

Lemma Qabs_zero_iff (q : Q) : Qabs q == 0 <-> q == 0.
Proof.
  split; intro H.
  - destruct (Q_dec q 0) as [[L | G] | E]; [| | exact E].
    + rewrite (Qabs_neg q) in H by lra. lra.
    + rewrite (Qabs_pos q) in H by lra. lra.
  - rewrite H. reflexivity.
Qed.

(** The slew-rate clamp fails exactly on a zero step under a negative
    limit. *)
Lemma voltage_increase_limit_None (cfg : Settings) (t : Q) (dV : num) :
  Qeq_bool t 0 = false ->
  voltage_increase_limit cfg (Fin t) dV = None <->
  exists q l, dV = Fin q /\ q == 0 /\ dVdT_limit cfg = Fin l /\ l < 0.
Proof.
  intro Ht. unfold voltage_increase_limit. rewrite (fdiv_Fin _ t Ht).
  assert (Tn : ~ t == 0) by (apply Qeq_bool_false, Ht).
  destruct dV as [| q].
  { cbn [fabs]. rewrite fgt_NaN_l. split; [discriminate |].
    intros (q & l & E & _). discriminate E. }
  destruct (dVdT_limit cfg) as [| l].
  { cbn. split; [discriminate |].
    intros (q' & l' & _ & _ & E & _). discriminate E. }
  cbn [fabs fgt flt cmp2 fdiv].
  destruct (Qltb l (Qabs (q / t))) eqn:C;
    [destruct (Qeq_bool (Qabs q) 0) eqn:Z |]; bool_to_Q.
  - split; [intros _ | reflexivity].
    exists q, l. apply (proj1 (Qabs_zero_iff q)) in Z.
    assert (D : q / t == 0) by (rewrite Z; field; exact Tn).
    rewrite D in C. change (Qabs 0) with 0 in C.
    repeat split; trivial.
  - split; [discriminate |].
    intros (q' & l' & E & Q0 & _). injection E as <-.
    exfalso. apply Z. apply (proj2 (Qabs_zero_iff q)), Q0.
  - split; [discriminate |].
    intros (q' & l' & E & Q0 & E' & L). injection E as <-.
    injection E' as <-.
    assert (D : q / t == 0) by (rewrite Q0; field; exact Tn).
    rewrite D in C. change (Qabs 0) with 0 in C. lra.
Qed.

(** The cascade as a whole. *)
Lemma limit_dV_within (cfg : Settings) (st : State) (t : Q)
    (dI dV dV' : num) :
  0 < t ->
  (dVdT_limit cfg <? Fin 0)%num = false ->
  (PSVoltage st >? voltage_limit cfg)%num = false ->
  limit_dV cfg st (Fin t) dI dV = Some dV' ->
  within cfg st dV'.
Proof.
  intros Tpos L HV. unfold limit_dV.
  destruct (voltage_increase_limit cfg (Fin t) _) as [d1 |] eqn:E1;
    [| discriminate].
  intro E2.
  assert (W1 : within cfg st d1).
  { eapply voltage_increase_limit_within; try eassumption.
    apply steady_state_limit_within; [exact HV |].
    apply hard_voltage_limit_within. }
  destruct (current_increase_limit_cases _ _ _ _ _ E2) as [-> | ->];
    [exact W1 | apply zero_within, HV].
Qed.

Lemma limit_dV_slew (cfg : Settings) (st : State) (t : Q)
    (dI dV dV' : num) :
  Qeq_bool t 0 = false ->
  (dVdT_limit cfg <? Fin 0)%num = false ->
  limit_dV cfg st (Fin t) dI dV = Some dV' ->
  exists r, fdiv dV' (Fin t) = Some r /\
            (fabs r >? dVdT_limit cfg)%num = false.
Proof.
  intros Ht L. unfold limit_dV.
  destruct (voltage_increase_limit cfg (Fin t) _) as [d1 |] eqn:E1;
    [| discriminate].
  intro E2.
  destruct (current_increase_limit_cases _ _ _ _ _ E2) as [-> | ->].
  - eapply voltage_increase_limit_slew; eassumption.
  - apply zero_slew; assumption.
Qed.

(** ** One regulation cycle and the limits *)

Lemma deltaT_nonneg (a b : pydatetime) :
  (b <= a)%Z -> 0 <= deltaT (datetime_sub a b).
Proof.
  intro H. unfold deltaT, datetime_sub.
  cbn [days seconds microseconds].
  assert (D : (0 <= (a - b) / 86400000000)%Z)
    by (apply Z.div_pos; lia).
  assert (S : (0 <= (a - b) mod 86400000000 / 1000000)%Z).
  { apply Z.div_pos; [| lia].
    apply Z.mod_pos_bound. lia. }
  assert (U : (0 <= (a - b) mod 1000000)%Z)
    by (apply Z.mod_pos_bound; lia).
  rewrite Zle_Qle in D, S, U. change (inject_Z 0) with 0 in D, S, U.
  set (x := inject_Z ((a - b) / 86400000000)) in *.
  set (y := inject_Z ((a - b) mod 86400000000 / 1000000)) in *.
  set (z := inject_Z ((a - b) mod 1000000)) in *.
  clearbody x y z. lra.
Qed.

Lemma cycle_dt_positive (srv : Server) :
  (datetime (lastState srv) <= datetime (state srv))%Z ->
  exists t, cycle_dt srv = Fin t /\ 0 < t.
Proof.
  intro H. unfold cycle_dt. cbn [feq cmp2].
  pose proof (deltaT_nonneg _ _ H) as P.
  destruct (Qeq_bool _ 0) eqn:E.
  - eexists. split; [reflexivity | reflexivity].
  - eexists. split; [reflexivity |]. bool_to_Q.
    apply Qle_lteq in P. destruct P as [P | P]; [exact P |].
    exfalso. apply E. symmetry. exact P.
Qed.

Lemma observed_frame (srv : Server) :
  PSVoltage (state (observed srv)) = PSVoltage (state srv) /\
  ADRSettings (observed srv) = ADRSettings srv /\
  cycle_dt (observed srv) = cycle_dt srv /\
  ps_voltage_writes (observed srv) = ps_voltage_writes srv.
Proof.
  unfold observed. destruct (is_numpy_nan _); repeat split.
Qed.

Lemma skipn_length_app {A : Type} (l m : list A) :
  skipn (List.length l) (l ++ m) = m.
Proof.
  rewrite skipn_app, skipn_all, Nat.sub_diag. reflexivity.
Qed.

(** Whatever the state, the run ends with reason 'done' exactly when the
    clamped step takes the polled voltage to zero or below, and the last
    voltage written is then the polled one. *)
Lemma regulate_cycle_completion (srv : Server) (dV : num) :
  clamped_dV (observed srv) = Some dV ->
  ((PSVoltage (state srv) + dV <=? Fin 0)%num = true ->
     regulate_cycle srv = Returns (completed (observed srv)) /\
     written srv (regulate_cycle srv)
     = [Fin 0; (PSVoltage (state srv) + Fin 0)%num]) /\
  ((PSVoltage (state srv) + dV <=? Fin 0)%num = false ->
     regulate_cycle srv
     = Sleeps (ps_voltage (PSVoltage (state srv) + dV)%num (observed srv))).
Proof.
  intro E. destruct (observed_frame srv) as (OV & _ & _ & OW).
  rewrite regulate_cycle_eq. cbv zeta. rewrite E, OV.
  split; intro C; rewrite C; [| reflexivity].
  split; [reflexivity |].
  unfold written, completed.
  cbn [after ps_voltage ps_voltage_writes send_named_message with_state
       logMessage state].
  rewrite OW, OV, <- app_assoc. apply skipn_length_app.
Qed.

(** A number stays a number through the clamps. *)
Lemma steady_state_limit_Fin (cfg : Settings) (st : State) (d : Q) :
  exists q, steady_state_limit cfg st (Fin d) = Fin q.
Proof.
  unfold steady_state_limit.
  destruct (val (magnetV st)) as [| emf],
    (magnet_voltage_limit cfg) as [| ml];
    num_cbn; repeat (break_if; num_cbn); eexists; reflexivity.
Qed.

Lemma limit_dV_Fin (cfg : Settings) (st : State) (t : Q) (dI : num)
    (p : Q) (d : num) :
  Qeq_bool t 0 = false ->
  limit_dV cfg st (Fin t) dI (Fin p) = Some d -> exists q, d = Fin q.
Proof.
  intro Ht. unfold limit_dV.
  assert (A : exists a, hard_current_limit cfg st (Fin p) = Fin a).
  { unfold hard_current_limit.
    destruct (_ >? _)%num; [destruct (_ >? _)%num |]; eexists; reflexivity. }
  destruct A as (a & ->).
  assert (B : exists b, hard_voltage_limit cfg st (Fin a) = Fin b).
  { unfold hard_voltage_limit.
    destruct (val (PSVoltage st)) as [| v], (voltage_limit cfg) as [| lim];
      num_cbn; try (eexists; reflexivity).
    destruct (Qltb _ _); eexists; reflexivity. }
  destruct B as (b & ->).
  destruct (steady_state_limit_Fin cfg st b) as (c & ->).
  destruct (voltage_increase_limit cfg (Fin t) (Fin c)) as [d1 |] eqn:E1;
    [| discriminate].
  intro E2.
  assert (D : exists q, d1 = Fin q).
  { destruct (voltage_increase_limit_cases cfg t (Fin c) d1 Ht E1)
      as [(-> & _) | (q & l & _ & _ & _ & _ & ->)]; eexists; reflexivity. }
  destruct (current_increase_limit_cases _ _ _ _ _ E2) as [-> | ->];
    [exact D | eexists; reflexivity].
Qed.

Lemma limit_dV_defined (cfg : Settings) (st : State) (t : Q)
    (dI dV : num) :
  Qeq_bool t 0 = false ->
  (dVdT_limit cfg <? Fin 0)%num = false ->
  exists d, limit_dV cfg st (Fin t) dI dV = Some d.
Proof.
  intros Ht L. unfold limit_dV.
  destruct (voltage_increase_limit cfg (Fin t) _) as [d1 |] eqn:E1.
  - unfold current_increase_limit. rewrite (fdiv_Fin _ t Ht).
    destruct (_ >? _)%num; eexists; reflexivity.
  - exfalso.
    destruct (proj1 (voltage_increase_limit_None cfg t _ Ht) E1)
      as (q & l & _ & _ & El & Ln).
    rewrite El in L. num_cbn. bool_to_Q. lra.
Qed.

(** The step that leaves the cascade either passes the slew-rate test of
    the code, or is the product [dVdT_limit*dT] that the slew-rate clamp
    put in its place, up to the sign. *)
Lemma limit_dV_slew_cases (cfg : Settings) (st : State) (t : Q)
    (dI dV dV' : num) :
  0 < t ->
  (dVdT_limit cfg <? Fin 0)%num = false ->
  limit_dV cfg st (Fin t) dI dV = Some dV' ->
  exists r,
    fdiv dV' (Fin t) = Some r /\
    ((fabs r >? dVdT_limit cfg)%num = false \/
     (fabs dV' ==? dVdT_limit cfg * Fin t)%num = true).
Proof.
  intros Tpos L.
  assert (Ht : Qeq_bool t 0 = false) by (apply Qeq_bool_false; lra).
  unfold limit_dV.
  destruct (voltage_increase_limit cfg (Fin t) _) as [d1 |] eqn:E1;
    [| discriminate].
  intro E2.
  destruct (current_increase_limit_cases _ _ _ _ _ E2) as [-> | ->].
  - destruct (voltage_increase_limit_cases cfg t _ d1 Ht E1)
      as [(-> & (r & F & B)) | (q & l & _ & El & C & Z & ->)].
    + exists r. split; [exact F | left; exact B].
    + rewrite (fdiv_Fin _ t Ht). eexists. split; [reflexivity | right].
      rewrite El in *. num_cbn. bool_to_Q. apply Qeq_bool_iff.
      assert (P : 0 <= l * t) by (apply Qmult_le_0_compat; lra).
      destruct (sign_cases q Z) as [(_ & Hs) | (_ & Hs)]; rewrite Hs.
      * rewrite Qmult_1_r. apply Qabs_pos, P.
      * setoid_replace (l * t * - (1)) with (- (l * t)) by ring.
        rewrite Qabs_opp. apply Qabs_pos, P.
  - destruct (zero_slew cfg t Ht L) as (r & F & B).
    exists r. split; [exact F | left; exact B].
Qed.

(** C2, as the code has it.  Take a regulation cycle in which the PID
    proposal and the polled [PSVoltage] are numbers, [PSVoltage] lies
    between 0 and [voltage_limit], [dVdT_limit] is not negative and the two
    poll timestamps are in order.  Then the cycle does not raise and the
    clamped step [dV] is a number.  It passes the slew-rate test of the
    code, [abs(dV/dT) > dVdT_limit] being false, or [abs(dV)] is the
    product [dVdT_limit*dT] that the slew-rate clamp put in its place.  When
    [PSVoltage + dV] is above zero the cycle writes that sum and sleeps;
    otherwise it writes 0 and then [PSVoltage] again and completes, and
    [PSVoltage] was within [abs(dV)] of zero.  Every voltage written is a
    number that does not exceed the larger of [voltage_limit] and
    [PSVoltage + (voltage_limit - PSVoltage)], the sum that the voltage
    clamp aims at (which is [voltage_limit] itself when that difference and
    that sum are exact). *)
Theorem regulate_cycle_within_limits (srv : Server) (v lim l p : Q) :
  let st := state srv in
  let cfg := ADRSettings srv in
  val (PSVoltage st) = Fin v ->
  voltage_limit cfg = Fin lim ->
  dVdT_limit cfg = Fin l ->
  0 <= v -> v <= lim -> 0 <= l ->
  (datetime (lastState srv) <= datetime st)%Z ->
  proposal srv = Some (Fin p) ->
  exists dV dVdT,
    clamped_dV (observed srv) = Some (Fin dV) /\
    fdiv (Fin dV) (cycle_dt srv) = Some dVdT /\
    ((fabs dVdT >? dVdT_limit cfg)%num = false \/
     (fabs (Fin dV) ==? dVdT_limit cfg * cycle_dt srv)%num = true) /\
    (if (PSVoltage st + Fin dV <=? Fin 0)%num
     then regulate_cycle srv = Returns (completed (observed srv)) /\
          written srv (regulate_cycle srv)
          = [Fin 0; (PSVoltage st + Fin 0)%num] /\
          (PSVoltage st <=? fabs (Fin dV))%num = true
     else regulate_cycle srv
          = Sleeps (ps_voltage (PSVoltage st + Fin dV)%num (observed srv)) /\
          written srv (regulate_cycle srv)
          = [(PSVoltage st + Fin dV)%num]) /\
    (forall x,
       In x (written srv (regulate_cycle srv)) ->
       (x <=? pymax (voltage_limit cfg)
                (PSVoltage st + (voltage_limit cfg - PSVoltage st)))%num
       = true).
Proof.
  intros st cfg EV EL ES V0 VL L0 HT EP.
  destruct (cycle_dt_positive srv HT) as (t & Et & Tpos).
  assert (Ht : Qeq_bool t 0 = false) by (apply Qeq_bool_false; lra).
  destruct (observed_frame srv) as (OV & OC & OT & OW).
  fold st in OV. fold cfg in OC.
  assert (EVo : val (PSVoltage (state (observed srv))) = Fin v)
    by (rewrite OV; exact EV).
  assert (LS : (dVdT_limit cfg <? Fin 0)%num = false).
  { rewrite ES. num_cbn. bool_to_Q. exact L0. }
  assert (HV : (PSVoltage (state (observed srv)) >? voltage_limit cfg)%num
               = false).
  { rewrite EVo, EL. num_cbn. bool_to_Q. exact VL. }
  set (dI := (PSCurrent (state (observed srv))
              - PSCurrent (lastState (observed srv)))%num).
  assert (C : clamped_dV (observed srv)
              = limit_dV cfg (state (observed srv)) (Fin t) dI (Fin p)).
  { unfold clamped_dV. unfold proposal in EP. cbv zeta in EP.
    rewrite EP, OC, OT, Et. reflexivity. }
  destruct (limit_dV_defined cfg (state (observed srv)) t dI (Fin p) Ht LS)
    as (d & E).
  destruct (limit_dV_Fin cfg (state (observed srv)) t dI p d Ht E)
    as (dV & ->).
  pose proof (limit_dV_within cfg (state (observed srv)) t dI (Fin p)
                (Fin dV) Tpos LS HV E) as W.
  destruct (limit_dV_slew_cases cfg (state (observed srv)) t dI (Fin p)
              (Fin dV) Tpos LS E) as (r & F & B).
  unfold within in W. rewrite EVo, EL in W. num_cbn. bool_to_Q.
  rewrite <- C in E.
  exists dV, r. rewrite Et.
  split; [exact E |]. split; [exact F |]. split; [exact B |].
  destruct (regulate_cycle_completion srv (Fin dV) E) as (K1 & K2).
  fold st in K1, K2.
  assert (X : forall x,
            x = Fin 0 \/ x = Fin (v + 0) \/ x = Fin (v + dV) ->
            (x <=? pymax (voltage_limit cfg)
                     (PSVoltage st + (voltage_limit cfg - PSVoltage st)))%num
            = true).
  { intros x H. rewrite EV, EL. num_cbn.
    destruct (Qltb lim (v + (lim - v))) eqn:Q;
      destruct H as [-> | [-> | ->]]; num_cbn; bool_to_Q; lra. }
  destruct (PSVoltage st + Fin dV <=? Fin 0)%num eqn:D.
  - destruct (K1 eq_refl) as (R & Wr). rewrite Wr.
    split; [split; [exact R | split; [reflexivity |]] |].
    + rewrite EV in *. num_cbn. bool_to_Q.
      destruct (Qlt_le_dec dV 0) as [N | N].
      * rewrite (Qabs_neg dV) by lra. lra.
      * rewrite (Qabs_pos dV) by lra. lra.
    + intros x [<- | [<- | []]]; apply X; rewrite ?EV;
        [left | right; left]; reflexivity.
  - rewrite (K2 eq_refl).
    assert (Wr : written srv
                   (Sleeps (ps_voltage (PSVoltage st + Fin dV)%num
                              (observed srv)))
                 = [(PSVoltage st + Fin dV)%num]).
    { unfold written. cbn [after ps_voltage ps_voltage_writes].
      rewrite OW. apply skipn_length_app. }
    rewrite Wr. split; [split; reflexivity |].
    intros x [<- | []]. apply X. rewrite EV. right; right; reflexivity.
Qed.

Lemma regulate_cycle_within_limits_witness :
  let srv := regulate_enter (server (polled 1)) in
  val (PSVoltage (state srv)) = Fin 1 /\
  voltage_limit (ADRSettings srv) = Fin 2 /\
  dVdT_limit (ADRSettings srv) = Fin (8 # 1000) /\
  0 <= 1 /\ 1 <= 2 /\ 0 <= 8 # 1000 /\
  (datetime (lastState srv) <= datetime (state srv))%Z /\
  proposal srv = Some (Fin (-200000000000 # 1000000000000)) /\
  forall x,
    In x (written srv (regulate_cycle srv)) ->
    (x <=? pymax (voltage_limit (ADRSettings srv))
             (PSVoltage (state srv)
              + (voltage_limit (ADRSettings srv) - PSVoltage (state srv))))%num
    = true.
Proof.
  cbv zeta.
  assert (EV : val (PSVoltage (state (regulate_enter (server (polled 1)))))
               = Fin 1)
    by (vm_compute; reflexivity).
  assert (EL : voltage_limit (ADRSettings (regulate_enter (server (polled 1))))
               = Fin 2)
    by (vm_compute; reflexivity).
  assert (ES : dVdT_limit (ADRSettings (regulate_enter (server (polled 1))))
               = Fin (8 # 1000))
    by (vm_compute; reflexivity).
  assert (V0 : 0 <= 1) by discriminate.
  assert (VL : 1 <= 2) by discriminate.
  assert (L0 : 0 <= 8 # 1000) by discriminate.
  assert (T : (datetime (lastState (regulate_enter (server (polled 1))))
               <= datetime (state (regulate_enter (server (polled 1)))))%Z)
    by (apply Z.leb_le; vm_compute; reflexivity).
  assert (P : proposal (regulate_enter (server (polled 1)))
              = Some (Fin (-200000000000 # 1000000000000)))
    by (vm_compute; reflexivity).
  repeat (split; [assumption |]).
  destruct (regulate_cycle_within_limits
              (regulate_enter (server (polled 1))) 1 2 (8 # 1000)
              (-200000000000 # 1000000000000) EV EL ES V0 VL L0 T P)
    as (dV & dVdT & _ & _ & _ & _ & X).
  exact X.
Defined.

(** C2, as the claim states it, fails: the supply is polled at 2.5 V while
    [voltage_limit] is 2 V.  The voltage clamp asks for a step of -0.5 V,
    the steady-state and slew-rate clamps shrink it to -0.008 V, and the
    loop writes 2.492 V, which exceeds the limit. *)
Lemma hot_supply_written_above_limit :
  let srv := server (polled (5 # 2)) in
  _regulate (Fin (1 # 10)) srv = regulate_cycle (regulate_enter srv) /\
  voltage_limit (ADRSettings srv) = Fin 2 /\
  match written srv (regulate_cycle (regulate_enter srv)) with
  | [v] => (v >? voltage_limit (ADRSettings srv))%num
           && (v ==? Fin (2492 # 1000))%num
  | _ => false
  end = true.
Proof. vm_compute. repeat split. Qed.

(** Each further premise of the amended statement is needed.  With a
    negative [dVdT_limit], or with the poll timestamps out of order, the
    slew-rate clamp turns a step down into a step up, and a supply polled at
    the limit is written above it; with a supply polled below a negative
    [voltage_limit], the closing write of 0 V is above the limit. *)
Lemma limits_need_their_premises :
  (let srv :=
     regulate_enter
       (server (run [LoadDefaults [("dVdT_limit"%string, Fin (- (8 # 1000)))];
                     all_connected;
                     Poll (reading 20 (2 # 10) (- (5 # 100)) 1 2);
                     Poll (reading 21 (2 # 10) (- (5 # 100)) 1 2)]
                  (boot epoch))) in
   existsb (fun v => (v >? voltage_limit (ADRSettings srv))%num)
     (written srv (regulate_cycle srv)) = true) /\
  (let srv :=
     regulate_enter
       (server (run [all_connected;
                     Poll (reading 21 (2 # 10) (- (5 # 100)) 1 2);
                     Poll (reading 20 (2 # 10) (- (5 # 100)) 1 2)]
                  (boot epoch))) in
   existsb (fun v => (v >? voltage_limit (ADRSettings srv))%num)
     (written srv (regulate_cycle srv)) = true) /\
  (let srv :=
     regulate_enter
       (server (run [LoadDefaults [("voltage_limit"%string, Fin (- (1)))];
                     all_connected;
                     Poll (reading 20 (2 # 10) (- (5 # 100)) 1 (- (2)));
                     Poll (reading 21 (2 # 10) (- (5 # 100)) 1 (- (2)))]
                  (boot epoch))) in
   (PSVoltage (state srv) >? voltage_limit (ADRSettings srv))%num = false /\
   existsb (fun v => (v >? voltage_limit (ADRSettings srv))%num)
     (written srv (regulate_cycle srv)) = true).
Proof. vm_compute. repeat split. Qed.

(** ** Completion of a regulation run *)

(** In binary64 the two bounds hold up to rounding only, which is why the
    statement above is about the test and the expressions of the code.
    With the default [dVdT_limit] of 0.008 V/s and two polls 1.953175 s
    apart, the step that the slew-rate clamp leaves is the product
    [dVdT_limit*dT], and that product divided by [dT] is
    0.008000000000000002, above the limit.  With a [voltage_limit] of 1.05 V
    and the supply at about 0.0199 V, the step of the voltage clamp added
    to the polled voltage is 1.0500000000000003 V, above the limit. *)
Lemma clamps_round_above_their_limits :
  (let dVdT_limit := 0x1.0624dd2f1a9fcp-7%float in
   let dT := deltaT64 0 1 953175 in
   match voltage_increase_limit64 dVdT_limit dT 5 with
   | Some dV =>
       (dVdT_limit <? abs (dV / dT))%float
       && (abs dV =? dVdT_limit * dT)%float
   | None => false
   end = true) /\
  (let voltage_limit := 0x1.0cccccccccccdp+0%float in
   let PSVoltage := 0x1.458aaca836760p-6%float in
   let dV := hard_voltage_limit64 voltage_limit PSVoltage 2 in
   (voltage_limit <? PSVoltage + dV)%float
   && (PSVoltage + dV =? PSVoltage + (voltage_limit - PSVoltage))%float
   = true).
Proof. vm_compute. split; reflexivity. Qed.

(** A supply polled below zero.  With the supply at -1 V the clamped step
    is -0.008 V, the completion branch is taken, and the loop writes 0 V
    and then -1 V: two steps of 1 V within one cycle, where [dVdT_limit]
    allows 0.008 V. *)
Lemma negative_supply_jumps_to_zero :
  let srv := server (polled (- (1))) in
  (PSVoltage (state srv) >? voltage_limit (ADRSettings srv))%num = false /\
  match clamped_dV (observed (regulate_enter srv)) with
  | Some dV => (dV ==? Fin (- (8 # 1000)))%num
  | None => false
  end = true /\
  written srv (_regulate (Fin (1 # 10)) srv) = [Fin 0; Fin (- (1))].
Proof. vm_compute. repeat split. Qed.

(** A proposal or a polled voltage that is a NaN goes to the supply as it
    is.  A regulation is running.  If the Ruox monitor stops answering, the
    next cycle cancels the regulation, and writes a NaN; if the power
    supply stops answering, the next cycle writes a NaN and the regulation
    goes on. *)
Lemma lost_reading_writes_NaN :
  let blind :=
    server (run [Regulate (Fin (1 # 10));
                 Poll (ruox_lost 22 (- (5 # 100)) 1 (992 # 1000))]
              (polled 1)) in
  let dark :=
    server (run [Regulate (Fin (1 # 10));
                 Poll (ps_lost 22 (2 # 10) (- (5 # 100)))]
              (polled 1)) in
  written blind (regulate_loop blind) = [NaN] /\
  regulating (state (after (regulate_loop blind))) = false /\
  written dark (regulate_loop dark) = [NaN] /\
  regulating (state (after (regulate_loop dark))) = true.
Proof. vm_compute. repeat split. Qed.

(** A NaN that is not the [numpy.nan] object goes unnoticed: nothing is
    logged or sent, and [regulating] stays as it is. *)
Lemma observed_other_NaN (srv : Server) :
  T_FAA (state srv) = boxed NaN ->
  logMessages (observed srv) = logMessages srv /\
  named_messages (observed srv) = named_messages srv /\
  regulating (state (observed srv)) = regulating (state srv).
Proof.
  intro N. unfold observed. rewrite N. repeat split.
Qed.

(** * Further properties of the server *)

(** ** deltaT *)

(** In the exact arithmetic of the model, [deltaT] undoes the
    normalisation of the [timedelta] into days, seconds and
    microseconds. *)
Lemma deltaT_rational (a b : pydatetime) :
  deltaT (datetime_sub a b) == inject_Z (a - b) * (1 # 1000000).
Proof.
  unfold deltaT, datetime_sub. cbn [days seconds microseconds].
  set (d := (a - b)%Z).
  assert (M : (d mod 1000000 = (d mod 86400000000) mod 1000000)%Z).
  { symmetry. apply Z.mod_mod_divide. exists 86400%Z. reflexivity. }
  pose proof (Z.div_mod d 86400000000 ltac:(lia)) as E1.
  pose proof (Z.div_mod (d mod 86400000000) 1000000 ltac:(lia)) as E2.
  rewrite <- M in E2.
  set (D := (d / 86400000000)%Z) in *.
  set (S := (d mod 86400000000 / 1000000)%Z) in *.
  set (U := (d mod 1000000)%Z) in *.
  assert (E : (d = D * 86400000000 + S * 1000000 + U)%Z) by lia.
  clearbody D S U. rewrite E.
  rewrite !inject_Z_plus, !inject_Z_mult.
  change (inject_Z 86400000000) with (86400000000 # 1).
  change (inject_Z 1000000) with (1000000 # 1).
  field.
Qed.

(** [deltaT] tells the order of two datetimes: it is zero exactly when
    they are equal and positive exactly when the first is the later one.
    So the guard [if dt == 0] of the two loops fires exactly when both
    snapshots carry the same stamp, the guarded cycle length is never
    zero, and it is positive exactly when the stamps are in order. *)
Theorem deltaT_sign (a b : pydatetime) :
  (deltaT (datetime_sub a b) == 0 <-> a = b) /\
  (0 < deltaT (datetime_sub a b) <-> (b < a)%Z) /\
  (forall srv,
     datetime (state srv) = a -> datetime (lastState srv) = b ->
     exists t,
       cycle_dt srv = Fin t /\ ~ t == 0 /\
       (0 < t <-> (b <= a)%Z) /\
       (a = b -> cycle_dt srv = Fin (1 # 10000000000))).
Proof.
  pose proof (deltaT_rational a b) as E. unfold pydatetime in *.
  assert (Z0 : deltaT (datetime_sub a b) == 0 <-> a = b).
  { rewrite E. split; intro H.
    - assert (X : inject_Z (a - b) == inject_Z 0).
      { change (inject_Z 0) with 0.
        clear E. revert H. generalize (inject_Z (a - b)). intros x H.
        lra. }
      apply (proj1 (inject_Z_injective _ _)) in X. lia.
    - subst b. rewrite Z.sub_diag. reflexivity. }
  assert (P : 0 < deltaT (datetime_sub a b) <-> (b < a)%Z).
  { rewrite E. split; intro H.
    - assert (X : inject_Z 0 < inject_Z (a - b)).
      { change (inject_Z 0) with 0.
        clear E. revert H. generalize (inject_Z (a - b)). intros x H.
        lra. }
      rewrite <- Zlt_Qlt in X. lia.
    - assert (X : inject_Z 0 < inject_Z (a - b))
        by (rewrite <- Zlt_Qlt; lia).
      change (inject_Z 0) with 0 in X.
      clear E. revert X. generalize (inject_Z (a - b)). intros x X. lra. }
  split; [exact Z0 |]. split; [exact P |].
  intros srv Ea Eb. unfold cycle_dt. rewrite Ea, Eb. cbn [feq cmp2].
  destruct (Qeq_bool _ 0) eqn:Q.
  - apply Qeq_bool_iff in Q. apply Z0 in Q.
    eexists. split; [reflexivity |]. split; [discriminate |].
    split; [split; [lia | reflexivity] | reflexivity].
  - apply Qeq_bool_false in Q.
    eexists. split; [reflexivity |]. split; [exact Q |].
    split.
    + rewrite P. split; [lia |]. intro H.
      destruct (Z.eq_dec a b) as [X | X]; [| lia].
      exfalso. apply Q, Z0, X.
    + intro H. exfalso. apply Q, Z0, H.
Qed.

Lemma deltaT_sign_witness :
  let srv := server (polled 1) in
  datetime (state srv) = 21000000%Z /\
  datetime (lastState srv) = 20000000%Z /\
  exists t, cycle_dt srv = Fin t /\ ~ t == 0 /\
            (0 < t <-> (20000000 <= 21000000)%Z).
Proof.
  cbv zeta.
  assert (A : datetime (state (server (polled 1))) = 21000000%Z)
    by (vm_compute; reflexivity).
  assert (B : datetime (lastState (server (polled 1))) = 20000000%Z)
    by (vm_compute; reflexivity).
  split; [exact A |]. split; [exact B |].
  destruct (deltaT_sign 21000000%Z 20000000%Z) as (_ & _ & H).
  destruct (H (server (polled 1)) A B) as (t & E & N & P & _).
  exists t. repeat split; try assumption; apply P.
Defined.

(** Evaluated in binary64 [deltaT] is not the exact quotient: for two
    stamps one microsecond apart, the earlier one first, it returns
    -1.0000000000287557e-06, which is not the double -1e-06. *)
Lemma deltaT64_of_minus_one_microsecond :
  (deltaT64 (-1) 86399 999999 =? -0x1.0c6f7a0b80000p-20)%float = true /\
  (deltaT64 (-1) 86399 999999 =? -0x1.0c6f7a0b5ed8dp-20)%float = false /\
  datetime_sub 0%Z 1%Z = mkTimedelta (-1) 86399 999999.
Proof. vm_compute. repeat split. Qed.

(** ** What the loops never do *)

(** A mag-up cycle never dies on an exception (the guard on [dt] keeps the
    division defined, also when both snapshots carry the same stamp), and a
    voltage it writes never exceeds [voltage_limit], whatever the polled
    values and the settings are. *)
Theorem magUp_cycle_safe (srv : Server) :
  (exists srv', magUp_cycle srv = Sleeps srv' \/
                magUp_cycle srv = Returns srv') /\
  (forall v, In v (written srv (magUp_cycle srv)) ->
             (v >? voltage_limit (ADRSettings srv))%num = false).
Proof.
  destruct (cycle_dt_nonzero srv) as (t & Et & Ht).
  unfold magUp_cycle. rewrite Et, (fdiv_Fin _ t Ht).
  assert (N : forall s : Server, written s (Sleeps s) = [])
    by (intro s; apply skipn_all).
  assert (W : forall (s : Server) x, written s (Sleeps (ps_voltage x s)) = [x])
    by (intros s x; apply skipn_length_app).
  destruct (_ <? current_limit _)%num.
  - destruct (_ <? magnet_voltage_limit _)%num.
    + destruct (_ <? dIdt_magup_limit _)%num.
      * destruct (_ <? voltage_limit _)%num eqn:C.
        -- split; [eexists; left; reflexivity |].
           rewrite W. intros v [<- | []].
           destruct (val (PSVoltage (state srv))) as [| p],
             (magup_dV (ADRSettings srv)) as [| d],
             (voltage_limit (ADRSettings srv)) as [| lim];
             try discriminate C.
           num_cbn. bool_to_Q. lra.
        -- split; [eexists; left; reflexivity |].
           rewrite W. intros v [<- | []].
           destruct (voltage_limit (ADRSettings srv)) as [| lim];
             [reflexivity |].
           num_cbn. bool_to_Q. lra.
      * split; [eexists; left; reflexivity |].
        rewrite N. intros v [].
    + split; [eexists; left; reflexivity |].
      rewrite N. intros v [].
  - split; [eexists; right; reflexivity |].
    unfold written.
    cbn [after ps_voltage_writes send_named_message with_state logMessage].
    rewrite skipn_all. intros v [].
Qed.

Lemma propose_dV_defined (cfg : Settings) (st last : State)
    (T_target : num) (t : Q) :
  Qeq_bool t 0 = false ->
  numeric_gains cfg = true ->
  exists p, propose_dV cfg st last T_target (Fin t) = Some p.
Proof.
  intros Ht G.
  destruct (propose_dV_numeric cfg st last T_target t Ht G)
    as (kp & ki & kd & _ & _ & _ & E).
  eexists. exact E.
Qed.

(** A regulation cycle dies on an exception in two cases only: a gain
    that is not a number (the [TypeError] of its product), or a negative
    [dVdT_limit] together with a zero step at the slew-rate clamp (the
    [ZeroDivisionError] of [dV/abs(dV)]).  With numbers for gains and a
    [dVdT_limit] that is not negative it goes to sleep or completes. *)
Theorem regulate_cycle_raises_iff (srv : Server) :
  ((exists srv', regulate_cycle srv = Raises srv') <->
   numeric_gains (ADRSettings srv) = false \/
   (exists q l,
      static_dV (observed srv) = Some (Fin q) /\ q == 0 /\
      dVdT_limit (ADRSettings srv) = Fin l /\ l < 0)) /\
  (numeric_gains (ADRSettings srv) = true ->
   (dVdT_limit (ADRSettings srv) <? Fin 0)%num = false ->
   exists srv', regulate_cycle srv = Sleeps srv' \/
                regulate_cycle srv = Returns srv').
Proof.
  destruct (observed_frame srv) as (_ & OC & _ & _).
  destruct (numeric_gains (ADRSettings srv)) eqn:G.
  2:{ assert (R : regulate_cycle srv = Raises (observed srv)).
      { rewrite regulate_cycle_eq. cbv zeta.
        rewrite clamped_dV_TagList by (rewrite OC; exact G). reflexivity. }
      split; [| discriminate].
      split; [intros _; left; reflexivity |].
      intros _. eexists. exact R. }
  destruct (cycle_dt_nonzero (observed srv)) as (t & Et & Ht).
  assert (GO : numeric_gains (ADRSettings (observed srv)) = true)
    by (rewrite OC; exact G).
  destruct (propose_dV_defined (ADRSettings (observed srv))
              (state (observed srv)) (lastState (observed srv))
              (regulationTemp (state (observed srv))) t Ht GO) as (p & Ep).
  assert (S : static_dV (observed srv)
              = Some (steady_state_limit (ADRSettings (observed srv))
                        (state (observed srv))
                        (hard_voltage_limit (ADRSettings (observed srv))
                           (state (observed srv))
                           (hard_current_limit (ADRSettings (observed srv))
                              (state (observed srv)) p)))).
  { unfold static_dV. rewrite Et, Ep. reflexivity. }
  set (s := steady_state_limit _ _ _) in S.
  assert (C : clamped_dV (observed srv)
              = match voltage_increase_limit (ADRSettings (observed srv))
                        (Fin t) s with
                | None => None
                | Some dV =>
                    current_increase_limit (ADRSettings (observed srv))
                      (Fin t)
                      (PSCurrent (state (observed srv))
                       - PSCurrent (lastState (observed srv)))%num dV
                end).
  { unfold clamped_dV. rewrite Et, Ep. reflexivity. }
  pose proof (voltage_increase_limit_None (ADRSettings (observed srv)) t s Ht)
    as V.
  rewrite OC in V.
  assert (R : (exists srv', regulate_cycle srv = Raises srv') <->
              (exists q l,
                 static_dV (observed srv) = Some (Fin q) /\ q == 0 /\
                 dVdT_limit (ADRSettings srv) = Fin l /\ l < 0)).
  { rewrite regulate_cycle_eq. cbv zeta. rewrite C, S.
    destruct (voltage_increase_limit _ (Fin t) s) as [d |] eqn:E.
    - unfold current_increase_limit. rewrite (fdiv_Fin _ t Ht).
      split.
      + intros (srv' & F). revert F.
        destruct (_ >? _)%num; destruct (_ <=? _)%num; discriminate.
      + intros (q & l & Es & Q0 & El & L). injection Es as Es.
        rewrite OC in E.
        assert (N : voltage_increase_limit (ADRSettings srv) (Fin t) s
                    = None).
        { apply (proj2 V). exists q, l. repeat split; assumption. }
        rewrite N in E. discriminate E.
    - split.
      + intros _. rewrite OC in E.
        destruct (proj1 V E) as (q & l & Es & Q0 & El & L).
        exists q, l. rewrite Es. repeat split; assumption.
      + intros _. eexists. reflexivity. }
  split.
  - split.
    + intro H. right. apply (proj1 R), H.
    + intros [H | H]; [discriminate H | apply (proj2 R), H].
  - intros _ L.
    destruct (regulate_cycle srv) as [s1 | s1 | s1] eqn:Rc.
    + exists s1. left. reflexivity.
    + exists s1. right. reflexivity.
    + exfalso. destruct (proj1 R (ex_intro _ s1 eq_refl))
        as (q & l & _ & _ & El & Ln).
      rewrite El in L. num_cbn. bool_to_Q. lra.
Qed.

Lemma regulate_cycle_raises_iff_witness :
  let calm :=
    regulate_enter
      (server (run [LoadDefaults [("dVdT_limit"%string, Fin (- (8 # 1000)))];
                    all_connected;
                    Poll (reading 20 (1 # 10) (- (5 # 100)) 1 1);
                    Poll (reading 21 (1 # 10) (- (5 # 100)) 1 1)]
                 (boot epoch))) in
  let unset :=
    regulate_enter (server (run [SetPIDKD None] (polled 1))) in
  (exists srv', regulate_cycle calm = Raises srv') /\
  numeric_gains (ADRSettings unset) = false /\
  (exists srv', regulate_cycle unset = Raises srv') /\
  numeric_gains (ADRSettings (regulate_enter (server (polled 1)))) = true /\
  (dVdT_limit (ADRSettings (regulate_enter (server (polled 1)))) <? Fin 0)%num
    = false /\
  exists srv', regulate_cycle (regulate_enter (server (polled 1)))
               = Sleeps srv' \/
               regulate_cycle (regulate_enter (server (polled 1)))
               = Returns srv'.
Proof.
  cbv zeta.
  assert (U : numeric_gains
                (ADRSettings
                   (regulate_enter (server (run [SetPIDKD None] (polled 1)))))
              = false)
    by (vm_compute; reflexivity).
  assert (G : numeric_gains (ADRSettings (regulate_enter (server (polled 1))))
              = true)
    by (vm_compute; reflexivity).
  split; [| split; [exact U | split; [| split; [exact G | split;
    [reflexivity |]]]]].
  - apply (proj2 (proj1 (regulate_cycle_raises_iff _))). right.
    vm_compute. eexists. eexists.
    split; [reflexivity |]. split; [reflexivity |].
    split; reflexivity.
  - apply (proj2 (proj1 (regulate_cycle_raises_iff _))). left. exact U.
  - apply (proj2 (regulate_cycle_raises_iff _)); [exact G | reflexivity].
Defined.

(** ** What the handlers leave alone *)

Lemma magUp_cycle_instruments (srv : Server) :
  instruments (after (magUp_cycle srv)) = instruments srv.
Proof. unfold magUp_cycle. repeat break_match; reflexivity. Qed.

Lemma magUp_loop_instruments (srv : Server) :
  instruments (after (magUp_loop srv)) = instruments srv.
Proof.
  unfold magUp_loop. destruct (maggingUp _); [| reflexivity].
  apply magUp_cycle_instruments.
Qed.

Lemma magUp_instruments (srv : Server) :
  instruments (after (_magUp srv)) = instruments srv.
Proof.
  unfold _magUp. repeat break_match; try reflexivity.
  rewrite magUp_loop_instruments. reflexivity.
Qed.

Lemma regulate_cycle_instruments (srv : Server) :
  instruments (after (regulate_cycle srv)) = instruments srv.
Proof. unfold regulate_cycle. repeat break_match; reflexivity. Qed.

Lemma regulate_loop_instruments (srv : Server) :
  instruments (after (regulate_loop srv)) = instruments srv.
Proof.
  unfold regulate_loop. destruct (regulating _); [| reflexivity].
  apply regulate_cycle_instruments.
Qed.

Lemma regulate_instruments (temp : num) (srv : Server) :
  instruments (after (_regulate temp srv)) = instruments srv.
Proof.
  unfold _regulate. repeat break_match; try reflexivity.
  rewrite regulate_loop_instruments. reflexivity.
Qed.

Lemma step_instruments (e : event) (sys : System) :
  touches_instruments e = false ->
  instruments (server (step e sys)) = instruments (server sys).
Proof.
  intro N. destruct e; try discriminate N; cbn [step on_server server].
  - apply magUp_instruments.
  - apply regulate_instruments.
  - reflexivity.
  - reflexivity.
  - destruct (magUp_loops sys); [reflexivity |].
    apply magUp_loop_instruments.
  - destruct (regulate_loops sys); [reflexivity |].
    apply regulate_loop_instruments.
  - destruct m; reflexivity.
  - reflexivity.
  - reflexivity.
  - reflexivity.
  - unfold instruments. rewrite loadDefaults_state. reflexivity.
Qed.

(** Only a poll cycle and [initializeInstruments] write a sensor slot, a
    stamp, the cycle counter or a connected flag: any sequence of other
    events (requests, cancellations, loop wake-ups, settings) leaves all of
    them as they are, so what a control loop reads is what the last poll
    cycle stored. *)
Theorem run_keeps_instruments (es : list event) (sys : System) :
  forallb (fun e => negb (touches_instruments e)) es = true ->
  instruments (server (run es sys)) = instruments (server sys).
Proof.
  revert sys. induction es as [| e es IH]; intros sys N; [reflexivity |].
  cbn in N. apply andb_true_iff in N. destruct N as (N1 & N2).
  cbn [run]. rewrite (IH _ N2).
  apply step_instruments. apply negb_true_iff, N1.
Qed.

Lemma run_keeps_instruments_witness :
  forallb (fun e => negb (touches_instruments e))
    [Regulate (Fin (1 # 10)); RegulateWakes; CancelRegulation; MagUp] = true /\
  instruments
    (server (run [Regulate (Fin (1 # 10)); RegulateWakes; CancelRegulation;
                  MagUp] (polled 1)))
  = instruments (server (polled 1)).
Proof.
  split; [reflexivity |].
  apply run_keeps_instruments. reflexivity.
Defined.

(** ** initializeInstruments *)

Lemma connect_instrument_keeps {A : Type} (proj : State -> A) (ok : bool)
    (connected : State -> bool) (set_connected : bool -> State -> State)
    (okmsg failmsg : string) (srv : Server) :
  (forall b st, proj (set_connected b st) = proj st) ->
  proj (state (connect_instrument ok connected set_connected okmsg failmsg
                 srv))
  = proj (state srv).
Proof.
  intro F. unfold connect_instrument.
  destruct ok; [destruct (negb (connected (state srv))) |]; cbn; apply F.
Qed.

Lemma connect_instrument_sets (ok : bool) (connected : State -> bool)
    (set_connected : bool -> State -> State) (okmsg failmsg : string)
    (srv : Server) :
  (forall b st, connected (set_connected b st) = b) ->
  connected (state (connect_instrument ok connected set_connected okmsg
                      failmsg srv))
  = ok.
Proof.
  intro F. unfold connect_instrument.
  destruct ok; [destruct (negb (connected (state srv))) |]; cbn; apply F.
Qed.

Lemma connect_instrument_log (ok : bool) (connected : State -> bool)
    (set_connected : bool -> State -> State) (okmsg failmsg : string)
    (srv : Server) :
  exists more,
    logMessages (connect_instrument ok connected set_connected okmsg failmsg
                   srv)
    = logMessages srv ++ more /\
    existsb snd more = negb ok.
Proof.
  unfold connect_instrument.
  destruct ok; [destruct (negb (connected (state srv))) |].
  - eexists. split; reflexivity.
  - exists []. split; [symmetry; apply app_nil_r | reflexivity].
  - eexists. split; reflexivity.
Qed.

Lemma initializeInstruments_measured (ps ruox diode magv : bool)
    (srv : Server) :
  measured (state (initializeInstruments ps ruox diode magv srv))
  = measured (state srv).
Proof.
  unfold initializeInstruments. cbv zeta.
  rewrite !(connect_instrument_keeps measured); reflexivity.
Qed.

(** [initializeInstruments] leaves each connected flag equal to the outcome
    of its connection attempt and touches no sensor slot and no mode; it
    logs an alert exactly when some attempt failed; and run again on a
    server whose four instruments are connected, with all four attempts
    succeeding, it changes nothing at all (no repeated 'connected'
    messages). *)
Theorem initializeInstruments_outcome (ps ruox diode magv : bool)
    (srv : Server) :
  let srv' := initializeInstruments ps ruox diode magv srv in
  connections (state srv') = (ps, diode, ruox, magv) /\
  measured (state srv') = measured (state srv) /\
  modes srv' = modes srv /\
  (exists more,
     logMessages srv' = logMessages srv ++ more /\
     existsb snd more = negb (ps && ruox && diode && magv)) /\
  (connections (state srv) = (true, true, true, true) ->
   initializeInstruments true true true true srv = srv).
Proof.
  cbv zeta. split; [| split; [| split; [| split]]].
  - unfold initializeInstruments, connections. cbv zeta.
    rewrite !(connect_instrument_keeps PSConnected) by reflexivity.
    rewrite (connect_instrument_sets ps PSConnected) by reflexivity.
    rewrite (connect_instrument_sets magv MagnetVMonitorConnected)
      by reflexivity.
    rewrite !(connect_instrument_keeps DiodeTempMonitorConnected)
      by reflexivity.
    rewrite (connect_instrument_sets diode DiodeTempMonitorConnected)
      by reflexivity.
    rewrite !(connect_instrument_keeps RuoxTempMonitorConnected)
      by reflexivity.
    rewrite (connect_instrument_sets ruox RuoxTempMonitorConnected)
      by reflexivity.
    reflexivity.
  - apply initializeInstruments_measured.
  - apply initializeInstruments_modes.
  - unfold initializeInstruments. cbv zeta.
    repeat match goal with
    | |- context [logMessages (connect_instrument ?ok ?c ?s ?m1 ?m2 ?srv0)] =>
        let more := fresh "more" in
        let E := fresh "E" in
        let B := fresh "B" in
        destruct (connect_instrument_log ok c s m1 m2 srv0) as (more & E & B);
        rewrite E; clear E
    end.
    eexists. split; [rewrite <- !app_assoc; reflexivity |].
    rewrite !existsb_app. unfold LogEntry in *.
    rewrite B, B0, B1, B2.
    destruct ps, ruox, diode, magv; reflexivity.
  - intro C. unfold connections in C. injection C as C1 C2 C3 C4.
    destruct srv as [st last cfg lg w nm]. destruct st.
    cbn in C1, C2, C3, C4. subst.
    reflexivity.
Qed.

Lemma initializeInstruments_outcome_witness :
  connections (state (server (polled 1))) = (true, true, true, true) /\
  initializeInstruments true true true true (server (polled 1))
  = server (polled 1).
Proof.
  assert (C : connections (state (server (polled 1)))
              = (true, true, true, true))
    by (vm_compute; reflexivity).
  split; [exact C |].
  destruct (initializeInstruments_outcome true true true true
              (server (polled 1))) as (_ & _ & _ & _ & H).
  exact (H C).
Defined.

(** ** Invariants of the poll loop *)

Lemma updateState_cycle (inp : PollInput) (srv : Server) :
  cycle (state (updateState inp srv)) = (cycle (state srv) + 1)%Z.
Proof.
  rewrite updateState_state. poll_frames inp (state srv). congruence.
Qed.

Lemma step_cycle (e : event) (sys : System) :
  cycle (state (server (step e sys)))
  = (cycle (state (server sys)) + (if is_poll e then 1 else 0))%Z.
Proof.
  destruct (touches_instruments e) eqn:T.
  - destruct e; try discriminate T; cbn [step on_server server is_poll].
    + rewrite Z.add_0_r.
      exact (f_equal (fun m => snd (fst (fst (fst (fst (fst m))))))
               (initializeInstruments_measured _ _ _ _ _)).
    + apply updateState_cycle.
  - replace (is_poll e) with false by (destruct e; try reflexivity;
                                       discriminate T).
    rewrite Z.add_0_r.
    exact (f_equal (fun m => snd (fst (fst (fst (fst (fst (fst m)))))))
             (step_instruments e sys T)).
Qed.

(** The cycle counter counts the poll cycles: after any sequence of events
    it has grown by the number of poll cycles among them, and by nothing
    else; on a server started from scratch it is that number. *)
Theorem cycle_counts_polls (es : list event) (sys : System) :
  cycle (state (server (run es sys)))
  = (cycle (state (server sys))
     + Z.of_nat (List.length (filter is_poll es)))%Z /\
  (forall now,
     cycle (state (server (run es (boot now))))
     = Z.of_nat (List.length (filter is_poll es))).
Proof.
  assert (G : forall es sys,
    cycle (state (server (run es sys)))
    = (cycle (state (server sys))
       + Z.of_nat (List.length (filter is_poll es)))%Z).
  { clear. induction es as [| e es IH]; intro sys.
    - cbn. lia.
    - cbn [run filter]. rewrite IH, step_cycle.
      destruct (is_poll e); cbn [List.length]; lia. }
  split; [apply G |].
  intro now. rewrite G. reflexivity.
Qed.

Lemma read_ruox_gauge (inp : PollInput) (st : State) :
  gauge_ok st -> gauge_ok (read_ruox inp st).
Proof.
  intros (C & G). unfold read_ruox, ruox_failed, eq_bare.
  destruct (ruox_time_constant inp) as [timeConst |];
    [| split; [exact C | reflexivity]].
  destruct (ruox_settled inp st timeConst); [| split; assumption].
  destruct (ruox_temperature inp) as [t |];
    [| split; [exact C | reflexivity]].
  repeat (rewrite C; cbn).
  rewrite andb_false_r.
  destruct (negb (ruox_with_unit inp) && _); cbn; split; trivial.
Qed.

Lemma updateState_gauge (inp : PollInput) (srv : Server) :
  gauge_ok (state srv) -> gauge_ok (state (updateState inp srv)).
Proof.
  intros (C & G). rewrite updateState_state.
  assert (R : gauge_ok (read_ruox inp (read_diodes inp (state srv)))).
  { apply read_ruox_gauge. poll_frames inp (state srv).
    unfold gauge_ok. split; congruence. }
  destruct R as (C' & G').
  poll_frames inp (state srv).
  unfold gauge_ok. split; congruence.
Qed.

Lemma step_gauge (e : event) (sys : System) :
  gauge_ok (state (server sys)) -> gauge_ok (state (server (step e sys))).
Proof.
  intro H.
  destruct (touches_instruments e) eqn:T.
  - destruct e; try discriminate T; cbn [step on_server server].
    + pose proof (initializeInstruments_measured ps ruox diode magv
                    (server sys)) as M.
      unfold measured in M. injection M as.
      destruct H as (C & G). unfold gauge_ok.
      split; congruence.
    + apply updateState_gauge, H.
  - pose proof (step_instruments e sys T) as M.
    unfold instruments, measured in M. injection M as.
    destruct H as (C & G). unfold gauge_ok.
    split; congruence.
Qed.

(** In every state the server can reach, the Ruox channel is FAA and the
    GGG slot holds [numpy.nan]: the GGG temperature is never measured, and
    the third entry of [temperatures] is a NaN for ever. *)
Theorem gauge_invariant (sys : System) :
  reachable sys ->
  gauge_ok (state (server sys)) /\
  temperatures (server sys)
  = [T_60K (state (server sys)); T_3K (state (server sys)); numpy_nan;
     T_FAA (state (server sys))].
Proof.
  intros (now & es & ->).
  assert (G : forall es sys, gauge_ok (state (server sys)) ->
                             gauge_ok (state (server (run es sys)))).
  { clear. induction es as [| e es IH]; intros sys H; [exact H |].
    cbn [run]. apply IH, step_gauge, H. }
  assert (H : gauge_ok (state (server (run es (boot now))))).
  { apply G. split; reflexivity. }
  split; [exact H |].
  unfold temperatures. destruct H as (_ & ->). reflexivity.
Qed.

Lemma gauge_invariant_witness :
  reachable (polled 1) /\
  nth 2 (temperatures (server (polled 1))) (boxed (Fin 0)) = numpy_nan.
Proof.
  assert (R : reachable (polled 1)).
  { exists epoch.
    exists [all_connected;
            Poll (reading 20 (2 # 10) (- (5 # 100)) 1 1);
            Poll (reading 21 (2 # 10) (- (5 # 100)) 1 1)].
    reflexivity. }
  split; [exact R |].
  destruct (gauge_invariant (polled 1) R) as (_ & T).
  rewrite T. reflexivity.
Defined.

(** ** Connected flags and the start guards *)

Lemma updateState_connections (inp : PollInput) (srv : Server) :
  let st := state srv in
  let st' := state (updateState inp srv) in
  PSConnected st' = PSConnected st && ps_answers inp /\
  (DiodeTempMonitorConnected st' = true ->
   DiodeTempMonitorConnected st = true) /\
  (RuoxTempMonitorConnected st' = true ->
   RuoxTempMonitorConnected st = true) /\
  (MagnetVMonitorConnected st' = true -> MagnetVMonitorConnected st = true).
Proof.
  cbv zeta. rewrite updateState_state.
  assert (P : forall st, PSConnected (read_ps inp st)
                         = PSConnected st && ps_answers inp).
  { intro st. unfold read_ps, ps_answers.
    destruct (ps_current inp), (ps_voltage_read inp); cbn;
      rewrite ?andb_true_r, ?andb_false_r; reflexivity. }
  assert (D : forall st, DiodeTempMonitorConnected (read_diodes inp st) = true
                         -> DiodeTempMonitorConnected st = true).
  { intro st. unfold read_diodes.
    destruct (diode_temperatures inp) as [[? ?] |]; cbn;
      [trivial | discriminate]. }
  assert (R : forall st, RuoxTempMonitorConnected (read_ruox inp st) = true
                         -> RuoxTempMonitorConnected st = true).
  { intro st. unfold read_ruox, ruox_failed.
    repeat (break_match; cbn); trivial; discriminate. }
  assert (M : forall st, MagnetVMonitorConnected (read_magnet inp st) = true
                         -> MagnetVMonitorConnected st = true).
  { intro st. unfold read_magnet.
    destruct (magnet_voltage inp); cbn; [trivial | discriminate]. }
  rewrite P.
  pose proof (D (state srv)) as D'.
  pose proof (R (read_diodes inp (state srv))) as R'.
  pose proof (M (set_cycle
                   (cycle (set_datetime (stamp inp)
                             (read_ruox inp (read_diodes inp (state srv))))
                    + 1)%Z
                   (set_datetime (stamp inp)
                      (read_ruox inp (read_diodes inp (state srv)))))) as M'.
  clear P D R M.
  poll_frames inp (state srv).
  repeat split.
  - f_equal. congruence.
  - intro X. apply D'. congruence.
  - intro X. assert (Y : RuoxTempMonitorConnected s1 = true)
      by (apply R'; congruence). congruence.
  - intro X. assert (Y : MagnetVMonitorConnected s3 = true)
      by (apply M'; congruence).
    cbn in Y. congruence.
Qed.

Lemma polls_modes (inps : list PollInput) (srv : Server) :
  modes (polls inps srv) = modes srv.
Proof.
  revert srv. induction inps as [| inp rest IH]; intro srv; [reflexivity |].
  cbn [polls]. rewrite IH. apply updateState_modes.
Qed.

Lemma polls_connections (inps : list PollInput) (srv : Server) :
  (PSConnected (state (polls inps srv)) = true ->
   PSConnected (state srv) = true) /\
  (DiodeTempMonitorConnected (state (polls inps srv)) = true ->
   DiodeTempMonitorConnected (state srv) = true) /\
  (RuoxTempMonitorConnected (state (polls inps srv)) = true ->
   RuoxTempMonitorConnected (state srv) = true) /\
  (MagnetVMonitorConnected (state (polls inps srv)) = true ->
   MagnetVMonitorConnected (state srv) = true).
Proof.
  revert srv. induction inps as [| inp rest IH]; intro srv;
    [repeat split; trivial |].
  cbn [polls].
  destruct (IH (updateState inp srv)) as (A & B & C & D).
  destruct (updateState_connections inp srv) as (A' & B' & C' & D').
  repeat split; intro X.
  - apply A in X. rewrite A' in X. apply andb_true_iff in X. apply X.
  - apply B', B, X.
  - apply C', C, X.
  - apply D', D, X.
Qed.

(** The poll loop never sets a connected flag: a flag that is set after
    any number of poll cycles was set before them.  So once a power supply
    read has raised, [PSConnected] stays false however many reads succeed
    afterwards, and until [initializeInstruments] runs again an idle server
    answers both a mag-up and a regulation request with the 'not
    connected' alert and nothing else. *)
Theorem polls_never_reconnect (inps : list PollInput) (srv : Server) :
  ((PSConnected (state (polls inps srv)) = true ->
    PSConnected (state srv) = true) /\
   (DiodeTempMonitorConnected (state (polls inps srv)) = true ->
    DiodeTempMonitorConnected (state srv) = true) /\
   (RuoxTempMonitorConnected (state (polls inps srv)) = true ->
    RuoxTempMonitorConnected (state srv) = true) /\
   (MagnetVMonitorConnected (state (polls inps srv)) = true ->
    MagnetVMonitorConnected (state srv) = true)) /\
  (forall inp,
     ps_answers inp = false ->
     maggingUp (state srv) = false -> regulating (state srv) = false ->
     let srv' := polls inps (updateState inp srv) in
     PSConnected (state srv') = false /\
     (exists m, _magUp srv' = Returns (logMessage m true srv')) /\
     (forall temp,
        exists m, _regulate temp srv' = Returns (logMessage m true srv'))).
Proof.
  split; [apply polls_connections |].
  intros inp F M R srv'.
  assert (P : PSConnected (state srv') = false).
  { destruct (PSConnected (state srv')) eqn:E; [| reflexivity].
    apply (proj1 (polls_connections inps (updateState inp srv))) in E.
    rewrite (proj1 (updateState_connections inp srv)), F, andb_false_r in E.
    discriminate E. }
  assert (Md : modes srv' = modes srv).
  { unfold srv'. rewrite polls_modes. apply updateState_modes. }
  unfold modes in Md. injection Md as M' R' _.
  rewrite M in M'. rewrite R in R'.
  split; [exact P | split].
  - unfold _magUp. rewrite M', R', P. cbn. eexists. reflexivity.
  - intro temp. unfold _regulate. rewrite M', R', P. cbn.
    eexists. reflexivity.
Qed.

Lemma polls_never_reconnect_witness :
  let srv' :=
    polls [reading 23 (2 # 10) (- (5 # 100)) 1 1;
           reading 24 (2 # 10) (- (5 # 100)) 1 1]
      (updateState (ps_lost 22 (2 # 10) (- (5 # 100))) (server (polled 1))) in
  ps_answers (ps_lost 22 (2 # 10) (- (5 # 100))) = false /\
  PSConnected (state srv') = false /\
  exists m, _magUp srv' = Returns (logMessage m true srv').
Proof.
  cbv zeta. split; [reflexivity |].
  destruct (polls_never_reconnect
              [reading 23 (2 # 10) (- (5 # 100)) 1 1;
               reading 24 (2 # 10) (- (5 # 100)) 1 1]
              (server (polled 1))) as (_ & H).
  assert (M : maggingUp (state (server (polled 1))) = false)
    by (vm_compute; reflexivity).
  assert (R : regulating (state (server (polled 1))) = false)
    by (vm_compute; reflexivity).
  destruct (H (ps_lost 22 (2 # 10) (- (5 # 100))) eq_refl M R)
    as (P & U & _).
  split; [exact P | exact U].
Defined.

(** ** The regulation target *)

Lemma regulate_cycle_target (srv : Server) :
  regulationTemp (state (after (regulate_cycle srv)))
  = regulationTemp (state srv).
Proof. unfold regulate_cycle. repeat break_match; reflexivity. Qed.

(** A regulation request stores its temperature argument only when a
    regulation is already running (a retarget).  A request that finds the
    server not regulating never looks at its argument: two requests with
    different temperatures have the same outcome, and the run regulates to
    the target already stored (0.1 K on a fresh server). *)
Theorem regulate_target (temp : num) (srv : Server) :
  regulationTemp (state (after (_regulate temp srv)))
  = (if negb (maggingUp (state srv)) && regulating (state srv)
     then temp else regulationTemp (state srv)) /\
  (regulating (state srv) = false ->
   forall temp', _regulate temp srv = _regulate temp' srv).
Proof.
  split.
  - unfold _regulate.
    destruct (maggingUp (state srv)); [reflexivity |].
    destruct (regulating (state srv)) eqn:R.
    + destruct (is_nan temp); reflexivity.
    + destruct (_ || _); [reflexivity |].
      unfold regulate_loop.
      change (regulating (state (regulate_enter srv))) with true.
      cbv iota. rewrite regulate_cycle_target. reflexivity.
  - intros R temp'. unfold _regulate. rewrite R. reflexivity.
Qed.

Lemma regulate_target_witness :
  regulating (state (server (polled 1))) = false /\
  _regulate (Fin (1 # 10)) (server (polled 1))
  = _regulate (Fin 3) (server (polled 1)).
Proof.
  assert (R : regulating (state (server (polled 1))) = false)
    by (vm_compute; reflexivity).
  split; [exact R |].
  exact (proj2 (regulate_target (Fin (1 # 10)) (server (polled 1))) R (Fin 3)).
Defined.

(** ** The log only grows *)

Lemma extends_refl {A : Type} (l : list A) : extends l l.
Proof. exists []. symmetry. apply app_nil_r. Qed.

Lemma extends_trans {A : Type} (l1 l2 l3 : list A) :
  extends l1 l2 -> extends l2 l3 -> extends l1 l3.
Proof.
  intros (m1 & ->) (m2 & ->). exists (m1 ++ m2). symmetry. apply app_assoc.
Qed.

Lemma extends_one {A : Type} (l : list A) (x : A) : extends l (l ++ [x]).
Proof. exists [x]. reflexivity. Qed.

Ltac log_grows :=
  repeat first
    [ apply extends_refl
    | apply extends_one
    | eapply extends_trans; [| apply extends_one ] ].

Lemma logMessage_extends (m : message) (alert : bool) (srv : Server) :
  extends (logMessages srv) (logMessages (logMessage m alert srv)).
Proof. apply extends_one. Qed.

Lemma magUp_cycle_log (srv : Server) :
  extends (logMessages srv) (logMessages (after (magUp_cycle srv))).
Proof. unfold magUp_cycle. repeat break_match; cbn; log_grows. Qed.

Lemma magUp_log (srv : Server) :
  extends (logMessages srv) (logMessages (after (_magUp srv))).
Proof.
  unfold _magUp, magUp_loop. repeat break_match; cbn; try solve [log_grows].
  eapply extends_trans; [| apply magUp_cycle_log]. cbn. log_grows.
Qed.

Lemma regulate_cycle_log (srv : Server) :
  extends (logMessages srv) (logMessages (after (regulate_cycle srv))).
Proof. unfold regulate_cycle. repeat break_match; cbn; log_grows. Qed.

Lemma regulate_log (temp : num) (srv : Server) :
  extends (logMessages srv) (logMessages (after (_regulate temp srv))).
Proof.
  unfold _regulate, regulate_loop.
  repeat break_match; cbn; try solve [log_grows].
  eapply extends_trans; [| apply regulate_cycle_log]. cbn. log_grows.
Qed.

Lemma connect_instrument_extends (ok : bool) (connected : State -> bool)
    (set_connected : bool -> State -> State) (okmsg failmsg : string)
    (srv : Server) :
  extends (logMessages srv)
    (logMessages (connect_instrument ok connected set_connected okmsg failmsg
                    srv)).
Proof.
  destruct (connect_instrument_log ok connected set_connected okmsg failmsg
              srv) as (more & E & _).
  exists more. exact E.
Qed.

Lemma loadDefaults_log (settingsList : list (string * num)) (srv : Server) :
  logMessages (loadDefaults settingsList srv) = logMessages srv.
Proof.
  revert srv.
  induction settingsList as [| [setting v] rest IH]; intro srv;
    [reflexivity |].
  cbn [loadDefaults]. rewrite IH. reflexivity.
Qed.

Lemma step_log (e : event) (sys : System) :
  extends (logMessages (server sys)) (logMessages (server (step e sys))).
Proof.
  destruct e; cbn [step on_server server].
  - unfold initializeInstruments. cbv zeta.
    repeat (eapply extends_trans; [| apply connect_instrument_extends]).
    apply extends_refl.
  - apply extends_refl.
  - apply magUp_log.
  - apply regulate_log.
  - cbn. log_grows.
  - cbn. log_grows.
  - destruct (magUp_loops sys); [apply extends_refl |].
    cbn [server]. unfold magUp_loop.
    destruct (maggingUp _); [apply magUp_cycle_log | apply extends_refl].
  - destruct (regulate_loops sys); [apply extends_refl |].
    cbn [server]. unfold regulate_loop.
    destruct (regulating _); [apply regulate_cycle_log | apply extends_refl].
  - destruct m; cbn; log_grows.
  - cbn. log_grows.
  - cbn. log_grows.
  - cbn. log_grows.
  - rewrite loadDefaults_log. apply extends_refl.
Qed.

(** The log is append-only: whatever happens, the log afterwards is the log
    before with entries added at its end.  An entry, once logged, keeps its
    position, its text and its alert flag, and [getLog 0] never gets
    shorter. *)
Theorem log_append_only (es : list event) (sys : System) :
  extends (logMessages (server sys)) (logMessages (server (run es sys))) /\
  (forall i entry,
     nth_error (logMessages (server sys)) i = Some entry ->
     exists log,
       getLog (server (run es sys)) (Some (Fin 0)) = Some log /\
       nth_error log i = Some entry) /\
  (exists log log',
     getLog (server sys) (Some (Fin 0)) = Some log /\
     getLog (server (run es sys)) (Some (Fin 0)) = Some log' /\
     (List.length log <= List.length log')%nat).
Proof.
  assert (G : extends (logMessages (server sys))
                (logMessages (server (run es sys)))).
  { revert sys. induction es as [| e es IH]; intro sys;
      [apply extends_refl |].
    cbn [run]. eapply extends_trans; [apply step_log | apply IH]. }
  assert (Z0 : forall srv, getLog srv (Some (Fin 0)) = Some (logMessages srv)).
  { intro srv. rewrite getLog_float. reflexivity. }
  split; [exact G |].
  rewrite !Z0. destruct G as (more & E). split.
  - intros i entry H. eexists. split; [reflexivity |].
    rewrite E, nth_error_app1; [exact H |].
    apply nth_error_Some. congruence.
  - eexists. eexists. split; [reflexivity |]. split; [reflexivity |].
    rewrite E, length_app. lia.
Qed.

Lemma log_append_only_witness :
  nth_error (logMessages (server (polled 1))) 0
  = Some (Text "Power Supply Connected and initialized.", false) /\
  exists log,
    getLog (server (run [Regulate (Fin (1 # 10)); CancelRegulation]
                      (polled 1))) (Some (Fin 0)) = Some log /\
    nth_error log 0
    = Some (Text "Power Supply Connected and initialized.", false).
Proof.
  assert (H : nth_error (logMessages (server (polled 1))) 0
              = Some (Text "Power Supply Connected and initialized.", false))
    by (vm_compute; reflexivity).
  split; [exact H |].
  exact (proj1 (proj2 (log_append_only
                         [Regulate (Fin (1 # 10)); CancelRegulation]
                         (polled 1))) 0%nat _ H).
Defined.

(** ** A NaN in the accumulator *)

Lemma fle_NaN_l (x : num) : (NaN <=? x)%num = false.
Proof. reflexivity. Qed.

Lemma is_nan_fadd_l (x y : num) : is_nan x = true -> is_nan (x + y)%num = true.
Proof. destruct x; [reflexivity | discriminate]. Qed.

Lemma step_accumulator (e : event) (sys : System) :
  PID_cumulativeError (state (server (step e sys)))
  = PID_cumulativeError (state (server sys)) \/
  exists x,
    PID_cumulativeError (state (server (step e sys)))
    = (PID_cumulativeError (state (server sys)) + x)%num.
Proof.
  destruct e; cbn [step on_server server].
  - left. exact (f_equal snd (initializeInstruments_modes _ _ _ _ _)).
  - left. exact (f_equal snd (updateState_modes _ _)).
  - left. apply magUp_accumulator.
  - unfold _regulate.
    destruct (maggingUp _); [left; reflexivity |].
    destruct (regulating (state (server sys))).
    + destruct (is_nan temp); left; reflexivity.
    + destruct (_ || _); [left; reflexivity |].
      right. eexists. unfold regulate_loop.
      change (regulating (state (regulate_enter (server sys)))) with true.
      cbv iota. rewrite regulate_cycle_accumulates. reflexivity.
  - left. reflexivity.
  - left. reflexivity.
  - destruct (magUp_loops sys); [left; reflexivity |].
    cbn [server]. left. unfold magUp_loop.
    destruct (maggingUp _); [apply magUp_cycle_accumulator | reflexivity].
  - destruct (regulate_loops sys); [left; reflexivity |].
    cbn [server]. unfold regulate_loop.
    destruct (regulating _); [| left; reflexivity].
    right. eexists. apply regulate_cycle_accumulates.
  - left. destruct m; reflexivity.
  - left. reflexivity.
  - left. reflexivity.
  - left. reflexivity.
  - left. rewrite loadDefaults_state. reflexivity.
Qed.

Lemma propose_dV_poisoned (cfg : Settings) (st last : State)
    (T_target : num) (t : Q) :
  Qeq_bool t 0 = false ->
  numeric_gains cfg = true ->
  is_nan (PID_cumulativeError st) = true ->
  propose_dV cfg st last T_target (Fin t) = Some NaN.
Proof.
  intros Ht G N.
  destruct (propose_dV_numeric cfg st last T_target t Ht G)
    as (kp & ki & kd & _ & _ & _ & E).
  rewrite E. destruct (PID_cumulativeError st); [| discriminate N].
  rewrite fmul_NaN_r, fadd_NaN_r. reflexivity.
Qed.

Lemma clamped_dV_poisoned (srv : Server) :
  numeric_gains (ADRSettings srv) = true ->
  is_nan (PID_cumulativeError (state srv)) = true ->
  clamped_dV srv = Some NaN \/ clamped_dV srv = Some (Fin 0).
Proof.
  intros G N. unfold clamped_dV.
  destruct (cycle_dt_nonzero srv) as (t & Et & Ht).
  rewrite Et, (propose_dV_poisoned _ _ _ _ t Ht G N).
  apply limit_dV_NaN, Ht.
Qed.

(** A NaN in the accumulator is there to stay.  One regulation cycle that
    reads a NaN on the FAA stage (of either kind) leaves a NaN in
    [PID_cumulativeError]; no event ever takes it out again; and from then
    on every regulation cycle, in this run or a later one and whatever
    number [PID_KI] is, proposes a NaN: with numbers for gains it does not
    raise, and what it writes to the supply is a NaN, or the polled voltage
    itself, or 0 V followed by the polled voltage. *)
Theorem nan_poisons_accumulator (sys : System) :
  (val (T_FAA (state (server sys))) = NaN ->
   is_nan (PID_cumulativeError
             (state (after (regulate_cycle (server sys))))) = true) /\
  (is_nan (PID_cumulativeError (state (server sys))) = true ->
   (forall es,
      is_nan (PID_cumulativeError (state (server (run es sys)))) = true) /\
   (numeric_gains (ADRSettings (server sys)) = true ->
    (exists srv', regulate_cycle (server sys) = Sleeps srv' \/
                  regulate_cycle (server sys) = Returns srv') /\
    (written (server sys) (regulate_cycle (server sys)) = [NaN] \/
     written (server sys) (regulate_cycle (server sys))
     = [(PSVoltage (state (server sys)) + Fin 0)%num] \/
     written (server sys) (regulate_cycle (server sys))
     = [Fin 0; (PSVoltage (state (server sys)) + Fin 0)%num])) /\
   (forall v,
      In v (written (server sys) (regulate_cycle (server sys))) ->
      is_nan v = true \/
      v = (PSVoltage (state (server sys)) + Fin 0)%num \/
      v = Fin 0)).
Proof.
  split.
  - intro N. rewrite regulate_cycle_accumulates, N, fsub_NaN_r, fadd_NaN_r.
    reflexivity.
  - intro N.
    destruct (observed_frame (server sys)) as (_ & OC & _ & OW).
    assert (NO : is_nan (PID_cumulativeError (state (observed (server sys))))
                 = true).
    { rewrite observed_accumulates. apply is_nan_fadd_l, N. }
    assert (W : numeric_gains (ADRSettings (server sys)) = true ->
      written (server sys) (regulate_cycle (server sys)) = [NaN] \/
      written (server sys) (regulate_cycle (server sys))
      = [(PSVoltage (state (server sys)) + Fin 0)%num] \/
      written (server sys) (regulate_cycle (server sys))
      = [Fin 0; (PSVoltage (state (server sys)) + Fin 0)%num]).
    { intro G. rewrite <- OC in G.
      destruct (clamped_dV_poisoned _ G NO) as [E | E].
      - left.
        destruct (regulate_cycle_completion (server sys) NaN E) as (A & B).
        rewrite fadd_NaN_r in A, B.
        rewrite (B (fle_NaN_l _)). unfold written.
        cbn [after ps_voltage ps_voltage_writes].
        rewrite OW. apply skipn_length_app.
      - right.
        destruct (regulate_cycle_completion (server sys) (Fin 0) E)
          as (A & B).
        destruct (_ <=? _)%num.
        + right. exact (proj2 (A eq_refl)).
        + left. rewrite (B eq_refl). unfold written.
          cbn [after ps_voltage ps_voltage_writes].
          rewrite OW. apply skipn_length_app. }
    split; [| split].
    + intro es. clear NO OC OW W. revert sys N.
      induction es as [| e es IH]; intros sys N; [exact N |].
      cbn [run]. apply IH.
      destruct (step_accumulator e sys) as [E | (x & E)]; rewrite E;
        [exact N | apply is_nan_fadd_l, N].
    + intro G. split; [| exact (W G)].
      rewrite <- OC in G.
      rewrite regulate_cycle_eq. cbv zeta.
      destruct (clamped_dV_poisoned _ G NO) as [E | E]; rewrite E;
        destruct (_ <=? _)%num; eexists; (left; reflexivity)
                                         || (right; reflexivity).
    + destruct (numeric_gains (ADRSettings (server sys))) eqn:G.
      * destruct (W eq_refl) as [E | [E | E]]; rewrite E.
        -- intros v [<- | []]. left. reflexivity.
        -- intros v [<- | []]. right; left. reflexivity.
        -- intros v [<- | [<- | []]]; [right; right | right; left];
             reflexivity.
      * rewrite <- OC in G.
        rewrite regulate_cycle_eq. cbv zeta.
        rewrite (clamped_dV_TagList _ G). unfold written. cbn [after].
        rewrite OW, skipn_all. intros v [].
Qed.

Lemma nan_poisons_accumulator_witness :
  let lost :=
    run [Regulate (Fin (1 # 10));
         Poll (ruox_lost 22 (- (5 # 100)) 1 (992 # 1000))]
      (polled 1) in
  val (T_FAA (state (server lost))) = NaN /\
  is_nan (PID_cumulativeError
            (state (after (regulate_cycle (server lost))))) = true /\
  is_nan (PID_cumulativeError (state (server (step RegulateWakes lost))))
  = true /\
  is_nan (PID_cumulativeError
            (state (server
                      (run [all_connected;
                            Poll (reading 23 (2 # 10) (- (5 # 100)) 1 1);
                            Regulate (Fin (1 # 10))]
                         (step RegulateWakes lost))))) = true.
Proof.
  cbv zeta.
  assert (N : val (T_FAA (state (server
                (run [Regulate (Fin (1 # 10));
                      Poll (ruox_lost 22 (- (5 # 100)) 1 (992 # 1000))]
                   (polled 1))))) = NaN)
    by (vm_compute; reflexivity).
  assert (P : is_nan (PID_cumulativeError (state (server
                (step RegulateWakes
                   (run [Regulate (Fin (1 # 10));
                         Poll (ruox_lost 22 (- (5 # 100)) 1 (992 # 1000))]
                      (polled 1)))))) = true)
    by (vm_compute; reflexivity).
  split; [exact N |]. split; [| split; [exact P |]].
  - exact (proj1 (nan_poisons_accumulator _) N).
  - exact (proj1 (proj2 (nan_poisons_accumulator _) P) _).
Defined.

(** ** Named messages and the controller window *)

Lemma reports_refl (srv : Server) : reports srv srv.
Proof. exists []. split; [symmetry; apply app_nil_r | reflexivity]. Qed.

Lemma reports_trans (a b c : Server) :
  reports a b -> reports b c -> reports a c.
Proof.
  intros (m1 & E1 & F1) (m2 & E2 & F2). exists (m1 ++ m2). split.
  - rewrite E2, E1. symmetry. apply app_assoc.
  - rewrite fold_left_app, F1. exact F2.
Qed.

(** A change that sends nothing and keeps the flags. *)
Lemma reports_quiet (a b : Server) :
  named_messages b = named_messages a -> flags b = flags a -> reports a b.
Proof.
  intros E F. exists []. split; [rewrite E; symmetry; apply app_nil_r |].
  symmetry. exact F.
Qed.

(** A change that sends one message, which tells the new flags. *)
Lemma reports_one (a b : Server) (msg : string * string) :
  named_messages b = named_messages a ++ [msg] ->
  report (flags a) msg = flags b ->
  reports a b.
Proof. intros E F. exists [msg]. split; assumption. Qed.

Lemma magUp_cycle_reports (srv : Server) :
  reports srv (after (magUp_cycle srv)).
Proof.
  unfold magUp_cycle.
  repeat break_match;
    first [ apply reports_quiet; reflexivity
          | eapply reports_one; reflexivity ].
Qed.

Lemma magUp_loop_reports (srv : Server) :
  reports srv (after (magUp_loop srv)).
Proof.
  unfold magUp_loop. destruct (maggingUp _);
    [apply magUp_cycle_reports | apply reports_refl].
Qed.

Lemma magUp_reports (srv : Server) : reports srv (after (_magUp srv)).
Proof.
  unfold _magUp.
  repeat break_match; try (apply reports_quiet; reflexivity).
  eapply reports_trans; [| apply magUp_loop_reports].
  eapply reports_one; reflexivity.
Qed.

Lemma observed_reports (srv : Server) : reports srv (observed srv).
Proof.
  unfold observed. destruct (is_numpy_nan _);
    [eapply reports_one | apply reports_quiet]; reflexivity.
Qed.

Lemma regulate_cycle_reports (srv : Server) :
  reports srv (after (regulate_cycle srv)).
Proof.
  rewrite regulate_cycle_eq. cbv zeta.
  eapply reports_trans; [apply observed_reports |].
  destruct (clamped_dV _); [| apply reports_refl].
  destruct (_ <=? _)%num;
    [eapply reports_one | apply reports_quiet]; reflexivity.
Qed.

Lemma regulate_loop_reports (srv : Server) :
  reports srv (after (regulate_loop srv)).
Proof.
  unfold regulate_loop. destruct (regulating _);
    [apply regulate_cycle_reports | apply reports_refl].
Qed.

Lemma regulate_reports (temp : num) (srv : Server) :
  reports srv (after (_regulate temp srv)).
Proof.
  unfold _regulate. destruct (maggingUp _) eqn:M;
    [apply reports_quiet; reflexivity |].
  destruct (regulating (state srv)) eqn:R.
  - destruct (is_nan temp); apply reports_quiet; try reflexivity;
      unfold flags; cbn; rewrite M, R; reflexivity.
  - destruct (_ || _); [apply reports_quiet; reflexivity |].
    eapply reports_trans; [| apply regulate_loop_reports].
    eapply reports_one; reflexivity.
Qed.

Lemma loadDefaults_sent (settingsList : list (string * num)) (srv : Server) :
  named_messages (loadDefaults settingsList srv) = named_messages srv.
Proof.
  revert srv.
  induction settingsList as [| [setting v] rest IH]; intro srv;
    [reflexivity |].
  cbn [loadDefaults]. rewrite IH. reflexivity.
Qed.

Lemma connect_instrument_sent (ok : bool) (connected : State -> bool)
    (set_connected : bool -> State -> State) (okmsg failmsg : string)
    (srv : Server) :
  named_messages (connect_instrument ok connected set_connected okmsg failmsg
                    srv)
  = named_messages srv.
Proof.
  unfold connect_instrument.
  destruct ok; [destruct (negb (connected (state srv))) |]; reflexivity.
Qed.

Lemma modes_flags (a b : Server) : modes a = modes b -> flags a = flags b.
Proof.
  unfold modes, flags. intro E. injection E as E1 E2 _. congruence.
Qed.

Lemma step_reports (e : event) (sys : System) :
  reports (server sys) (server (step e sys)).
Proof.
  destruct e; cbn [step on_server server].
  - apply reports_quiet.
    + unfold initializeInstruments. cbv zeta.
      rewrite !connect_instrument_sent. reflexivity.
    + apply modes_flags, initializeInstruments_modes.
  - eapply reports_one; [reflexivity |].
    rewrite <- (modes_flags _ _ (updateState_modes inp (server sys))).
    reflexivity.
  - apply magUp_reports.
  - apply regulate_reports.
  - eapply reports_one; reflexivity.
  - eapply reports_one; reflexivity.
  - destruct (magUp_loops sys); [apply reports_refl |].
    apply magUp_loop_reports.
  - destruct (regulate_loops sys); [apply reports_refl |].
    apply regulate_loop_reports.
  - destruct m; apply reports_quiet; reflexivity.
  - apply reports_quiet; reflexivity.
  - apply reports_quiet; reflexivity.
  - apply reports_quiet; reflexivity.
  - apply reports_quiet; [apply loadDefaults_sent |].
    unfold flags. rewrite loadDefaults_state. reflexivity.
Qed.

Lemma run_reports (es : list event) (sys : System) :
  reports (server sys) (server (run es sys)).
Proof.
  revert sys. induction es as [| e es IH]; intro sys;
    [apply reports_refl |].
  cbn [run]. eapply reports_trans; [apply step_reports | apply IH].
Qed.

Lemma messages_tell_modes_aux (es : list event) (sys : System) :
  extends (named_messages (server sys))
    (named_messages (server (run es sys))) /\
  fold_left report (sent_since (server sys) (server (run es sys)))
    (flags (server sys))
  = flags (server (run es sys)).
Proof.
  destruct (run_reports es sys) as (more & E & F).
  split; [exists more; exact E |].
  unfold sent_since. rewrite E, skipn_length_app. exact F.
Qed.

(** The named messages tell the mode flags: replaying, from the flags of
    any state, the 'Started' and 'Stopped' messages sent since then gives
    the flags of the present state.  No mode change goes unannounced and no
    announcement is wrong about the flag it concerns. *)
Theorem messages_tell_modes (es : list event) (sys : System) :
  extends (named_messages (server sys))
    (named_messages (server (run es sys))) /\
  fold_left report (sent_since (server sys) (server (run es sys)))
    (flags (server sys))
  = flags (server (run es sys)).
Proof. exact (messages_tell_modes_aux es sys). Qed.

Lemma on_named_message_mirrors (gui : ADRController) (f : bool * bool)
    (msg : string * string) :
  mirrors gui f -> mirrors (on_named_message gui msg) (report f msg).
Proof.
  unfold mirrors, on_named_message, report.
  destruct f as [m r]. cbn [fst snd]. intros (A & B).
  destruct (fst msg =? "MagUp Started")%string;
    [| destruct (fst msg =? "MagUp Stopped")%string;
       [| destruct (fst msg =? "Regulation Started")%string;
          [| destruct (fst msg =? "Regulation Stopped")%string]]];
    cbn [fst snd magUpStarted magUpStopped regulationStarted
         regulationStopped magUpButton regulateButton];
    rewrite ?A, ?B; destruct m, r; split; reflexivity.
Qed.

Lemma initializeWindow_mirrors (srv srv' : Server) :
  flags srv' = flags srv ->
  exists gui, initializeWindow srv srv' = Some gui /\ mirrors gui (flags srv).
Proof.
  unfold initializeWindow, flags, mirrors. intro F. injection F as _ R.
  change (getStateVar "maggingUp" srv)
    with (Some (VBool (maggingUp (state srv)))).
  change (getStateVar "regulating" srv')
    with (Some (VBool (regulating (state srv')))).
  cbn [truthy]. rewrite R.
  eexists. split; [reflexivity |].
  destruct (maggingUp (state srv)), (regulating (state srv));
    split; reflexivity.
Qed.

Lemma run_app (es es' : list event) (sys : System) :
  run (es ++ es') sys = run es' (run es sys).
Proof.
  revert sys. induction es as [| e es IH]; intro sys; [reflexivity |].
  cbn [app run]. apply IH.
Qed.

(** The messages sent over two stretches of events are those of the first
    followed by those of the second. *)
Lemma sent_since_app (es es' : list event) (sys : System) :
  sent_since (server sys) (server (run (es ++ es') sys))
  = sent_since (server sys) (server (run es sys))
    ++ sent_since (server (run es sys)) (server (run es' (run es sys))).
Proof.
  rewrite run_app.
  destruct (messages_tell_modes_aux es sys) as ((m1 & E1) & _).
  destruct (messages_tell_modes_aux es' (run es sys)) as ((m2 & E2) & _).
  unfold sent_since. rewrite E2, E1.
  rewrite (skipn_length_app (named_messages (server sys) ++ m1) m2).
  rewrite <- app_assoc, !skipn_length_app. reflexivity.
Qed.

Lemma quiet_app (es es' : list event) (sys : System) :
  quiet sys (es ++ es') -> quiet sys es /\ quiet (run es sys) es'.
Proof.
  unfold quiet. rewrite sent_since_app, filter_app. intro H.
  apply app_eq_nil in H. exact H.
Qed.

(** A message that is not a mode message changes neither the flags a
    listener keeps nor the window. *)
Lemma report_other (f : bool * bool) (msg : string * string) :
  mode_message msg = false -> report f msg = f.
Proof.
  unfold mode_message, listeners, report. cbn [existsb].
  intro H. repeat (apply orb_false_iff in H; destruct H as (? & H)).
  repeat match goal with
         | E : (_ =? _)%string = false |- _ => rewrite E; clear E
         end.
  reflexivity.
Qed.

Lemma on_named_message_other (gui : ADRController) (msg : string * string) :
  mode_message msg = false -> on_named_message gui msg = gui.
Proof.
  unfold mode_message, listeners, on_named_message. cbn [existsb].
  intro H. repeat (apply orb_false_iff in H; destruct H as (? & H)).
  repeat match goal with
         | E : (_ =? _)%string = false |- _ => rewrite E; clear E
         end.
  reflexivity.
Qed.

Lemma quiet_flags (es : list event) (sys : System) :
  quiet sys es -> flags (server (run es sys)) = flags (server sys).
Proof.
  unfold quiet. intro Q.
  rewrite <- (proj2 (messages_tell_modes_aux es sys)).
  revert Q. generalize (sent_since (server sys) (server (run es sys))).
  generalize (flags (server sys)).
  intros f msgs. revert f.
  induction msgs as [| msg msgs IH]; intros f Q; [reflexivity |].
  cbn [filter] in Q. destruct (mode_message msg) eqn:M; [discriminate Q |].
  cbn [fold_left]. rewrite (report_other f msg M). apply IH, Q.
Qed.

Lemma quiet_hears (subscribed : list string) (es : list event)
    (sys : System) (gui : ADRController) :
  quiet sys es ->
  hears subscribed (server sys) (server (run es sys)) gui = gui.
Proof.
  unfold quiet, hears.
  generalize (sent_since (server sys) (server (run es sys))).
  intros msgs. revert gui.
  induction msgs as [| msg msgs IH]; intros gui Q; [reflexivity |].
  cbn [filter] in Q. destruct (mode_message msg) eqn:M; [discriminate Q |].
  cbn [fold_left]. unfold deliver at 2.
  rewrite (on_named_message_other gui msg M).
  destruct (existsb _ subscribed); apply IH, Q.
Qed.

(** With all four names subscribed to, every message is handled. *)
Lemma deliver_listeners (gui : ADRController) (msg : string * string) :
  deliver listeners gui msg = on_named_message gui msg.
Proof.
  unfold deliver. fold (mode_message msg).
  destruct (mode_message msg) eqn:M; [reflexivity |].
  symmetry. apply on_named_message_other, M.
Qed.

(** A window shows the server's mode flags once it is connected, provided
    that no mode message was sent while it connected: the two flags are
    read by two requests and the four subscriptions are made one after the
    other, so the window has no way to learn of a change made in
    between.  From then on it receives the named messages the server
    sends, in the order they were sent: the mag-up button reads 'Stop
    Magging Up' exactly while [maggingUp] is set and is disabled exactly
    while [regulating] is set, and the other way round for the regulate
    button.  Hence a click on a button that the window lets through is
    never a start request that the server turns down for a mode conflict,
    nor a cancel of a mode that is not running.  (The temperature field
    calls [regulate] on losing the focus as well; that path is not a
    button and is outside this statement.) *)
Theorem window_mirrors_server (sys : System) (m : Meanwhile)
    (es : list event) :
  quiet sys (meanwhile m) ->
  exists gui0,
    connect sys m = Some (gui0, run (meanwhile m) sys) /\
    let sys' := run es (run (meanwhile m) sys) in
    let gui :=
      hears listeners (server (run (meanwhile m) sys)) (server sys') gui0 in
    mirrors gui (flags (server sys')) /\
    (forall temp,
       click (magUpButton gui) temp = Some MagUp ->
       maggingUp (state (server sys')) = false /\
       regulating (state (server sys')) = false) /\
    (forall temp,
       click (regulateButton gui) temp = Some (Regulate temp) ->
       maggingUp (state (server sys')) = false /\
       regulating (state (server sys')) = false) /\
    (forall temp,
       click (magUpButton gui) temp = Some CancelMagUp ->
       maggingUp (state (server sys')) = true) /\
    (forall temp,
       click (regulateButton gui) temp = Some CancelRegulation ->
       regulating (state (server sys')) = true).
Proof.
  intro Q. unfold meanwhile in *.
  destruct (quiet_app _ _ _ Q) as (Q1 & Qa).
  destruct (quiet_app _ _ _ Qa) as (Q2 & Qb).
  destruct (quiet_app _ _ _ Qb) as (Q3 & Qc).
  destruct (quiet_app _ _ _ Qc) as (Q4 & Q5).
  clear Qa Qb Qc.
  destruct (initializeWindow_mirrors (server sys)
              (server (run (between_reads m) sys)) (quiet_flags _ _ Q1))
    as (gui0 & E & M0).
  exists gui0.
  assert (F : flags (server
                       (run (between_reads m ++ before_listening m
                             ++ after_MagUp_Stopped m
                             ++ after_Regulation_Stopped m
                             ++ after_MagUp_Started m) sys))
              = flags (server sys)) by (apply quiet_flags, Q).
  rewrite !run_app in *.
  split.
  { unfold connect. rewrite E. cbv zeta.
    rewrite (quiet_hears _ _ _ _ Q3), (quiet_hears _ _ _ _ Q4),
      (quiet_hears _ _ _ _ Q5).
    reflexivity. }
  set (sys0 := run (after_MagUp_Started m) _) in *.
  cbv zeta.
  assert (M : mirrors (hears listeners (server sys0) (server (run es sys0))
                         gui0)
                (flags (server (run es sys0)))).
  { rewrite <- (proj2 (messages_tell_modes_aux es sys0)).
    unfold hears.
    generalize (sent_since (server sys0) (server (run es sys0))).
    intro msgs. rewrite F. revert M0. generalize (flags (server sys)).
    clear E. revert gui0.
    induction msgs as [| msg msgs IH]; intros gui0 f M0; [exact M0 |].
    cbn [fold_left]. rewrite deliver_listeners.
    apply IH, on_named_message_mirrors, M0. }
  split; [exact M |].
  destruct M as (A & B). unfold flags in A, B. cbn [fst snd] in A, B.
  unfold click. rewrite A, B.
  destruct (maggingUp (state (server (run es sys0)))),
    (regulating (state (server (run es sys0))));
    cbn; repeat split; intros; try discriminate; reflexivity.
Qed.

Lemma window_mirrors_server_witness :
  let m := mkMeanwhile [] [AddToLog None] [] [] [] in
  quiet (polled 1) (meanwhile m) /\
  exists gui0,
    connect (polled 1) m = Some (gui0, run (meanwhile m) (polled 1)) /\
    let sys' :=
      run [Regulate (Fin (1 # 10)); CancelRegulation]
        (run (meanwhile m) (polled 1)) in
    let gui :=
      hears listeners (server (run (meanwhile m) (polled 1))) (server sys')
        gui0 in
    click (magUpButton gui) (Fin 0) = Some MagUp /\
    maggingUp (state (server sys')) = false /\
    regulating (state (server sys')) = false.
Proof.
  cbv zeta.
  assert (Q : quiet (polled 1)
                (meanwhile (mkMeanwhile [] [AddToLog None] [] [] [])))
    by (vm_compute; reflexivity).
  split; [exact Q |].
  destruct (window_mirrors_server (polled 1)
              (mkMeanwhile [] [AddToLog None] [] [] [])
              [Regulate (Fin (1 # 10)); CancelRegulation] Q)
    as (gui0 & E & M & C & _).
  exists gui0. split; [exact E |]. cbv zeta in M, C |- *.
  assert (F : flags (server (run [Regulate (Fin (1 # 10)); CancelRegulation]
                               (run (meanwhile
                                       (mkMeanwhile [] [AddToLog None] [] []
                                          []))
                                  (polled 1))))
              = (false, false))
    by (vm_compute; reflexivity).
  match goal with
  | |- click ?b _ = _ /\ _ =>
      assert (K : click b (Fin 0) = Some MagUp)
  end.
  { destruct M as (A & _). rewrite F in A. unfold click. rewrite A.
    reflexivity. }
  split; [exact K |]. exact (C (Fin 0) K).
Defined.

(** Without that proviso the window can be wrong for good.  A mag-up
    request that the server accepts after the window has read the two
    flags, and before its listeners are in place, goes unseen: the server
    is magging up, and the window shows 'Mag Up' and 'Regulate', both
    enabled. *)
Lemma window_misses_a_start :
  let m := mkMeanwhile [] [MagUp] [] [] [] in
  match connect (polled 1) m with
  | Some (gui, sys) =>
      maggingUp (state (server sys)) = true /\
      magUpButton gui = mkButton "Mag Up" magUp NORMAL /\
      regulateButton gui = mkButton "Regulate" regulate NORMAL /\
      click (magUpButton gui) (Fin 0) = Some MagUp /\
      click (regulateButton gui) (Fin 0) = Some (Regulate (Fin 0))
  | None => False
  end.
Proof. vm_compute. repeat split. Qed.

Lemma magUp_cycle_safe_witness :
  In (Fin (3 # 1000))
     (written (magUp_enter (server at_rest))
        (magUp_cycle (magUp_enter (server at_rest)))) /\
  (Fin (3 # 1000)
   >? voltage_limit (ADRSettings (magUp_enter (server at_rest))))%num
  = false.
Proof.
  assert (I : In (Fin (3 # 1000))
                (written (magUp_enter (server at_rest))
                   (magUp_cycle (magUp_enter (server at_rest)))))
    by (vm_compute; left; reflexivity).
  split; [exact I |].
  exact (proj2 (magUp_cycle_safe (magUp_enter (server at_rest))) _ I).
Defined.

(** * startServers *)

Lemma lstrip_length (chars s : string) :
  (String.length (lstrip chars s) <= String.length s)%nat.
Proof.
  induction s as [| c rest IH]; cbn; [lia |].
  destruct (in_chars c chars); cbn; lia.
Qed.

Lemma rstrip_length (chars s : string) :
  (String.length (rstrip chars s) <= String.length s)%nat.
Proof.
  induction s as [| c rest IH]; cbn; [lia |].
  destruct (is_empty _ && in_chars c chars); cbn; lia.
Qed.

Lemma lstrip_fixed (chars s : string) :
  lstrip chars s = s <-> starts_in chars s = false.
Proof.
  destruct s as [| c rest]; cbn; [tauto |].
  destruct (in_chars c chars); split; intro H; try reflexivity;
    try discriminate.
  exfalso. pose proof (lstrip_length chars rest) as L.
  rewrite H in L. cbn in L. lia.
Qed.

Lemma rstrip_fixed (chars s : string) :
  rstrip chars s = s <-> ends_in chars s = false.
Proof.
  induction s as [| c rest IH]; [cbn; tauto |].
  cbn [rstrip ends_in].
  destruct rest as [| d rest'].
  - cbn. destruct (in_chars c chars); split; intro H; try reflexivity;
      discriminate.
  - split; intro H.
    + apply IH.
      destruct (is_empty _ && in_chars c chars); [discriminate H |].
      injection H as H. exact H.
    + apply IH in H. rewrite H. reflexivity.
Qed.

Lemma pystrip_fixed (chars s : string) :
  pystrip chars s = s <->
  starts_in chars s = false /\ ends_in chars s = false.
Proof.
  unfold pystrip. split.
  - intro H.
    assert (L : lstrip chars s = s).
    { destruct (starts_in chars s) eqn:S; [| apply lstrip_fixed, S].
      exfalso. destruct s as [| c rest]; [discriminate S |].
      cbn in S. cbn [lstrip] in H. rewrite S in H.
      pose proof (rstrip_length chars (lstrip chars rest)) as A.
      pose proof (lstrip_length chars rest) as B.
      rewrite H in A. cbn in A. lia. }
    split; [apply lstrip_fixed, L |].
    rewrite L in H. apply rstrip_fixed, H.
  - intros (S & E).
    rewrite (proj2 (lstrip_fixed chars s) S). apply rstrip_fixed, E.
Qed.

(** The node name is what [strip] leaves of the name of the last running
    server, if that name contains 'node ', and the COMPUTERNAME of the
    environment otherwise: the servers before the last one do not count.
    [strip('node ')] removes characters, not a prefix: from 'node ' followed
    by a computer name it gives back that name exactly when the name
    neither begins nor ends with one of the characters n, o, d, e and
    space. *)
Theorem node_name_of_last_server (running_servers : list string)
    (name machine : string) (c : string) :
  find_node (running_servers ++ [name]) (Some c) Unbound
  = Some (Bound (if found "node " name then pystrip "node " name else c)) /\
  pystrip "node " ("node " ++ machine) = pystrip "node " machine /\
  (pystrip "node " ("node " ++ machine) = machine <->
   starts_in "node " machine = false /\ ends_in "node " machine = false).
Proof.
  split; [| split].
  - generalize Unbound.
    induction running_servers as [| n rest IH]; intro b; cbn.
    + destruct (found "node " name); reflexivity.
    + destruct (found "node " n); apply IH.
  - reflexivity.
  - change (pystrip "node " ("node " ++ machine))
      with (pystrip "node " machine).
    apply pystrip_fixed.
Qed.

Lemma node_name_of_last_server_witness :
  starts_in "node " "vostok" = false /\
  ends_in "node " "vostok" = false /\
  pystrip "node " ("node " ++ "vostok") = "vostok"%string /\
  pystrip "node " ("node " ++ "desktop") = "sktop"%string.
Proof.
  split; [reflexivity |]. split; [reflexivity |].
  split; [| reflexivity].
  destruct (node_name_of_last_server [] ""%string "vostok"%string ""%string)
    as (_ & _ & H).
  apply H. split; reflexivity.
Defined.

Lemma start_servers_log (running_servers : list string) (nodeName : binding)
    (start : string -> string -> option string) (servList : list string)
    (srv : Server) :
  let srv' := start_servers running_servers nodeName start servList srv in
  state srv' = state srv /\
  named_messages srv' = named_messages srv /\
  ps_voltage_writes srv' = ps_voltage_writes srv /\
  exists entries,
    logMessages srv' = logMessages srv ++ entries /\
    map snd entries
    = map (start_fails running_servers nodeName start) servList.
Proof.
  cbv zeta. revert srv.
  induction servList as [| server rest IH]; intro srv.
  - split; [reflexivity |]. split; [reflexivity |]. split; [reflexivity |].
    exists []. split; [symmetry; apply app_nil_r | reflexivity].
  - cbn [start_servers].
    destruct (IH (start_server running_servers nodeName start server srv))
      as (S & N & W & entries & L & A).
    assert (K : exists m,
      start_server running_servers nodeName start server srv
      = logMessage m (start_fails running_servers nodeName start server) srv).
    { unfold start_server, start_fails.
      destruct (existsb _ running_servers); cbn [negb andb];
        [eexists; reflexivity |].
      destruct nodeName as [| n]; [eexists; reflexivity |].
      destruct (start _ server); eexists; reflexivity. }
    destruct K as (m & K). rewrite K in S, N, W, L |- *.
    split; [exact S |]. split; [exact N |]. split; [exact W |].
    exists ((m, start_fails running_servers nodeName start server)
            :: entries).
    split.
    + rewrite L. cbn. rewrite <- app_assoc. reflexivity.
    + cbn. rewrite A. reflexivity.
Qed.

(** [startServers] logs exactly one entry for each server of the start
    list, in the order of the list, and the entry carries the alert flag
    exactly when the server was not running and could not be started; it
    touches neither the state nor the supply and sends no named message.
    An empty list of running servers is no exception: every start then
    fails inside the [try], on the unbound node name.  The only way out by
    an exception is a running server that is no node while the environment
    has no COMPUTERNAME. *)
Theorem startServers_logs_each (running_servers : list string)
    (computername : option string)
    (start : string -> string -> option string) (servList : list string)
    (srv : Server) :
  (forall nodeName,
     find_node running_servers computername Unbound = Some nodeName ->
     exists srv',
       startServers running_servers computername start servList srv
       = Returns srv' /\
       state srv' = state srv /\
       named_messages srv' = named_messages srv /\
       ps_voltage_writes srv' = ps_voltage_writes srv /\
       exists entries,
         logMessages srv' = logMessages srv ++ entries /\
         map snd entries
         = map (start_fails running_servers nodeName start) servList) /\
  (running_servers = [] ->
   exists srv',
     startServers running_servers computername start servList srv
     = Returns srv' /\
     exists entries,
       logMessages srv' = logMessages srv ++ entries /\
       map snd entries = map (fun _ => true) servList) /\
  (startServers running_servers computername start servList srv = Raises srv
   <-> computername = None /\
       existsb (fun name => negb (found "node " name)) running_servers
       = true).
Proof.
  split; [| split].
  - intros nodeName F. unfold startServers. rewrite F.
    eexists. split; [reflexivity |].
    apply start_servers_log.
  - intros ->. unfold startServers. cbn [find_node].
    eexists. split; [reflexivity |].
    destruct (start_servers_log [] Unbound start servList srv)
      as (_ & _ & _ & entries & L & A).
    exists entries. split; [exact L |]. rewrite A.
    apply map_ext. intro server. reflexivity.
  - unfold startServers.
    assert (G : forall b,
      find_node running_servers computername b = None <->
      computername = None /\
      existsb (fun name => negb (found "node " name)) running_servers
      = true).
    { induction running_servers as [| n rest IH]; intro b; cbn.
      - split; [discriminate | intros (_ & H); discriminate H].
      - destruct (found "node " n); cbn.
        + apply IH.
        + destruct computername as [c |].
          * rewrite IH. split; [tauto | intros (H & _); discriminate H].
          * split; intros _; [split |]; reflexivity. }
    destruct (find_node running_servers computername Unbound) eqn:F.
    + split; [discriminate |].
      intro H. apply (proj2 (G Unbound)) in H. rewrite H in F.
      discriminate F.
    + split; [intros _; apply (proj1 (G Unbound)), F | reflexivity].
Qed.

Lemma startServers_logs_each_witness :
  let start := fun (_ server : string) =>
    if (server =? "SIM921 Server")%string then None
    else Some ": no such server"%string in
  find_node ["Manager"; "Registry"; "node vostok"]%string
    (Some "LAB-PC"%string) Unbound
  = Some (Bound "vostok") /\
  exists srv',
    startServers ["Manager"; "Registry"; "node vostok"]%string
      (Some "LAB-PC"%string) start
      ["Registry"; "SIM921 Server"; "SIM922 Server"]%string (init epoch)
    = Returns srv' /\
    map snd (logMessages srv') = [false; false; true].
Proof.
  cbv zeta.
  assert (F : find_node ["Manager"; "Registry"; "node vostok"]%string
                (Some "LAB-PC"%string) Unbound
              = Some (Bound "vostok"))
    by (vm_compute; reflexivity).
  split; [exact F |].
  destruct (startServers_logs_each
              ["Manager"; "Registry"; "node vostok"]%string
              (Some "LAB-PC"%string)
              (fun (_ server : string) =>
                 if (server =? "SIM921 Server")%string then None
                 else Some ": no such server"%string)
              ["Registry"; "SIM921 Server"; "SIM922 Server"]%string
              (init epoch)) as (H & _).
  destruct (H _ F) as (srv' & R & _ & _ & _ & entries & L & A).
  exists srv'. split; [exact R |].
  rewrite L. cbn [init logMessages app]. rewrite A.
  vm_compute. reflexivity.
Defined.
